(** * Zone leasing and task assignment of the inventory application

    A shallow embedding of the lease handling of [app.py]: the sweep of
    overdue tasks, the reservation of a zone, the occupied-zone query, the
    request handlers for a new task, completion, the administrative
    extension, the listing of active tasks and the proximity suggestions.

    Conventions of the embedding.
    - A timestamp is a number of microseconds (PostgreSQL's resolution), an
      integer of [Z]; [CURRENT_TIMESTAMP] is the argument [now] of a handler,
      read once for the whole request.
    - The table [active_tasks] is the list of its rows in insertion order.
    - A connection carries the committed rows, the rows as the open
      transaction sees them, the [SERIAL] sequence of [task_id] and a fault
      plan: the outcomes of the coming store calls ([true]: the call raises).
      An empty plan is a store that answers every call. Any failure of the
      store, of one statement or of all that follow, is some plan.
    - The tables [warehouse_places] and [inventory_results] are read only
      here and are arguments of the handlers; their integer columns are
      integers of [Z], far from the bounds of their SQL types.
    - The random choice of [ORDER BY RANDOM()] is an argument: the draw of
      each attempt.
    - Where SQL leaves the order of equal rows or the row of a [LIMIT 1]
      open, the embedding fixes one: the order of the merge sort, the first
      row of the table.
    - Strings are byte strings; codes and badges are ASCII, and the order
      of codes is the byte-wise one. *)

From Stdlib Require Import ZArith String Ascii Bool Lia.
From stdpp Require Import base gmap strings list sorting pretty.

#[local] Set Warnings "-clear-no-such-hyp".

Open Scope string_scope.
Open Scope list_scope.
Open Scope Z_scope.

(** ** Time *)

Definition timestamp := Z.

(** [INTERVAL 'h hours'] in microseconds. *)
Definition hours (h : Z) : Z := h * 3600000000.

(** ** The table active_tasks *)

(** The three values the code writes into [status VARCHAR(20)]. *)
Inductive task_status := active | expired | completed.

#[global] Instance task_status_eq_dec : EqDecision task_status.
Proof. solve_decision. Defined.

Record lease := mkLease {
  task_id : Z;
  zone_prefix : string;
  badge : string;
  assigned_at : timestamp;
  expires_at : timestamp;
  status : task_status
}.

#[global] Instance lease_eq_dec : EqDecision lease.
Proof. solve_decision. Defined.

Definition set_status (st : task_status) (l : lease) : lease :=
  mkLease (task_id l) (zone_prefix l) (badge l) (assigned_at l) (expires_at l) st.

Definition set_expires_at (t : timestamp) (l : lease) : lease :=
  mkLease (task_id l) (zone_prefix l) (badge l) (assigned_at l) t (status l).

Definition is_active (l : lease) : bool := bool_decide (status l = active).

(** [status = 'active' AND expires_at > CURRENT_TIMESTAMP] *)
Definition live (now : timestamp) (l : lease) : bool :=
  is_active l && (now <? expires_at l).

(** ** Connections and the store monad *)

Record conn := mkConn {
  committed : list lease;
  working : list lease;
  task_id_seq : Z;
  faults : list bool
}.

Inductive outcome (A : Type) :=
| Ret (a : A) (c : conn)
| Raise (e : string) (c : conn).
Arguments Ret {A} a c.
Arguments Raise {A} e c.

Definition DB (A : Type) := conn -> outcome A.

Definition ret {A} (a : A) : DB A := fun c => Ret a c.
Definition raise {A} (e : string) : DB A := fun c => Raise e c.
Definition bind {A B} (m : DB A) (k : A -> DB B) : DB B :=
  fun c => match m c with
           | Ret a c' => k a c'
           | Raise e c' => Raise e c'
           end.
(** [try: m except Exception as e: h e] *)
Definition try_except {A} (m : DB A) (h : string -> DB A) : DB A :=
  fun c => match m c with
           | Ret a c' => Ret a c'
           | Raise e c' => h e c'
           end.

Notation "'let*' x ':=' m 'in' k" := (bind m (fun x => k))
  (at level 10, x name, m at level 100, k at level 200, only parsing).
Notation "m '>>' k" := (bind m (fun _ => k))
  (at level 80, right associativity, only parsing).

Definition conn_of {A} (o : outcome A) : conn :=
  match o with Ret _ c => c | Raise _ c => c end.
Definition value_of {A} (o : outcome A) : option A :=
  match o with Ret a _ => Some a | Raise _ _ => None end.

Definition store_error : string := "psycopg2.Error".

(** Every call that reaches the server consumes one entry of the plan. *)
Definition store_call : DB unit := fun c =>
  match faults c with
  | [] => Ret tt c
  | false :: fs => Ret tt (mkConn (committed c) (working c) (task_id_seq c) fs)
  | true :: fs => Raise store_error (mkConn (committed c) (working c) (task_id_seq c) fs)
  end.

(** [cur.execute] of a statement reading the table. *)
Definition execute_query {A} (q : list lease -> A) : DB A :=
  store_call >> fun c => Ret (q (working c)) c.

(** [cur.execute] of an UPDATE: the new rows and what [rowcount] or
    [RETURNING] gives back. *)
Definition execute_update {A} (u : list lease -> A * list lease) : DB A :=
  store_call >> fun c =>
    let (a, w) := u (working c) in
    Ret a (mkConn (committed c) w (task_id_seq c) (faults c)).

(** [conn.commit()] *)
Definition commit : DB unit :=
  store_call >> fun c =>
    Ret tt (mkConn (working c) (working c) (task_id_seq c) (faults c)).

(** [safe_rollback(conn)]: pending writes are dropped; an error of the
    rollback itself is logged, never raised. Sequences are not rolled back. *)
Definition safe_rollback : DB unit := fun c =>
  Ret tt (mkConn (committed c) (committed c) (task_id_seq c) (faults c)).

(** The same connection with another fault plan. *)
Definition with_faults (c : conn) (plan : list bool) : conn :=
  mkConn (committed c) (working c) (task_id_seq c) plan.

(** A connection between requests, on a store that answers. *)
Definition quiet (c : conn) : Prop := working c = committed c /\ faults c = [].

(** ** cleanup_expired_tasks *)

(** [WHERE expires_at < CURRENT_TIMESTAMP AND status = 'active'] *)
Definition overdue (now : timestamp) (l : lease) : bool :=
  (expires_at l <? now) && is_active l.

(** [SET status = 'expired'] on the rows of the [WHERE]. *)
Definition swept (now : timestamp) (l : lease) : lease :=
  if overdue now l then set_status expired l else l.

(** The [UPDATE] and its [rowcount]. *)
Definition sql_expire (now : timestamp) (t : list lease) : nat * list lease :=
  (length (filter (fun l => overdue now l = true) t), swept now <$> t).

Definition cleanup_expired_tasks (now : timestamp) : DB unit :=
  try_except
    (let* expired_count := execute_update (sql_expire now) in
     commit >> ret tt)
    (fun e => safe_rollback).

(** ** reserve_zone *)

(** [SELECT badge ... WHERE zone_prefix = %s AND status = 'active'
    AND expires_at > CURRENT_TIMESTAMP], then [fetchone]. *)
Definition sql_find_active (zone : string) (now : timestamp) (t : list lease)
  : option string :=
  head (fmap badge (filter (fun l => zone_prefix l = zone /\ live now l = true) t)).

(** The columns are [zone_prefix VARCHAR(50)] and [badge VARCHAR(100)]. *)
Definition fits_columns (zone b : string) : bool :=
  (String.length zone <=? 50)%nat && (String.length b <=? 100)%nat.

(** [INSERT INTO active_tasks (zone_prefix, badge, expires_at) VALUES
    (%s, %s, CURRENT_TIMESTAMP + INTERVAL '%s hours')]; [task_id],
    [assigned_at] and [status] take their defaults. *)
Definition execute_insert (zone b : string) (now : timestamp) (hrs : Z) : DB lease :=
  store_call >> fun c =>
    if fits_columns zone b then
      let l := mkLease (task_id_seq c) zone b now (now + hours hrs) active in
      Ret l (mkConn (committed c) (working c ++ [l]) (task_id_seq c + 1) (faults c))
    else Raise "value too long for type character varying" c.

Definition reserve_zone (now : timestamp) (zone b : string) (hrs : Z) : DB bool :=
  try_except
    (let* existing := execute_query (sql_find_active zone now) in
     match existing with
     | Some _ => ret false
     | None => execute_insert zone b now hrs >> commit >> ret true
     end)
    (fun e => safe_rollback >> ret false).

(** ** get_occupied_zones *)

(** [SELECT DISTINCT zone_prefix ... WHERE status = 'active'
    AND expires_at > CURRENT_TIMESTAMP] *)
Definition sql_occupied (now : timestamp) (t : list lease) : list string :=
  remove_dups (fmap zone_prefix (filter (fun l => live now l = true) t)).

Definition get_occupied_zones (now : timestamp) : DB (gset string) :=
  try_except
    (let* rows := execute_query (sql_occupied now) in
     ret (list_to_set rows))
    (fun e => ret ∅).

(** ** The catalog warehouse_places *)

Record place := mkPlace {
  mx_id : Z;
  mx_code : option string;
  floor : option Z;
  row_num : option Z;
  section : option Z
}.

(** [WHERE mx_code IS NOT NULL AND mx_code != ''] *)
Definition usable (p : place) : bool :=
  match mx_code p with
  | Some s => negb (String.eqb s EmptyString)
  | None => false
  end.

(** [ORDER BY mx_code]: byte-wise lexicographic order. *)
Definition code_le (a b : string) : Prop := String.leb a b = true.

#[global] Instance code_le_dec : RelDecision code_le.
Proof. intros a b. unfold code_le. apply _. Defined.

(** [s[:n]] and [SUBSTRING(s, 1, n)] *)
Definition py_prefix (n : nat) (s : string) : string := String.substring 0 n s.

(** [LIKE]: [%] is any run of characters, [_] any one character, a
    backslash quotes the character after it. *)
Fixpoint sql_like (pat : list ascii) : list ascii -> bool :=
  match pat with
  | [] => fun s => match s with [] => true | _ :: _ => false end
  | c :: p =>
    if Ascii.eqb c "%" then
      fix star (s : list ascii) : bool :=
        sql_like p s || match s with [] => false | _ :: s' => star s' end
    else if Ascii.eqb c "_" then
      fun s => match s with [] => false | _ :: s' => sql_like p s' end
    else if Ascii.eqb c "\" then
      match p with
      | [] => fun _ => false
      | q :: p' =>
        fun s => match s with
                 | [] => false
                 | x :: s' => Ascii.eqb x q && sql_like p' s'
                 end
      end
    else
      fun s => match s with
               | [] => false
               | x :: s' => Ascii.eqb x c && sql_like p s'
               end
  end.

Definition like (s pat : string) : bool :=
  sql_like (list_ascii_of_string pat) (list_ascii_of_string s).

(** ** HTTP responses *)

Inductive response (A : Type) :=
| Http200 (body : A)
| HttpError (code : Z) (error : string).
Arguments Http200 {A} body.
Arguments HttpError {A} code error.

(** ** get_new_task *)

(** The [random_place] of the query: [ORDER BY RANDOM() LIMIT 1] over the
    usable rows; [draw] is the random choice. *)
Definition random_place (catalog : list place) (draw : nat) : option string :=
  let pool := omap mx_code (filter (fun p => usable p = true) catalog) in
  pool !! (draw mod length pool)%nat.

(** [ORDER BY w.mx_code] on the rows [(place_cod, place_name)]. *)
Definition by_code (a b : Z * string) : Prop := code_le a.2 b.2.

#[global] Instance by_code_dec : RelDecision by_code.
Proof. intros a b. unfold by_code. apply _. Defined.

(** The rows [(place_cod, place_name)] of the zone of the sampled place:
    [w.mx_code LIKE SUBSTRING(r.mx_code, 1, 9) || '%'], ordered by code. *)
Definition zone_rows (catalog : list place) (r : string) : list (Z * string) :=
  merge_sort by_code
    (omap (fun w =>
             match mx_code w with
             | Some s =>
               if like s (String.append (py_prefix 9 r) "%")
               then Some (mx_id w, s) else None
             | None => None
             end) catalog).

(** The whole statement with its [LIMIT %s]; a negative limit is refused
    by the server. *)
Definition sql_zone (catalog : list place) (draw : nat) (zone_size : Z)
  : option (list (Z * string)) :=
  if zone_size <? 0 then None
  else Some (match random_place catalog draw with
             | Some r => take (Z.to_nat zone_size) (zone_rows catalog r)
             | None => []
             end).

(** [cur.execute] of a statement over the catalog. A statement that the
    store refuses raises. The failed transaction that the driver then
    leaves until the next rollback is not part of the connection of the
    embedding: nothing is stated on the connection after a refused
    statement that no rollback follows. *)
Definition execute_catalog {A} (q : option A) : DB A :=
  store_call >>
  match q with
  | Some a => ret a
  | None => raise "LIMIT must not be negative"
  end.

Record task := mkTask {
  zone : string;
  total_places : nat;
  places : list (Z * string);
  reserved : bool
}.

Record new_task_body := mkNewTask {
  nt_task : task;
  nt_timestamp : timestamp;
  expires_in_hours : Z
}.

Definition all_busy : response new_task_body :=
  HttpError 503 "Все доступные зоны заняты. Попробуйте позже.".

(** The loop [for attempt in range(max_attempts)] and what follows it. *)
Fixpoint find_zone (now : timestamp) (b : string) (zone_size : Z)
    (catalog : list place) (rnd : nat -> nat)
    (attempts : list nat) (occupied_zones : gset string)
  : DB (response new_task_body) :=
  match attempts with
  | [] => ret all_busy
  | attempt :: rest =>
    let* rows := execute_catalog (sql_zone catalog (rnd attempt) zone_size) in
    match rows with
    | [] => find_zone now b zone_size catalog rnd rest occupied_zones
    | first :: _ =>
      let zp := py_prefix 9 first.2 in
      if String.eqb zp "" then
        find_zone now b zone_size catalog rnd rest occupied_zones
      else if bool_decide (zp ∈ occupied_zones) then
        find_zone now b zone_size catalog rnd rest occupied_zones
      else
        let* ok := reserve_zone now zp b 2 in
        if ok then
          ret (Http200 (mkNewTask (mkTask zp (length rows) rows true) now 2))
        else
          find_zone now b zone_size catalog rnd rest ({[zp]} ∪ occupied_zones)
    end
  end.

Definition max_attempts : nat := 10.

(** The request body: [badge] (default the empty string) and [zone_size]
    (default 50). [rnd] gives the random draw of each attempt. The handler
    of the exception answers 500 and does not roll back. *)
Definition get_new_task (b : string) (zone_size : Z) (now : timestamp)
    (catalog : list place) (rnd : nat -> nat) : DB (response new_task_body) :=
  try_except
    (cleanup_expired_tasks now >>
     let* occupied_zones := get_occupied_zones now in
     find_zone now b zone_size catalog rnd (seq 0 max_attempts) occupied_zones)
    (fun e => ret (HttpError 500 e)).

(** ** complete_task *)

(** [UPDATE active_tasks SET status = 'completed' WHERE zone_prefix = %s
    AND badge = %s AND status = 'active'] and its [rowcount]. *)
Definition closes (zn b : string) (l : lease) : bool :=
  String.eqb (zone_prefix l) zn && String.eqb (badge l) b && is_active l.

Definition closed (zn b : string) (l : lease) : lease :=
  if closes zn b l then set_status completed l else l.

Definition sql_complete (zn b : string) (t : list lease) : nat * list lease :=
  (length (filter (fun l => closes zn b l = true) t), closed zn b <$> t).

Record complete_body := mkComplete { success : bool; message : string }.

Definition done_msg : string := "Задание завершено".
Definition gone_msg : string := "Задание не найдено или уже завершено".

Definition complete_task (b zn : string) : DB (response complete_body) :=
  try_except
    (if String.eqb b "" || String.eqb zn "" then
       ret (HttpError 400 "Не указан badge или zone")
     else
       let* updated := execute_update (sql_complete zn b) in
       commit >>
       if (0 <? updated)%nat then
         ret (Http200 (mkComplete true done_msg))
       else
         ret (Http200 (mkComplete false gone_msg)))
    (fun e => safe_rollback >> ret (HttpError 500 e)).

(** ** get_active_tasks *)

(** One entry of the listing. The handler reports the time left in hours,
    rounded to one decimal ([round(hours_left, 1)], which is 0.0 for the
    last minutes of a lease); the embedding keeps the time left exact, in
    microseconds, and no statement is made on the rounded value. *)
Record active_task := mkActiveTask {
  at_task_id : Z;
  at_zone : string;
  at_badge : string;
  at_assigned_at : timestamp;
  at_expires_at : timestamp;
  at_left : Z
}.

Definition newer_first (a b : lease) : Prop := assigned_at b <= assigned_at a.

#[global] Instance newer_first_dec : RelDecision newer_first.
Proof. intros a b. unfold newer_first. apply _. Defined.

(** [WHERE status = 'active' AND expires_at > CURRENT_TIMESTAMP
    ORDER BY assigned_at DESC] *)
Definition sql_active_tasks (now : timestamp) (t : list lease) : list lease :=
  merge_sort newer_first (filter (fun l => live now l = true) t).

Definition task_entry (now : timestamp) (l : lease) : active_task :=
  mkActiveTask (task_id l) (zone_prefix l) (badge l) (assigned_at l)
    (expires_at l) (expires_at l - now).

Definition get_active_tasks (now : timestamp) : DB (response (nat * list active_task)) :=
  try_except
    (let* rows := execute_query (sql_active_tasks now) in
     let tasks := fmap (task_entry now) rows in
     ret (Http200 (length tasks, tasks)))
    (fun e => ret (HttpError 500 e)).

(** ** admin_extend_task *)

(** [UPDATE active_tasks SET expires_at = expires_at + INTERVAL '%s hours'
    WHERE task_id = %s AND status = 'active' RETURNING ...], then [fetchone]. *)
Definition extends (tid : Z) (l : lease) : bool :=
  (task_id l =? tid) && is_active l.

Definition later (hrs : Z) (l : lease) : lease :=
  set_expires_at (expires_at l + hours hrs) l.

Definition extended (hrs tid : Z) (l : lease) : lease :=
  if extends tid l then later hrs l else l.

Definition sql_extend (hrs tid : Z) (t : list lease) : option lease * list lease :=
  (head (later hrs <$> filter (fun l => extends tid l = true) t),
   extended hrs tid <$> t).

Record extended_task := mkExtended {
  ex_task_id : Z;
  ex_zone : string;
  ex_badge : string;
  ex_expires_at : timestamp
}.

(** The cookie [admin_badge], and [task_id] and [hours] (default 1) of the
    request body; [0] and a missing [task_id] are both falsy. *)
Definition forbidden_msg : string := "Доступ запрещен".
Definition no_task_id_msg : string := "Не передан task_id".
Definition not_found_msg : string := "Задача не найдена или уже закрыта".

Definition admin_extend_task (admin_badge : option string) (tid : option Z) (hrs : Z)
  : DB (response extended_task) :=
  if negb (bool_decide (admin_badge = Some "ADMIN")) then
    ret (HttpError 403 forbidden_msg)
  else
    match tid with
    | None => ret (HttpError 400 no_task_id_msg)
    | Some 0 => ret (HttpError 400 no_task_id_msg)
    | Some id =>
      try_except
        (let* updated := execute_update (sql_extend hrs id) in
         commit >>
         match updated with
         | None => ret (HttpError 404 not_found_msg)
         | Some l =>
           ret (Http200 (mkExtended (task_id l) (zone_prefix l) (badge l) (expires_at l)))
         end)
        (fun e => safe_rollback >> ret (HttpError 500 e))
    end.

(** ** String helpers of the suggestions *)

(** [str.strip()] removes the ASCII white space of both ends. *)
Definition py_isspace (c : ascii) : bool :=
  let n := nat_of_ascii c in
  ((9 <=? n) && (n <=? 13) || (28 <=? n) && (n <=? 32))%nat.

Fixpoint lstrip (sp : ascii -> bool) (s : list ascii) : list ascii :=
  match s with
  | [] => []
  | c :: s' => if sp c then lstrip sp s' else s
  end.

Definition strip_with (sp : ascii -> bool) (s : string) : string :=
  string_of_list_ascii
    (rev (lstrip sp (rev (lstrip sp (list_ascii_of_string s))))).

Definition py_strip : string -> string := strip_with py_isspace.

(** [TRIM(s)] removes the spaces of both ends. *)
Definition sql_trim : string -> string := strip_with (Ascii.eqb " ").

(** [str.upper()] and [UPPER(s)] on ASCII. *)
Definition upper_ascii (c : ascii) : ascii :=
  let n := nat_of_ascii c in
  if ((97 <=? n) && (n <=? 122))%nat then ascii_of_nat (n - 32) else c.

Fixpoint py_upper (s : string) : string :=
  match s with
  | EmptyString => EmptyString
  | String c s' => String (upper_ascii c) (py_upper s')
  end.

(** [s.strip().upper()] *)
Definition normalized (s : string) : string := py_upper (py_strip s).

(** Truth value of an optional string: [None] and [''] are falsy. *)
Definition truthy (o : option string) : bool :=
  match o with
  | Some s => negb (String.eqb s "")
  | None => false
  end.

(** ** The table inventory_results *)

Record result_row := mkResult {
  ir_badge : string;
  ir_place_cod : option Z;
  ir_place_name : option string;
  has_discrepancy : bool;
  created_at : option timestamp
}.

(** [DESC NULLS LAST] on a nullable timestamp. *)
Definition desc_nulls_last (a b : option timestamp) : Prop :=
  match a, b with
  | Some x, Some y => y <= x
  | Some _, None => True
  | None, Some _ => False
  | None, None => True
  end.

#[global] Instance desc_nulls_last_dec : RelDecision desc_nulls_last.
Proof. intros [x|] [y|]; simpl; apply _. Defined.

Definition latest_first (a b : result_row) : Prop :=
  desc_nulls_last (created_at a) (created_at b).

#[global] Instance latest_first_dec : RelDecision latest_first.
Proof. intros a b. unfold latest_first. apply _. Defined.

Definition address : Type := option Z * option Z * option Z.

Definition address_of (p : place) : address := (floor p, row_num p, section p).

(** [SELECT floor, row_num, section FROM warehouse_places
    WHERE UPPER(TRIM(mx_code)) = UPPER(TRIM(%s)) LIMIT 1] *)
Definition same_code (code : string) (p : place) : bool :=
  match mx_code p with
  | Some s => String.eqb (py_upper (sql_trim s)) (py_upper (sql_trim code))
  | None => false
  end.

Definition sql_place_by_code (catalog : list place) (code : string) : option address :=
  head (fmap address_of (filter (fun p => same_code code p = true) catalog)).

(** [... WHERE mx_id = %s LIMIT 1] *)
Definition sql_place_by_id (catalog : list place) (id : Z) : option address :=
  head (fmap address_of (filter (fun p => mx_id p = id) catalog)).

(** [WHERE ir.badge = %s AND (ir.place_cod IS NOT NULL OR ir.place_name IS
    NOT NULL) ORDER BY ir.created_at DESC NULLS LAST LIMIT 1] *)
Definition scanned (b : string) (r : result_row) : bool :=
  String.eqb (ir_badge r) b
  && (bool_decide (is_Some (ir_place_cod r)) || bool_decide (is_Some (ir_place_name r))).

Definition sql_last_scan (results : list result_row) (b : string)
  : option (option Z * option string) :=
  head (fmap (fun r => (ir_place_cod r, ir_place_name r))
            (merge_sort latest_first (filter (fun r => scanned b r = true) results))).

(** [WHERE ir.has_discrepancy AND ir.place_name IS NOT NULL AND
    ir.place_name != '' GROUP BY ir.place_name
    ORDER BY MAX(ir.created_at) DESC NULLS LAST LIMIT 5] *)
Definition discrepancy_name (r : result_row) : option string :=
  if has_discrepancy r && truthy (ir_place_name r) then ir_place_name r else None.

(** [MAX] over a group skips the nulls. *)
Definition max_time (a b : option timestamp) : option timestamp :=
  match a, b with
  | Some x, Some y => Some (Z.max x y)
  | Some x, None => Some x
  | None, o => o
  end.

Definition group_time (results : list result_row) (name : string) : option timestamp :=
  foldr max_time None
    (fmap created_at (filter (fun r => discrepancy_name r = Some name) results)).

Definition latest_group (a b : string * option timestamp) : Prop :=
  desc_nulls_last a.2 b.2.

#[global] Instance latest_group_dec : RelDecision latest_group.
Proof. intros a b. unfold latest_group. apply _. Defined.

Definition sql_priority (results : list result_row) : list string :=
  take 5 (fmap fst
    (merge_sort latest_group
       (fmap (fun n => (n, group_time results n))
            (remove_dups (omap discrepancy_name results))))).

(** [ABS(f - %s) + ABS(r - %s) + ABS(s - %s)] over the coalesced columns. *)
Definition dist (rf rr rs : Z) (p : place) : Z :=
  Z.abs (default 0 (floor p) - rf)
  + Z.abs (default 0 (row_num p) - rr)
  + Z.abs (default 0 (section p) - rs).

(** [ORDER BY dist ASC, mx_code ASC] *)
Definition nearer (a b : string * Z) : Prop :=
  a.2 < b.2 \/ (a.2 = b.2 /\ code_le a.1 b.1).

#[global] Instance nearer_dec : RelDecision nearer.
Proof. intros a b. unfold nearer. apply _. Defined.

Definition ranked (catalog : list place) (rf rr rs : Z) : list (string * Z) :=
  merge_sort nearer
    (omap (fun p => if usable p
                    then (fun s => (s, dist rf rr rs p)) <$> mx_code p
                    else None) catalog).

Definition sql_nearest (catalog : list place) (rf rr rs : Z) : list (string * Z) :=
  take 20 (ranked catalog rf rr rs).

(** ** get_task_suggestions *)

Record suggestion := mkSuggestion {
  sg_mx_code : string;
  sg_zone : string;
  highlight : bool
}.

Definition suggest (priority_mx : gset string) (mc : string) : suggestion :=
  mkSuggestion mc
    (if (9 <=? String.length mc)%nat then py_prefix 9 mc else mc)
    (bool_decide (py_upper mc ∈ priority_mx)).


(** The loop [for row in nearest], with its [seen_mx] and [suggestions]. *)
Fixpoint collect (priority_mx : gset string) (nearest : list (string * Z))
    (seen_mx : gset string) (suggestions : list suggestion) : list suggestion :=
  match nearest with
  | [] => suggestions
  | row :: rest =>
    let mc := py_strip row.1 in
    if String.eqb mc "" || bool_decide (py_upper mc ∈ seen_mx) then
      collect priority_mx rest seen_mx suggestions
    else
      let suggestions' := suggestions ++ [suggest priority_mx mc] in
      if (12 <=? length suggestions')%nat then suggestions'
      else collect priority_mx rest ({[py_upper mc]} ∪ seen_mx) suggestions'
  end.

(** The reference [(ref_floor, ref_row, ref_section)]: from [near], else
    from the last scan of [badge], else all [None]. *)
Definition no_address : address := (None, None, None).

Definition reference (b near : option string) (catalog : list place)
    (results : list result_row) : DB address :=
  if truthy near then
    let* row := execute_catalog (Some (sql_place_by_code catalog (default "" near))) in
    ret (default no_address row)
  else if truthy b then
    let* last_scan := execute_catalog (Some (sql_last_scan results (default "" b))) in
    match last_scan with
    | Some (pc, pn) =>
      let* ref_row_db :=
        match pc with
        | Some id => execute_catalog (Some (sql_place_by_id catalog id))
        | None =>
          if truthy pn
          then execute_catalog (Some (sql_place_by_code catalog (default "" pn)))
          else execute_catalog (Some None)
        end in
      ret (default no_address ref_row_db)
    | None => ret no_address
    end
  else ret no_address.

(** The keys of the dict [priority_mx]: [row['mx_code'].strip().upper()]
    of the rows with a truthy [mx_code]. *)
Definition priority_keys (rows : list string) : gset string :=
  list_to_set (normalized <$> filter (fun s => truthy (Some s) = true) rows).

Definition get_task_suggestions (b near : option string) (catalog : list place)
    (results : list result_row) : DB (response (list suggestion * option string)) :=
  try_except
    (let* ref := reference b near catalog results in
     let* rows := execute_catalog (Some (sql_priority results)) in
     let priority_mx := priority_keys rows in
     let rf := default 0 ref.1.1 in
     let rr := default 0 ref.1.2 in
     let rs := default 0 ref.2 in
     let* nearest := execute_catalog (Some (sql_nearest catalog rf rr rs)) in
     ret (Http200 (collect priority_mx nearest ∅ [], b)))
    (fun e => safe_rollback >> ret (HttpError 500 e)).

(** ** Two requests inside reserve_zone at once

    Each request runs the statements of [reserve_zone] on the shared store:
    its SELECT reads the committed rows, and its INSERT becomes visible with
    the [commit] that follows it. A schedule says which request runs its
    next statement. Nothing else orders the two requests: the table has no
    uniqueness constraint on [zone_prefix] and the SELECT takes no lock. *)
Module Race.

Inductive pc := AtSelect | AtInsert | Finished (reserved : bool).

Record request := mkRequest {
  rq_zone : string;
  rq_badge : string;
  rq_now : timestamp;
  rq_pc : pc
}.

Definition at_pc (r : request) (p : pc) : request :=
  mkRequest (rq_zone r) (rq_badge r) (rq_now r) p.

(** The shared store: the committed rows and the sequence of [task_id]. *)
Definition store : Type := list lease * Z.

(** The next statement of a request, [reserve_zone] being called with
    [hours=2] as [get_new_task] calls it; an INSERT that the columns refuse
    ends in the handler of [reserve_zone], which answers [False]. *)
Definition step (r : request) (s : store) : request * store :=
  match rq_pc r with
  | AtSelect =>
    match sql_find_active (rq_zone r) (rq_now r) s.1 with
    | Some _ => (at_pc r (Finished false), s)
    | None => (at_pc r AtInsert, s)
    end
  | AtInsert =>
    if fits_columns (rq_zone r) (rq_badge r) then
      (at_pc r (Finished true),
       (s.1 ++ [mkLease s.2 (rq_zone r) (rq_badge r) (rq_now r)
                  (rq_now r + hours 2) active], s.2 + 1))
    else (at_pc r (Finished false), s)
  | Finished _ => (r, s)
  end.

(** [false] runs the first request, [true] the second. *)
Fixpoint run (sched : list bool) (a b : request) (s : store)
  : request * request * store :=
  match sched with
  | [] => (a, b, s)
  | false :: rest => let (a', s') := step a s in run rest a' b s'
  | true :: rest => let (b', s') := step b s in run rest a b' s'
  end.

Definition start (zn b : string) (now : timestamp) : request :=
  mkRequest zn b now AtSelect.

End Race.

(** The mutual exclusion of the leases of a table at the time [t]: no two
    rows of one zone are both active and unexpired. *)
Definition exclusive_at (t : timestamp) (rows : list lease) : Prop :=
  forall i j l1 l2,
    rows !! i = Some l1 -> rows !! j = Some l2 ->
    zone_prefix l1 = zone_prefix l2 ->
    live t l1 = true -> live t l2 = true -> i = j.

(** ** admin_assign_task *)

Record assigned_task := mkAssigned {
  as_task_id : Z;
  as_zone : string;
  as_badge : string;
  as_assigned_at : timestamp;
  as_expires_at : timestamp
}.

Definition assign_missing_msg : string := "Укажите badge и зону".

(** The cookie [admin_badge], and [badge], [zone] and [hours] (default 2)
    of the request body. The INSERT is the one of [reserve_zone], with
    [RETURNING task_id, assigned_at, expires_at]; no SELECT precedes it. *)
Definition admin_assign_task (admin_badge b zn : option string) (hrs : Z)
    (now : timestamp) : DB (response assigned_task) :=
  if negb (bool_decide (admin_badge = Some "ADMIN")) then
    ret (HttpError 403 forbidden_msg)
  else if negb (truthy b) || negb (truthy zn) then
    ret (HttpError 400 assign_missing_msg)
  else
    try_except
      (let* task := execute_insert (default "" zn) (default "" b) now hrs in
       commit >>
       ret (Http200 (mkAssigned (task_id task) (default "" zn) (default "" b)
                       (assigned_at task) (expires_at task))))
      (fun e => safe_rollback >> ret (HttpError 500 e)).

(** ** admin_close_task *)

(** [UPDATE active_tasks SET status = 'completed' WHERE task_id = %s AND
    status = 'active' RETURNING zone_prefix, badge], then [fetchone]. *)
Definition closed_by_id (tid : Z) (l : lease) : lease :=
  if extends tid l then set_status completed l else l.

Definition sql_close (tid : Z) (t : list lease) : option (string * string) * list lease :=
  (head ((fun l => (zone_prefix l, badge l)) <$> filter (fun l => extends tid l = true) t),
   closed_by_id tid <$> t).

Definition already_closed_msg : string := "Задача уже закрыта или не найдена".

(** [f"Задача {task_id} закрыта"] *)
Definition closed_msg (tid : Z) : string :=
  String.append "Задача " (String.append (pretty tid) " закрыта").

(** The handler of this one does not roll back. *)
Definition admin_close_task (admin_badge : option string) (tid : option Z)
  : DB (response string) :=
  if negb (bool_decide (admin_badge = Some "ADMIN")) then
    ret (HttpError 403 forbidden_msg)
  else
    match tid with
    | None => ret (HttpError 400 no_task_id_msg)
    | Some 0 => ret (HttpError 400 no_task_id_msg)
    | Some id =>
      try_except
        (let* updated := execute_update (sql_close id) in
         commit >>
         match updated with
         | None => ret (HttpError 404 already_closed_msg)
         | Some _ => ret (Http200 (closed_msg id))
         end)
        (fun e => ret (HttpError 500 e))
    end.

(** ** Characters of a LIKE pattern *)

(** A character that stands for itself in a pattern: none of [%], [_] and
    the backslash. *)
Definition plain (c : ascii) : bool :=
  negb (Ascii.eqb c "%") && negb (Ascii.eqb c "_") && negb (Ascii.eqb c "\").

(** ** Logins, cookies and pages *)

(** [response.set_cookie(name, value, max_age=..., httponly=...)] *)
Record set_cookie := mkSetCookie {
  ck_name : string;
  ck_value : string;
  ck_max_age : Z;
  ck_httponly : bool
}.

(** A response of the login handlers: the status, the JSON body and the
    cookies it sets, in their order. *)
Record login_response (A : Type) := mkLogin {
  lg_status : Z;
  lg_body : A;
  lg_cookies : list set_cookie
}.
Arguments mkLogin {A} lg_status lg_body lg_cookies.
Arguments lg_status {A} _.
Arguments lg_body {A} _.
Arguments lg_cookies {A} _.

Inductive auth_body :=
| AuthError (error : string)
| RequirePassword (message : string)
| LoggedIn (is_admin : bool) (badge_ : string) (redirect : string) (at_ : timestamp).

Definition ADMIN_BADGE : string := "ADMIN".
Definition ADMIN_PASSWORD : string := "admin123".

(** [auth]: [badge] and [password] of the request body, each the empty
    string when missing. *)
Definition auth (badge_in password_in : string) (now : timestamp)
  : login_response auth_body :=
  let b := py_strip badge_in in
  let password := py_strip password_in in
  if String.eqb b "" then
    mkLogin 400 (AuthError "Бэйдж не указан") []
  else if String.eqb b ADMIN_BADGE then
    if String.eqb password "" then
      mkLogin 200 (RequirePassword "Введите пароль администратора") []
    else if negb (String.eqb password ADMIN_PASSWORD) then
      mkLogin 401 (AuthError "Неверный пароль администратора") []
    else
      mkLogin 200 (LoggedIn true b "/admin/dashboard" now)
        [mkSetCookie "admin_badge" b 28800 true]
  else if (String.length b <? 3)%nat then
    mkLogin 400 (AuthError "Некорректный бэйдж") []
  else
    mkLogin 200 (LoggedIn false b "/work" now)
      [mkSetCookie "employee_badge" b 28800 true;
       mkSetCookie "admin_badge" "" 0 false].

Inductive admin_auth_body :=
| AdminAuthError (error : string)
| AdminAuthOk (message : string).

Definition admin_auth (badge_in password_in : string)
  : login_response admin_auth_body :=
  let b := py_strip badge_in in
  let password := py_strip password_in in
  if String.eqb b "" || String.eqb password "" then
    mkLogin 400 (AdminAuthError "Заполните все поля") []
  else if negb (String.eqb b ADMIN_BADGE) || negb (String.eqb password ADMIN_PASSWORD) then
    mkLogin 401 (AdminAuthError "Неверный бэйдж или пароль") []
  else
    mkLogin 200 (AdminAuthOk "Авторизация успешна")
      [mkSetCookie "admin_badge" b 28800 true;
       mkSetCookie "employee_badge" "" 0 false].

Definition admin_logout : login_response bool :=
  mkLogin 200 true [mkSetCookie "admin_badge" "" 0 false].

(** What a page handler gives back. *)
Inductive page :=
| Redirect (to : string)
| Render (template : string).

(** The pages read [request.cookies.get(...)]. *)
Definition index : page := Render "login.html".

Definition work (employee_badge : option string) : page :=
  if truthy employee_badge then Render "work.html" else Redirect "/".

Definition admin (admin_badge : option string) : page :=
  if truthy admin_badge && bool_decide (admin_badge = Some "ADMIN")
  then Redirect "/admin/dashboard" else Render "admin_login.html".

Definition admin_login_legacy : page := Redirect "/admin".

Definition admin_dashboard (admin_badge : option string) : page :=
  if negb (truthy admin_badge) || negb (bool_decide (admin_badge = Some "ADMIN"))
  then Redirect "/admin" else Render "admin.html".

(** The cookies a client sends with its next request, after a response:
    a cookie set with [max_age=0] is dropped, any other replaces the one of
    its name. *)
Definition keep_cookie (jar : gmap string string) (ck : set_cookie) : gmap string string :=
  if ck_max_age ck <=? 0 then delete (ck_name ck) jar
  else <[ck_name ck := ck_value ck]> jar.

Definition after_response {A} (jar : gmap string string) (r : login_response A)
  : gmap string string :=
  foldl keep_cookie jar (lg_cookies r).

(** ** Python strings: splitting and integers *)

(** [str.isdigit] and [\d] on ASCII characters, where they are the digits
    [0] to [9]. Beyond ASCII [str.isdigit] also accepts characters that
    [int] refuses; the theorems on the parsers take ASCII texts. *)
Definition is_digit (c : ascii) : bool :=
  let n := nat_of_ascii c in ((48 <=? n) && (n <=? 57))%nat.

(** [s.split(sep)] for a separator of one character: never empty. *)
Fixpoint split_on (sep : ascii) (s : string) : list string :=
  match s with
  | EmptyString => [EmptyString]
  | String c s' =>
    if Ascii.eqb c sep then EmptyString :: split_on sep s'
    else match split_on sep s' with
         | p :: ps => String c p :: ps
         | [] => [String c EmptyString]
         end
  end.

(** [sep in s] *)
Fixpoint contains (sep : ascii) (s : string) : bool :=
  match s with
  | EmptyString => false
  | String c s' => Ascii.eqb c sep || contains sep s'
  end.

(** [s.split(sep, 1)] of a string that holds [sep]: the part before the
    first one and the part after it. *)
Fixpoint split_once (sep : ascii) (s : string) : string * string :=
  match s with
  | EmptyString => (EmptyString, EmptyString)
  | String c s' =>
    if Ascii.eqb c sep then (EmptyString, s')
    else let (k, v) := split_once sep s' in (String c k, v)
  end.

Definition digit_value (c : ascii) : Z := Z.of_nat (nat_of_ascii c) - 48.

(** The digits of an [int] literal: single underscores between digits are
    allowed. [after_digit] tells whether the last character was a digit. *)
Fixpoint int_digits (acc : Z) (after_digit : bool) (l : list ascii) : option Z :=
  match l with
  | [] => if after_digit then Some acc else None
  | c :: l' =>
    if is_digit c then int_digits (10 * acc + digit_value c) true l'
    else if Ascii.eqb c "_" then
      if after_digit then int_digits acc false l' else None
    else None
  end.

(** [int(s)] of an ASCII string: white space around, one sign, decimal
    digits; [None] stands for the [ValueError]. The limit of [int] on the
    number of digits (4300 by default) is not part of it: the theorems on
    the parsers take texts within that length. *)
Definition py_int (s : string) : option Z :=
  match list_ascii_of_string (py_strip s) with
  | c :: l =>
    if Ascii.eqb c "-" then Z.opp <$> int_digits 0 false l
    else if Ascii.eqb c "+" then int_digits 0 false l
    else int_digits 0 false (c :: l)
  | [] => None
  end.

(** [''.join(filter(str.isdigit, s))] *)
Fixpoint only_digits (s : string) : string :=
  match s with
  | EmptyString => EmptyString
  | String c s' => if is_digit c then String c (only_digits s') else only_digits s'
  end.

(** A text of ASCII characters only. *)
Definition ascii_text (s : string) : bool :=
  forallb (fun a => (nat_of_ascii a <? 128)%nat) (list_ascii_of_string s).

(** ** extract_plt_id of the scraper *)

Definition starts_with_digit (s : string) : bool :=
  match s with
  | EmptyString => false
  | String c _ => is_digit c
  end.

Definition extract_plt_id (data_mx : option string) : option string :=
  if negb (truthy data_mx) || String.eqb (py_strip (default "" data_mx)) "" then None
  else
    match split_on "," (default "" data_mx) with
    | part :: _ =>
      let plt_id := py_strip part in
      if negb (String.eqb plt_id "") && starts_with_digit plt_id then Some plt_id
      else None
    | [] => None
    end.

(** ** parse_mx_code of the import *)

Record mx_fields := mkFields {
  f_code : option Z;
  f_floor : option Z;
  f_row_num : option Z;
  f_section : option Z;
  f_shelf : option Z;
  f_cell : option Z
}.

Definition no_fields : mx_fields := mkFields None None None None None None.

(** The statements of a [try] body, one after the other: the first that
    raises ends the body and the result stays as it was before it. *)
Fixpoint try_steps {R} (steps : list (R -> option R)) (r : R) : R :=
  match steps with
  | [] => r
  | step :: rest =>
    match step r with
    | Some r' => try_steps rest r'
    | None => r
    end
  end.

(** [if len(parts) >= k + 1: result[...] = int(parts[k])] *)
Definition int_part (parts : list string) (k : nat)
    (set : Z -> mx_fields -> mx_fields) (r : mx_fields) : option mx_fields :=
  match parts !! k with
  | Some s => (fun v => set v r) <$> py_int s
  | None => Some r
  end.

Definition parse_mx_code (mx_code : string) : mx_fields :=
  let parts := split_on "." mx_code in
  try_steps
    [ (fun r =>
         match parts !! 0%nat with
         | Some code_str =>
           let digits := only_digits code_str in
           if String.eqb digits "" then Some r
           else (fun v => mkFields (Some v) (f_floor r) (f_row_num r) (f_section r)
                            (f_shelf r) (f_cell r)) <$> py_int digits
         | None => Some r
         end);
      int_part parts 1 (fun v r => mkFields (f_code r) (Some v) (f_row_num r)
                                     (f_section r) (f_shelf r) (f_cell r));
      int_part parts 2 (fun v r => mkFields (f_code r) (f_floor r) (Some v)
                                     (f_section r) (f_shelf r) (f_cell r));
      int_part parts 3 (fun v r => mkFields (f_code r) (f_floor r) (f_row_num r)
                                     (Some v) (f_shelf r) (f_cell r));
      int_part parts 4 (fun v r => mkFields (f_code r) (f_floor r) (f_row_num r)
                                     (f_section r) (Some v) (f_cell r));
      int_part parts 5 (fun v r => mkFields (f_code r) (f_floor r) (f_row_num r)
                                     (f_section r) (f_shelf r) (Some v)) ]
    no_fields.

(** ** _parse_mx_code of the history export *)

(** [int(parts[k]) if len(parts) >= k + 1 else None]; the outer [None] is
    the [ValueError]. *)
Definition int_part_or_none (parts : list string) (k : nat) : option (option Z) :=
  match parts !! k with
  | Some s => Some <$> py_int s
  | None => Some None
  end.

Definition _parse_mx_code (mx_code : option string) : address :=
  if negb (truthy mx_code) then no_address
  else
    let parts := split_on "." (py_strip (default "" mx_code)) in
    match int_part_or_none parts 1, int_part_or_none parts 2, int_part_or_none parts 3 with
    | Some fl, Some rw, Some sc => (fl, rw, sc)
    | _, _, _ => no_address
    end.

(** ** _parse_headers of the scraper *)

(** The dict of the headers, or the message of the [SystemExit]. *)
Fixpoint parse_header_entries (entries : list string) (headers : gmap string string)
  : string + gmap string string :=
  match entries with
  | [] => inr headers
  | raw :: rest =>
    if negb (contains ":" raw) then
      inl (String.append "Некорректный формат заголовка '"
             (String.append raw "'. Используйте 'Имя: Значение'."))
    else
      let (key, value) := split_once ":" raw in
      parse_header_entries rest (<[py_strip key := py_strip value]> headers)
  end.

Definition _parse_headers (entries : option (list string)) : string + gmap string string :=
  match entries with
  | None => inr ∅
  | Some es => parse_header_entries es ∅
  end.

(** ** The sessions of the users

    The table [user_sessions] and its two handlers, on a connection of
    their own kind: the committed rows, the rows of the open transaction,
    the sequence of [session_id] and a fault plan as before. *)
Module Sessions.

Record session := mkSession {
  session_id : Z;
  badge : string;
  login_time : timestamp;
  logout_time : option timestamp;
  total_scanned : Z;
  with_discrepancy : Z;
  no_discrepancy : Z;
  session_duration : option Z;
  is_active : bool
}.

Record conn := mkConn {
  committed : list session;
  working : list session;
  session_id_seq : Z;
  faults : list bool
}.

(** A store computation: a value and the connection, or the exception
    raised and the connection. *)
Definition M (A : Type) : Type := conn -> (A * conn) + (string * conn).

#[global] Instance M_ret : MRet M := fun A a c => inl (a, c).
#[global] Instance M_bind : MBind M := fun A B k m c =>
  match m c with
  | inl (a, c') => k a c'
  | inr e => inr e
  end.

Definition raise {A} (e : string) : M A := fun c => inr (e, c).
Definition get : M conn := fun c => inl (c, c).
Definition put (c' : conn) : M unit := fun _ => inl (tt, c').

Definition store_call : M unit := fun c =>
  match faults c with
  | [] => inl (tt, c)
  | false :: fs => inl (tt, mkConn (committed c) (working c) (session_id_seq c) fs)
  | true :: fs =>
    inr (store_error, mkConn (committed c) (working c) (session_id_seq c) fs)
  end.

Definition commit : M unit :=
  _ ← store_call;
  c ← get;
  put (mkConn (working c) (working c) (session_id_seq c) (faults c)).

Definition rollback (c : conn) : conn :=
  mkConn (committed c) (committed c) (session_id_seq c) (faults c).

(** [INTEGER] columns hold 32 bits; a value beyond them is refused. *)
Definition int4 (v : Z) : bool := (-2147483648 <=? v) && (v <=? 2147483647).

(** [UPDATE user_sessions SET is_active = FALSE
    WHERE badge = %s AND is_active = TRUE] *)
Definition deactivated (b : string) (s : session) : session :=
  if String.eqb (badge s) b && is_active s
  then mkSession (session_id s) (badge s) (login_time s) (logout_time s)
         (total_scanned s) (with_discrepancy s) (no_discrepancy s)
         (session_duration s) false
  else s.

Definition execute_deactivate (b : string) : M unit :=
  _ ← store_call;
  c ← get;
  put (mkConn (committed c) (deactivated b <$> working c) (session_id_seq c) (faults c)).

(** [INSERT INTO user_sessions (badge, login_time, is_active)
    VALUES (%s, %s, TRUE) RETURNING session_id]; [badge] is a
    [VARCHAR(100)], the counters take their default 0. *)
Definition execute_insert (b : string) (t : timestamp) : M Z :=
  _ ← store_call;
  c ← get;
  if (String.length b <=? 100)%nat then
    _ ← put (mkConn (committed c)
               (working c ++ [mkSession (session_id_seq c) b t None 0 0 0 None true])
               (session_id_seq c + 1) (faults c));
    mret (session_id_seq c)
  else raise "value too long for type character varying".

Definition missing_msg : string := "Недостаточно данных".

(** [badge] and [login_time] of the request body; a login time that is
    missing is [None], one that is given is the time it denotes. *)
Definition start_user_session (b : option string) (t : option timestamp) (c : conn)
  : response Z * conn :=
  if negb (truthy b) || negb (bool_decide (is_Some t)) then
    (HttpError 400 missing_msg, c)
  else
    match (_ ← execute_deactivate (default "" b);
           id ← execute_insert (default "" b) (default 0 t);
           _ ← commit;
           mret id) c with
    | inl (id, c') => (Http200 id, c')
    | inr (e, c') => (HttpError 500 e, rollback c')
    end.

(** [UPDATE user_sessions SET total_scanned = %s, with_discrepancy = %s,
    no_discrepancy = %s WHERE badge = %s AND is_active = TRUE] *)
Definition counted (b : string) (total wd nd : Z) (s : session) : session :=
  if String.eqb (badge s) b && is_active s
  then mkSession (session_id s) (badge s) (login_time s) (logout_time s)
         total wd nd (session_duration s) true
  else s.

Definition execute_count (b : string) (total wd nd : Z) : M unit :=
  _ ← store_call;
  c ← get;
  if int4 total && int4 wd && int4 nd then
    put (mkConn (committed c) (counted b total wd nd <$> working c)
           (session_id_seq c) (faults c))
  else raise "integer out of range".

(** [badge] and, of [stats], [total], [withDiscrepancy] and
    [noDiscrepancy], each 0 when missing. *)
Definition update_user_session (b : option string) (total wd nd : Z) (c : conn)
  : response bool * conn :=
  if negb (truthy b) then (HttpError 400 missing_msg, c)
  else
    match (_ ← execute_count (default "" b) total wd nd;
           commit) c with
    | inl (_, c') => (Http200 true, c')
    | inr (e, c') => (HttpError 500 e, rollback c')
    end.

Definition quiet (c : conn) : Prop := working c = committed c /\ faults c = [].

(** A session of the badge that is active. *)
Definition active_of (b : string) (s : session) : Prop :=
  badge s = b /\ is_active s = true.

End Sessions.

(** ** Codes alike up to white space and case

    The vocabulary of the statements on the suggestions, written on the
    characters themselves. *)






(** ** Sample data *)

Definition lease_A : lease := mkLease 1 "36.02.40." "A" 0 100 active.
Definition lease_B : lease := mkLease 2 "36.03.10." "B" 50 7200000050 active.
Definition lease_C : lease := mkLease 3 "36.02.41." "C" 10 90 completed.

Definition conn_of_rows (rows : list lease) (next : Z) : conn :=
  mkConn rows rows next [].

Definition sample_conn : conn := conn_of_rows [lease_A; lease_B; lease_C] 4.

Definition sample_catalog : list place :=
  [ mkPlace 1 (Some "36.02.40.140.06.01") (Some 2) (Some 40) (Some 140);
    mkPlace 2 (Some "36.02.40.140.06.02") (Some 2) (Some 40) (Some 140);
    mkPlace 3 (Some "36.03.10.050.01.01") (Some 3) (Some 10) (Some 50) ].

Definition sample_results : list result_row :=
  [ mkResult "A" (Some 1) (Some "36.02.40.140.06.01") false (Some 10);
    mkResult "A" (Some 3) (Some "36.03.10.050.01.01") true (Some 20);
    mkResult "B" (Some 2) (Some " 36.02.40.140.06.02 ") true (Some 30) ].

Definition sample_sessions : Sessions.conn :=
  Sessions.mkConn
    [Sessions.mkSession 1 "1234" 10 None 5 1 4 None true;
     Sessions.mkSession 2 "7777" 20 None 3 0 3 None true;
     Sessions.mkSession 3 "1234" 30 None 0 0 0 None true]
    [Sessions.mkSession 1 "1234" 10 None 5 1 4 None true;
     Sessions.mkSession 2 "7777" 20 None 3 0 3 None true;
     Sessions.mkSession 3 "1234" 30 None 0 0 0 None true]
    4 [].

(** * Properties *)

(** ** Store calls on a store that answers *)

Lemma store_call_quiet c : faults c = [] -> store_call c = Ret tt c.
Proof. intros H. unfold store_call. by rewrite H. Qed.

Lemma execute_query_quiet {A} (q : list lease -> A) c :
  faults c = [] -> execute_query q c = Ret (q (working c)) c.
Proof. intros H. unfold execute_query, bind. by rewrite store_call_quiet. Qed.

Lemma execute_update_quiet {A} (u : list lease -> A * list lease) c :
  faults c = [] ->
  execute_update u c
  = Ret (u (working c)).1 (mkConn (committed c) (u (working c)).2 (task_id_seq c) []).
Proof.
  intros H. unfold execute_update, bind. rewrite store_call_quiet by done.
  destruct (u (working c)); simpl. by rewrite H.
Qed.

Lemma commit_quiet c :
  faults c = [] ->
  commit c = Ret tt (mkConn (working c) (working c) (task_id_seq c) []).
Proof. intros H. unfold commit, bind. rewrite store_call_quiet by done. by rewrite H. Qed.

Lemma execute_catalog_quiet {A} (a : A) c :
  faults c = [] -> execute_catalog (Some a) c = Ret a c.
Proof. intros H. unfold execute_catalog, bind. by rewrite store_call_quiet. Qed.

Lemma quiet_conn_of_rows rows next : quiet (conn_of_rows rows next).
Proof. by split. Qed.

Lemma quiet_eta c : quiet c -> c = conn_of_rows (committed c) (task_id_seq c).
Proof. destruct c as [cm wk sq fl]. intros [Hw Hf]. simpl in *. by subst. Qed.

(** ** The sweep *)

Lemma overdue_true now l :
  overdue now l = true <-> status l = active /\ expires_at l < now.
Proof.
  unfold overdue, is_active.
  rewrite andb_true_iff, Z.ltb_lt, bool_decide_eq_true. tauto.
Qed.

Lemma swept_idem now l : swept now (swept now l) = swept now l.
Proof.
  unfold swept. destruct (overdue now l) eqn:E; [|by rewrite E].
  destruct (overdue now (set_status expired l)) eqn:E'; [|done].
  apply overdue_true in E' as [? _]. done.
Qed.

Lemma cleanup_quiet now c :
  quiet c ->
  cleanup_expired_tasks now c
  = Ret tt (conn_of_rows (swept now <$> committed c) (task_id_seq c)).
Proof.
  intros [Hw Hf]. unfold cleanup_expired_tasks, try_except, bind.
  rewrite execute_update_quiet by done.
  rewrite commit_quiet by done. simpl. by rewrite Hw.
Qed.

(** C3, as the code has it: on a store that answers, the sweep sets every
    row that is active and whose expiry lies strictly before [now] to
    expired, leaves every other row as it is, and a second sweep at the
    same time changes nothing. *)
Theorem cleanup_expired_tasks_sweep now c :
  quiet c ->
  exists c',
    cleanup_expired_tasks now c = Ret tt c' /\ quiet c' /\
    length (committed c') = length (committed c) /\
    (forall i l, committed c !! i = Some l ->
       status l = active -> expires_at l < now ->
       committed c' !! i = Some (set_status expired l)) /\
    (forall i l, committed c !! i = Some l ->
       status l <> active \/ now <= expires_at l ->
       committed c' !! i = Some l) /\
    cleanup_expired_tasks now c' = Ret tt c'.
Proof.
  intros Hq. eexists. split; [by apply cleanup_quiet|].
  split; [apply quiet_conn_of_rows|]. simpl.
  split; [by rewrite length_fmap|].
  split; [|split].
  - intros i l Hi Ha He. rewrite list_lookup_fmap, Hi. simpl.
    unfold swept. by rewrite (proj2 (overdue_true now l)).
  - intros i l Hi Hn. rewrite list_lookup_fmap, Hi. simpl.
    unfold swept. destruct (overdue now l) eqn:E; [|done].
    apply overdue_true in E as [? ?]. destruct Hn; [done|lia].
  - rewrite cleanup_quiet by apply quiet_conn_of_rows. simpl.
    f_equal. f_equal. rewrite <- list_fmap_compose.
    apply list_fmap_ext. intros ? l _. apply swept_idem.
Qed.

Lemma cleanup_expired_tasks_sweep_witness :
  quiet sample_conn /\
  exists c',
    cleanup_expired_tasks 200 sample_conn = Ret tt c' /\ quiet c' /\
    length (committed c') = length (committed sample_conn) /\
    (forall i l, committed sample_conn !! i = Some l ->
       status l = active -> expires_at l < 200 ->
       committed c' !! i = Some (set_status expired l)) /\
    (forall i l, committed sample_conn !! i = Some l ->
       status l <> active \/ 200 <= expires_at l ->
       committed c' !! i = Some l) /\
    cleanup_expired_tasks 200 c' = Ret tt c'.
Proof.
  split; [by split|].
  apply (cleanup_expired_tasks_sweep 200 sample_conn). by split.
Defined.

(** C3, as the spec has it, fails at the boundary: a row that is active and
    expires exactly at [now] is left active by the sweep. *)
Lemma cleanup_expired_tasks_boundary :
  ~ (forall now c i l, quiet c -> committed c !! i = Some l ->
       status l = active -> expires_at l <= now ->
       committed (conn_of (cleanup_expired_tasks now c)) !! i
       = Some (set_status expired l)).
Proof.
  intros H.
  specialize (H 100 (conn_of_rows [lease_A] 2) 0%nat lease_A).
  simpl in H. unfold lease_A in H. simpl in H.
  assert (E : Some (mkLease 1 "36.02.40." "A" 0 100 active)
            = Some (set_status expired (mkLease 1 "36.02.40." "A" 0 100 active))).
  { apply H; [by split|done|done|lia]. }
  discriminate E.
Qed.

(** ** Completion *)

Lemma closes_true zn b l :
  closes zn b l = true <-> zone_prefix l = zn /\ badge l = b /\ status l = active.
Proof.
  unfold closes, is_active.
  rewrite !andb_true_iff, !String.eqb_eq, bool_decide_eq_true. tauto.
Qed.

Lemma closes_closed zn b l : closes zn b (closed zn b l) = false.
Proof.
  unfold closed. destruct (closes zn b l) eqn:E; [|done].
  apply not_true_is_false. intros H. apply closes_true in H as (_ & _ & H). done.
Qed.

Lemma present_eqb (s : string) : s <> "" -> String.eqb s "" = false.
Proof. intros H. by apply String.eqb_neq. Qed.

Lemma complete_task_quiet b zn c :
  quiet c -> b <> "" -> zn <> "" ->
  complete_task b zn c
  = Ret (Http200
           (if (0 <? length (filter (fun l => closes zn b l = true) (committed c)))%nat
            then mkComplete true done_msg else mkComplete false gone_msg))
        (conn_of_rows (closed zn b <$> committed c) (task_id_seq c)).
Proof.
  intros [Hw Hf] Hb Hz. unfold complete_task, try_except, bind.
  rewrite (present_eqb b), (present_eqb zn) by done. simpl.
  rewrite execute_update_quiet by done.
  rewrite commit_quiet by done. simpl. rewrite Hw.
  by destruct (0 <? _)%nat.
Qed.

Lemma nothing_to_close zn b t :
  filter (fun l => closes zn b l = true) (closed zn b <$> t) = [].
Proof.
  induction t as [|l t IH]; [done|].
  rewrite fmap_cons, filter_cons_False; [done|].
  by rewrite closes_closed.
Qed.

Lemma closed_twice zn b l : closed zn b (closed zn b l) = closed zn b l.
Proof. unfold closed at 1. by rewrite closes_closed. Qed.

(** C2: with the badge and the zone present in the request, and an active
    lease [l] of that worker on that zone (the only one, or one of several),
    the first completion answers success and turns [l], with every other
    active row of that worker and zone, into completed and leaves the other
    rows as they are; the completion repeated at once answers no success
    and changes nothing; both answer with a body, none with an error. *)
Theorem complete_task_twice b zn c l :
  quiet c -> b <> "" -> zn <> "" ->
  l ∈ committed c -> zone_prefix l = zn -> badge l = b -> status l = active ->
  exists c1 c2,
    complete_task b zn c = Ret (Http200 (mkComplete true done_msg)) c1 /\
    (exists i, committed c !! i = Some l /\
               committed c1 !! i = Some (set_status completed l)) /\
    (forall i l', committed c !! i = Some l' ->
       committed c1 !! i
       = Some (if closes zn b l' then set_status completed l' else l')) /\
    complete_task b zn c1 = Ret (Http200 (mkComplete false gone_msg)) c2 /\
    committed c2 = committed c1.
Proof.
  intros Hq Hb Hz Hin Hzn Hbd Hst.
  assert (Hcl : closes zn b l = true) by (by apply closes_true).
  assert (Hrows : forall i l', committed c !! i = Some l' ->
            (closed zn b <$> committed c) !! i
            = Some (if closes zn b l' then set_status completed l' else l')).
  { intros i l' Hi. by rewrite list_lookup_fmap, Hi. }
  eexists _, _. split.
  { rewrite complete_task_quiet by done.
    destruct (filter _ (committed c)) as [|x xs] eqn:E; [|done].
    exfalso.
    by apply (filter_nil_not_elem_of (fun l => closes zn b l = true) (committed c) l E Hcl). }
  split.
  { apply list_elem_of_lookup_1 in Hin as [i Hi]. exists i. split; [done|].
    simpl. rewrite (Hrows i l Hi). by rewrite Hcl. }
  split; [exact Hrows|].
  split.
  { rewrite complete_task_quiet by (done || apply quiet_conn_of_rows).
    simpl. by rewrite nothing_to_close. }
  simpl. rewrite <- list_fmap_compose. apply list_fmap_ext.
  intros ? x _. apply closed_twice.
Qed.

Lemma complete_task_twice_witness :
  (quiet sample_conn /\ "A" <> "" /\ "36.02.40." <> "" /\
   lease_A ∈ committed sample_conn /\ zone_prefix lease_A = "36.02.40." /\
   badge lease_A = "A" /\ status lease_A = active) /\
  exists c1 c2,
    complete_task "A" "36.02.40." sample_conn
    = Ret (Http200 (mkComplete true done_msg)) c1 /\
    (exists i, committed sample_conn !! i = Some lease_A /\
               committed c1 !! i = Some (set_status completed lease_A)) /\
    (forall i l', committed sample_conn !! i = Some l' ->
       committed c1 !! i
       = Some (if closes "36.02.40." "A" l' then set_status completed l' else l')) /\
    complete_task "A" "36.02.40." c1 = Ret (Http200 (mkComplete false gone_msg)) c2 /\
    committed c2 = committed c1.
Proof.
  assert (Hin : lease_A ∈ committed sample_conn) by apply list_elem_of_here.
  split; [by split_and!|].
  apply (complete_task_twice "A" "36.02.40." sample_conn lease_A);
    [by split|done|done|exact Hin|reflexivity|reflexivity|reflexivity].
Defined.

(** C10: completion looks at the status only. A lease of the worker on the
    zone whose expiry already lies before [now], but which the sweep has
    not yet touched, is no longer live at [now], and still the completion
    answers success and sets that row to completed. *)
Theorem complete_task_ignores_expiry now b zn c i l :
  quiet c -> b <> "" -> zn <> "" ->
  committed c !! i = Some l ->
  zone_prefix l = zn -> badge l = b -> status l = active ->
  expires_at l < now ->
  live now l = false /\
  exists c',
    complete_task b zn c = Ret (Http200 (mkComplete true done_msg)) c' /\
    committed c' !! i = Some (set_status completed l).
Proof.
  intros Hq Hb Hz Hi Hzn Hbd Hst Hex.
  assert (Hcl : closes zn b l = true) by (by apply closes_true).
  split.
  { unfold live. apply andb_false_iff. right. apply Z.ltb_ge. lia. }
  eexists. split.
  - rewrite complete_task_quiet by done.
    destruct (filter _ (committed c)) as [|x xs] eqn:E; [|done].
    exfalso.
    apply (filter_nil_not_elem_of (fun l => closes zn b l = true) (committed c) l E Hcl).
    by apply list_elem_of_lookup_2 with i.
  - simpl. rewrite list_lookup_fmap, Hi. simpl. unfold closed. by rewrite Hcl.
Qed.

Lemma complete_task_ignores_expiry_witness :
  (quiet sample_conn /\ "A" <> "" /\ "36.02.40." <> "" /\
   committed sample_conn !! 0%nat = Some lease_A /\
   zone_prefix lease_A = "36.02.40." /\ badge lease_A = "A" /\
   status lease_A = active /\ expires_at lease_A < 5000) /\
  live 5000 lease_A = false /\
  exists c',
    complete_task "A" "36.02.40." sample_conn
    = Ret (Http200 (mkComplete true done_msg)) c' /\
    committed c' !! 0%nat = Some (set_status completed lease_A).
Proof.
  split; [repeat split; done|].
  apply (complete_task_ignores_expiry 5000 "A" "36.02.40." sample_conn 0%nat lease_A);
    try done.
Defined.

(** ** The administrative extension *)

Lemma extends_true id l :
  extends id l = true <-> task_id l = id /\ status l = active.
Proof.
  unfold extends, is_active.
  rewrite andb_true_iff, Z.eqb_eq, bool_decide_eq_true. tauto.
Qed.

Lemma admin_extend_task_quiet hrs id c :
  quiet c -> id <> 0 ->
  admin_extend_task (Some "ADMIN") (Some id) hrs c
  = Ret match head (filter (fun l => extends id l = true) (committed c)) with
        | Some l => Http200 (mkExtended (task_id l) (zone_prefix l) (badge l)
                               (expires_at l + hours hrs))
        | None => HttpError 404 not_found_msg
        end
        (conn_of_rows (extended hrs id <$> committed c) (task_id_seq c)).
Proof.
  intros [Hw Hf] Hid. unfold admin_extend_task.
  assert (E : bool_decide (Some "ADMIN" = Some "ADMIN") = true) by done.
  rewrite E. simpl.
  assert (Hrun :
    try_except
      (let* updated := execute_update (sql_extend hrs id) in
       commit >>
       match updated with
       | None => ret (HttpError 404 not_found_msg)
       | Some l =>
         ret (Http200 (mkExtended (task_id l) (zone_prefix l) (badge l) (expires_at l)))
       end)
      (fun e => safe_rollback >> ret (HttpError 500 e)) c
    = Ret match head (filter (fun l => extends id l = true) (committed c)) with
          | Some l => Http200 (mkExtended (task_id l) (zone_prefix l) (badge l)
                                 (expires_at l + hours hrs))
          | None => HttpError 404 not_found_msg
          end
          (conn_of_rows (extended hrs id <$> committed c) (task_id_seq c))).
  { unfold try_except, bind. rewrite execute_update_quiet by done.
    rewrite commit_quiet by done. simpl. rewrite Hw.
    by destruct (filter _ (committed c)). }
  destruct id; [done|exact Hrun|exact Hrun].
Qed.

(** C7, as the code has it: for the admin and a task id that is present,
    the extension touches exactly the rows with that id whose status is
    active, whatever their expiry, and moves their expiry by the given
    hours; it answers with such a row when there is one, and with the 404
    of a lease that is not found, the store unchanged, when there is none. *)
Theorem admin_extend_task_by_status hrs id c :
  quiet c -> id <> 0 ->
  exists r c',
    admin_extend_task (Some "ADMIN") (Some id) hrs c = Ret r c' /\
    (forall i l, committed c !! i = Some l ->
       committed c' !! i
       = Some (if decide (task_id l = id /\ status l = active)
               then set_expires_at (expires_at l + hours hrs) l else l)) /\
    ((exists l, l ∈ committed c /\ task_id l = id /\ status l = active) ->
     exists l, l ∈ committed c /\ task_id l = id /\ status l = active /\
       r = Http200 (mkExtended id (zone_prefix l) (badge l)
                      (expires_at l + hours hrs))) /\
    ((forall l, l ∈ committed c -> task_id l = id -> status l <> active) ->
     r = HttpError 404 not_found_msg /\ committed c' = committed c).
Proof.
  intros Hq Hid. eexists _, _.
  split; [by apply admin_extend_task_quiet|].
  split; [|split].
  - intros i l Hi. simpl. rewrite list_lookup_fmap, Hi. simpl. f_equal.
    unfold extended. destruct (extends id l) eqn:E.
    + apply extends_true in E. by rewrite decide_True.
    + rewrite decide_False; [done|]. intros H. apply extends_true in H. congruence.
  - intros (l & Hin & Hl & Ha).
    destruct (filter _ (committed c)) as [|x xs] eqn:E.
    + exfalso.
      apply (filter_nil_not_elem_of (fun l => extends id l = true) (committed c) l E);
        [by apply extends_true|done].
    + assert (Hx : x ∈ filter (fun l => extends id l = true) (committed c))
        by (rewrite E; apply list_elem_of_here).
      apply list_elem_of_filter in Hx as [Hx Hxin].
      apply extends_true in Hx as [Hx1 Hx2].
      exists x. simpl. by rewrite Hx1.
  - intros Hnone.
    assert (E : filter (fun l => extends id l = true) (committed c) = []).
    { destruct (filter _ (committed c)) as [|x xs] eqn:E; [done|]. exfalso.
      assert (Hx : x ∈ filter (fun l => extends id l = true) (committed c))
        by (rewrite E; apply list_elem_of_here).
      apply list_elem_of_filter in Hx as [Hx Hxin].
      apply extends_true in Hx as [Hx1 Hx2]. by apply (Hnone x). }
    rewrite E. simpl. split; [done|].
    rewrite <- (list_fmap_id (committed c)) at 2.
    apply list_fmap_ext. intros i l Hi. unfold extended.
    destruct (extends id l) eqn:Ex; [|done]. exfalso.
    apply extends_true in Ex as [? ?].
    apply (Hnone l); [by apply list_elem_of_lookup_2 with i|done|done].
Qed.

Lemma admin_extend_task_by_status_witness :
  (quiet sample_conn /\ 1 <> 0) /\
  exists r c',
    admin_extend_task (Some "ADMIN") (Some 1) 3 sample_conn = Ret r c' /\
    (forall i l, committed sample_conn !! i = Some l ->
       committed c' !! i
       = Some (if decide (task_id l = 1 /\ status l = active)
               then set_expires_at (expires_at l + hours 3) l else l)) /\
    ((exists l, l ∈ committed sample_conn /\ task_id l = 1 /\ status l = active) ->
     exists l, l ∈ committed sample_conn /\ task_id l = 1 /\ status l = active /\
       r = Http200 (mkExtended 1 (zone_prefix l) (badge l)
                      (expires_at l + hours 3))) /\
    ((forall l, l ∈ committed sample_conn -> task_id l = 1 -> status l <> active) ->
     r = HttpError 404 not_found_msg /\ committed c' = committed sample_conn).
Proof.
  split; [repeat split; done|].
  apply (admin_extend_task_by_status 3 1 sample_conn); [by split|done].
Defined.

(** C7, as the spec has it, fails: a lease whose expiry has passed but whose
    status is still active is extended, not refused. *)
Lemma admin_extend_task_past_expiry :
  ~ (forall now hrs id c l,
       quiet c -> id <> 0 -> l ∈ committed c -> task_id l = id ->
       expires_at l < now ->
       exists c', admin_extend_task (Some "ADMIN") (Some id) hrs c
                  = Ret (HttpError 404 not_found_msg) c'
                  /\ committed c' = committed c).
Proof.
  intros H.
  destruct (H 5000 1 1 (conn_of_rows [lease_A] 2) lease_A) as (c' & E & _).
  - by split.
  - done.
  - apply list_elem_of_here.
  - done.
  - unfold lease_A; simpl; lia.
  - rewrite admin_extend_task_quiet in E by (done || by split).
    simpl in E. discriminate E.
Qed.

(** ** Requests for a new task *)

Lemma get_occupied_zones_quiet now c :
  faults c = [] ->
  get_occupied_zones now c = Ret (list_to_set (sql_occupied now (working c))) c.
Proof.
  intros Hf. unfold get_occupied_zones, try_except, bind.
  by rewrite execute_query_quiet.
Qed.

Lemma get_new_task_quiet b zone_size now catalog rnd c :
  quiet c ->
  get_new_task b zone_size now catalog rnd c
  = try_except
      (find_zone now b zone_size catalog rnd (seq 0 max_attempts)
         (list_to_set (sql_occupied now (swept now <$> committed c))))
      (fun e => ret (HttpError 500 e))
      (conn_of_rows (swept now <$> committed c) (task_id_seq c)).
Proof.
  intros Hq. unfold get_new_task, try_except, bind.
  rewrite cleanup_quiet by done.
  by rewrite get_occupied_zones_quiet.
Qed.

Lemma random_place_none catalog draw :
  (forall p, p ∈ catalog -> usable p = false) -> random_place catalog draw = None.
Proof.
  intros H. unfold random_place.
  assert (E : filter (fun p => usable p = true) catalog = []).
  { induction catalog as [|p ps IH]; [done|].
    rewrite filter_cons_False.
    - apply IH. intros q Hq. apply H. by apply list_elem_of_further.
    - rewrite (H p) by apply list_elem_of_here. done. }
  by rewrite E.
Qed.

Lemma find_zone_no_place now b zone_size catalog rnd attempts occupied c :
  faults c = [] -> 0 <= zone_size ->
  (forall p, p ∈ catalog -> usable p = false) ->
  find_zone now b zone_size catalog rnd attempts occupied c = Ret all_busy c.
Proof.
  intros Hf Hz Hno. induction attempts as [|a rest IH]; [done|].
  simpl. unfold bind at 1. unfold sql_zone.
  rewrite (proj2 (Z.ltb_ge zone_size 0)) by lia.
  rewrite random_place_none by done.
  by rewrite execute_catalog_quiet.
Qed.

(** C5, as the code has it: when the catalog has no usable location (none
    at all in particular), a request with a limit that is not negative
    sweeps the overdue leases, makes its attempts in vain and answers with
    the very 503 of the exhausted attempts; no lease is written. *)
Theorem get_new_task_empty_catalog b zone_size now catalog rnd c :
  quiet c -> 0 <= zone_size ->
  (forall p, p ∈ catalog -> usable p = false) ->
  get_new_task b zone_size now catalog rnd c
  = Ret all_busy (conn_of_rows (swept now <$> committed c) (task_id_seq c)).
Proof.
  intros Hq Hz Hno. rewrite get_new_task_quiet by done.
  unfold try_except. by rewrite find_zone_no_place.
Qed.

Lemma get_new_task_empty_catalog_witness :
  (quiet sample_conn /\ 0 <= 50 /\
   (forall p, p ∈ @nil place -> usable p = false)) /\
  get_new_task "B" 50 200 [] (fun _ => 0%nat) sample_conn
  = Ret all_busy
      (conn_of_rows (swept 200 <$> committed sample_conn) (task_id_seq sample_conn)).
Proof.
  assert (H : forall p, p ∈ @nil place -> usable p = false)
    by (intros p Hp; by apply not_elem_of_nil in Hp).
  split; [repeat split; (done || exact H)|].
  apply (get_new_task_empty_catalog "B" 50 200 [] (fun _ => 0%nat) sample_conn);
    [by split|done|exact H].
Defined.

(** C5, as the spec has it, fails: the answer for an empty catalog is the
    answer for a catalog whose only sampled zone is taken. *)
Lemma get_new_task_empty_catalog_indistinct :
  value_of (get_new_task "B" 50 200 [] (fun _ => 0%nat) (conn_of_rows [] 1))
  = value_of (get_new_task "B" 50 200 sample_catalog (fun _ => 0%nat)
                (conn_of_rows [mkLease 1 "36.02.40." "A" 100 7200000100 active] 2))
  /\ value_of (get_new_task "B" 50 200 [] (fun _ => 0%nat) (conn_of_rows [] 1))
     = Some all_busy.
Proof. split; vm_compute; reflexivity. Qed.

(** ** Store failures *)

(** C6, as the code has it: the helpers of the allocation path catch the
    failures of the store themselves. From a connection with no pending
    writes, whichever statement of [reserve_zone] fails (the SELECT, the
    INSERT or the commit), the pending writes are rolled back and the
    answer is [false], as for a taken zone; a failed sweep is rolled back
    and gives nothing back; a failed occupied-zone query answers the empty
    set. Only the failure of the catalog query of the request itself
    reaches the caller, as a 500 that differs from the 503 of the
    exhausted attempts. *)
Theorem store_faults_absorbed now zn b hrs c fs :
  working c = committed c ->
  let back := mkConn (committed c) (committed c) (task_id_seq c) fs in
  reserve_zone now zn b hrs (with_faults c (true :: fs)) = Ret false back /\
  (sql_find_active zn now (committed c) = None ->
   reserve_zone now zn b hrs (with_faults c (false :: true :: fs)) = Ret false back /\
   (fits_columns zn b = true ->
    reserve_zone now zn b hrs (with_faults c (false :: false :: true :: fs))
    = Ret false (mkConn (committed c) (committed c) (task_id_seq c + 1) fs))) /\
  cleanup_expired_tasks now (with_faults c (true :: fs)) = Ret tt back /\
  cleanup_expired_tasks now (with_faults c (false :: true :: fs)) = Ret tt back /\
  get_occupied_zones now (with_faults c (true :: fs)) = Ret ∅ back /\
  (forall zone_size catalog rnd,
     value_of (get_new_task b zone_size now catalog rnd
                 (with_faults c (false :: false :: false :: true :: fs)))
     = Some (HttpError 500 store_error)) /\
  HttpError 500 store_error <> all_busy.
Proof.
  intros Hw back. subst back. destruct c as [cm wk sq fl]. simpl in Hw. subst wk.
  unfold with_faults. simpl.
  split; [done|].
  split.
  { intros Hnone. split.
    - unfold reserve_zone, try_except, bind, execute_query, bind. simpl.
      rewrite Hnone. done.
    - intros Hfit.
      unfold reserve_zone, try_except, bind, execute_query, execute_insert, bind.
      simpl. rewrite Hnone. simpl. rewrite Hfit. done. }
  split; [done|]. split; [done|]. split; [done|].
  split; [|done].
  intros zone_size catalog rnd.
  unfold get_new_task, try_except, bind, cleanup_expired_tasks, try_except, bind.
  simpl. unfold bind. simpl. done.
Qed.

Lemma store_faults_absorbed_witness :
  working sample_conn = committed sample_conn /\
  let now := 200 in
  let zn := "36.02.41." in
  let b := "B" in
  let hrs := 2 in
  let c := sample_conn in
  let fs := @nil bool in
  let back := mkConn (committed c) (committed c) (task_id_seq c) fs in
  reserve_zone now zn b hrs (with_faults c (true :: fs)) = Ret false back /\
  (sql_find_active zn now (committed c) = None ->
   reserve_zone now zn b hrs (with_faults c (false :: true :: fs)) = Ret false back /\
   (fits_columns zn b = true ->
    reserve_zone now zn b hrs (with_faults c (false :: false :: true :: fs))
    = Ret false (mkConn (committed c) (committed c) (task_id_seq c + 1) fs))) /\
  cleanup_expired_tasks now (with_faults c (true :: fs)) = Ret tt back /\
  cleanup_expired_tasks now (with_faults c (false :: true :: fs)) = Ret tt back /\
  get_occupied_zones now (with_faults c (true :: fs)) = Ret ∅ back /\
  (forall zone_size catalog rnd,
     value_of (get_new_task b zone_size now catalog rnd
                 (with_faults c (false :: false :: false :: true :: fs)))
     = Some (HttpError 500 store_error)) /\
  HttpError 500 store_error <> all_busy.
Proof.
  split; [reflexivity|].
  apply (store_faults_absorbed 200 "36.02.41." "B" 2 sample_conn []). reflexivity.
Defined.

(** C6, as the spec has it, fails: a store that fails makes [reserve_zone]
    answer [false], the answer for a zone that is taken, and makes
    [get_occupied_zones] answer the empty set. *)
Lemma reserve_zone_swallows_store_error :
  ~ (forall now zn b hrs c fs,
       working c = committed c -> faults c = true :: fs ->
       value_of (reserve_zone now zn b hrs c) <> Some false /\
       value_of (get_occupied_zones now c) = None).
Proof.
  intros H.
  destruct (H 200 "36.02.41." "B" 2 (with_faults sample_conn [true]) [])
    as [H1 _]; [done|done|].
  apply H1. reflexivity.
Qed.

(** ** Live leases, the listing and the occupied zones *)

Lemma live_true now l :
  live now l = true <-> status l = active /\ now < expires_at l.
Proof.
  unfold live, is_active.
  rewrite andb_true_iff, Z.ltb_lt, bool_decide_eq_true. tauto.
Qed.

Lemma past_not_live now l : expires_at l <= now -> live now l = false.
Proof.
  intros H. apply not_true_is_false. intros E. apply live_true in E. lia.
Qed.

Lemma swept_live now l : live now l = true -> swept now l = l.
Proof.
  intros H. unfold swept. destruct (overdue now l) eqn:E; [|done].
  apply overdue_true in E. apply live_true in H. lia.
Qed.

Lemma live_swept now l : live now (swept now l) = live now l.
Proof.
  unfold swept. destruct (overdue now l) eqn:E; [|done].
  apply overdue_true in E as [_ E]. rewrite (past_not_live now l) by lia.
  apply not_true_is_false. intros H. apply live_true in H as [H _]. done.
Qed.

Lemma zone_swept now l : zone_prefix (swept now l) = zone_prefix l.
Proof. unfold swept. by destruct (overdue now l). Qed.

Lemma sql_occupied_spec now t z :
  z ∈ sql_occupied now t <-> exists l, l ∈ t /\ live now l = true /\ zone_prefix l = z.
Proof.
  unfold sql_occupied. rewrite elem_of_remove_dups, list_elem_of_fmap.
  split.
  - intros (l & -> & Hl). apply list_elem_of_filter in Hl as [? ?]. by exists l.
  - intros (l & Hin & Hlive & <-). exists l. split; [done|].
    by apply list_elem_of_filter.
Qed.

Lemma sql_occupied_swept now t z :
  z ∈ sql_occupied now (swept now <$> t) <-> z ∈ sql_occupied now t.
Proof.
  rewrite !sql_occupied_spec. split.
  - intros (l' & Hin & Hlive & Hz). apply list_elem_of_fmap in Hin as (l & -> & Hin).
    exists l. by rewrite live_swept, zone_swept in *.
  - intros (l & Hin & Hlive & Hz). exists l. split; [|done].
    apply list_elem_of_fmap. exists l. by rewrite swept_live.
Qed.

Lemma sql_find_active_None zn now t :
  sql_find_active zn now t = None <->
  forall l, l ∈ t -> zone_prefix l = zn -> live now l = false.
Proof.
  unfold sql_find_active. rewrite head_None. split.
  - intros E l Hin Hz. apply fmap_nil_inv in E. apply not_true_is_false. intros Hlive.
    by apply (filter_nil_not_elem_of
                (fun l => zone_prefix l = zn /\ live now l = true) t l E).
  - intros H. destruct (filter _ t) as [|x xs] eqn:E; [done|]. exfalso.
    assert (Hx : x ∈ filter (fun l => zone_prefix l = zn /\ live now l = true) t)
      by (rewrite E; apply list_elem_of_here).
    apply list_elem_of_filter in Hx as [[Hz Hl] Hin].
    rewrite (H x Hin Hz) in Hl. done.
Qed.

Lemma reserve_zone_free now zn b hrs c :
  quiet c -> fits_columns zn b = true ->
  sql_find_active zn now (committed c) = None ->
  reserve_zone now zn b hrs c
  = Ret true
      (conn_of_rows
         (committed c ++ [mkLease (task_id_seq c) zn b now (now + hours hrs) active])
         (task_id_seq c + 1)).
Proof.
  intros Hq Hfit Hnone. rewrite (quiet_eta c Hq). simpl.
  unfold reserve_zone, try_except, bind, execute_query, execute_insert, bind.
  simpl. rewrite Hnone. simpl. rewrite Hfit. done.
Qed.

Lemma reserve_zone_taken now zn b hrs c holder :
  quiet c -> sql_find_active zn now (committed c) = Some holder ->
  reserve_zone now zn b hrs c = Ret false c.
Proof.
  intros Hq Hsome. rewrite (quiet_eta c Hq) at 1 2. simpl.
  unfold reserve_zone, try_except, bind, execute_query, bind.
  simpl. rewrite Hsome. simpl. by rewrite <- (quiet_eta c Hq).
Qed.

Lemma reserve_zone_refused now zn b hrs c :
  quiet c -> fits_columns zn b = false ->
  sql_find_active zn now (committed c) = None ->
  reserve_zone now zn b hrs c = Ret false c.
Proof.
  intros [Hw Hf] Hfit Hnone. destruct c as [cm wk sq fl]. simpl in *. subst wk fl.
  unfold reserve_zone, try_except, bind, execute_query, execute_insert, bind.
  simpl. rewrite Hnone. simpl. by rewrite Hfit.
Qed.

Lemma get_active_tasks_quiet now c :
  quiet c ->
  get_active_tasks now c
  = Ret (Http200 (length (task_entry now <$> sql_active_tasks now (committed c)),
                  task_entry now <$> sql_active_tasks now (committed c))) c.
Proof.
  intros [Hw Hf]. unfold get_active_tasks, try_except, bind.
  rewrite execute_query_quiet by done. by rewrite Hw.
Qed.

Lemma sql_active_tasks_spec now t l :
  l ∈ sql_active_tasks now t <-> l ∈ t /\ live now l = true.
Proof.
  unfold sql_active_tasks. rewrite merge_sort_Permutation, list_elem_of_filter. tauto.
Qed.

Lemma find_zone_first_hit now b zone_size catalog rnd a rest occupied c first rows :
  quiet c ->
  sql_zone catalog (rnd a) zone_size = Some (first :: rows) ->
  py_prefix 9 first.2 <> "" ->
  py_prefix 9 first.2 ∉ occupied ->
  fits_columns (py_prefix 9 first.2) b = true ->
  sql_find_active (py_prefix 9 first.2) now (committed c) = None ->
  find_zone now b zone_size catalog rnd (a :: rest) occupied c
  = Ret (Http200 (mkNewTask
                    (mkTask (py_prefix 9 first.2) (length (first :: rows))
                       (first :: rows) true) now 2))
      (conn_of_rows
         (committed c
          ++ [mkLease (task_id_seq c) (py_prefix 9 first.2) b now (now + hours 2) active])
         (task_id_seq c + 1)).
Proof.
  intros Hq Hrows Hne Hocc Hfit Hfree.
  cbn [find_zone]. unfold bind at 1. rewrite Hrows.
  rewrite execute_catalog_quiet by apply Hq.
  rewrite present_eqb by done.
  rewrite bool_decide_eq_false_2 by done.
  unfold bind. by rewrite reserve_zone_free.
Qed.

(** C4: a lease [l] whose expiry lies strictly before [now] is not among the
    active tasks listed at [now]; it does not count for the occupied zones
    that the next request computes after its sweep; and when no other lease
    on its zone is live, a request whose first draw falls into that zone
    leases the zone to the worker who asks, with a new active lease of two
    hours. *)
Theorem expired_lease_releases_zone now c l b' zone_size catalog rnd first rows :
  quiet c -> l ∈ committed c -> expires_at l < now ->
  (exists tasks,
     get_active_tasks now c = Ret (Http200 (length tasks, tasks)) c /\
     forall e, e ∈ tasks ->
       exists l', l' ∈ committed c /\ l' <> l /\ live now l' = true /\
                  e = task_entry now l') /\
  (exists occupied c1,
     (cleanup_expired_tasks now >> get_occupied_zones now) c = Ret occupied c1 /\
     forall z, z ∈ occupied <->
       exists l', l' ∈ committed c /\ l' <> l /\ live now l' = true /\
                  zone_prefix l' = z) /\
  ((forall l', l' ∈ committed c -> zone_prefix l' = zone_prefix l ->
      live now l' = false) ->
   sql_zone catalog (rnd 0%nat) zone_size = Some (first :: rows) ->
   py_prefix 9 first.2 = zone_prefix l -> zone_prefix l <> "" ->
   fits_columns (zone_prefix l) b' = true ->
   get_new_task b' zone_size now catalog rnd c
   = Ret (Http200 (mkNewTask
                     (mkTask (zone_prefix l) (length (first :: rows))
                        (first :: rows) true) now 2))
       (conn_of_rows
          ((swept now <$> committed c)
           ++ [mkLease (task_id_seq c) (zone_prefix l) b' now (now + hours 2) active])
          (task_id_seq c + 1))).
Proof.
  intros Hq Hin Hpast.
  assert (Hdead : live now l = false) by (apply past_not_live; lia).
  split; [|split].
  - eexists. split; [by apply get_active_tasks_quiet|].
    intros e He. apply list_elem_of_fmap in He as (l' & -> & Hl').
    apply sql_active_tasks_spec in Hl' as [Hl' Hlive].
    exists l'. repeat split; try done. intros ->. congruence.
  - eexists _, _. split.
    { unfold bind. rewrite cleanup_quiet by done.
      by rewrite get_occupied_zones_quiet. }
    intros z. simpl. rewrite elem_of_list_to_set, sql_occupied_swept, sql_occupied_spec.
    split.
    + intros (l' & ? & ? & ?). exists l'. repeat split; try done.
      intros ->. congruence.
    + intros (l' & ? & ? & ? & ?). by exists l'.
  - intros Hzone Hrows Hfirst Hne Hfit.
    rewrite get_new_task_quiet by done. unfold try_except.
    change (seq 0 max_attempts) with (0%nat :: seq 1 9).
    rewrite <- Hfirst in *.
    rewrite (find_zone_first_hit now b' zone_size catalog rnd 0%nat (seq 1 9) _ _
               first rows); [done|apply quiet_conn_of_rows|done|done| |done|].
    + rewrite elem_of_list_to_set, sql_occupied_swept, sql_occupied_spec.
      intros (l' & Hl' & Hlive & Hz). rewrite (Hzone l') in Hlive; done.
    + simpl. apply sql_find_active_None. intros l'' Hl'' Hz.
      apply list_elem_of_fmap in Hl'' as (l' & -> & Hl').
      rewrite live_swept. rewrite zone_swept in Hz. by apply Hzone.
Qed.

Lemma expired_lease_releases_zone_witness :
  (quiet sample_conn /\ lease_A ∈ committed sample_conn /\ expires_at lease_A < 200) /\
  (exists tasks,
     get_active_tasks 200 sample_conn = Ret (Http200 (length tasks, tasks)) sample_conn /\
     forall e, e ∈ tasks ->
       exists l', l' ∈ committed sample_conn /\ l' <> lease_A /\ live 200 l' = true /\
                  e = task_entry 200 l') /\
  (exists occupied c1,
     (cleanup_expired_tasks 200 >> get_occupied_zones 200) sample_conn
     = Ret occupied c1 /\
     forall z, z ∈ occupied <->
       exists l', l' ∈ committed sample_conn /\ l' <> lease_A /\ live 200 l' = true /\
                  zone_prefix l' = z) /\
  get_new_task "D" 50 200 sample_catalog (fun _ => 0%nat) sample_conn
  = Ret (Http200 (mkNewTask
                    (mkTask "36.02.40." 2
                       [(1, "36.02.40.140.06.01"); (2, "36.02.40.140.06.02")] true)
                    200 2))
      (conn_of_rows
         [set_status expired lease_A; lease_B; lease_C;
          mkLease 4 "36.02.40." "D" 200 7200000200 active] 5).
Proof.
  assert (Hq : quiet sample_conn) by (by split).
  assert (Hin : lease_A ∈ committed sample_conn) by apply list_elem_of_here.
  assert (Hpast : expires_at lease_A < 200) by (simpl; lia).
  split; [by repeat split|].
  destruct (expired_lease_releases_zone 200 sample_conn lease_A "D" 50
              sample_catalog (fun _ => 0%nat)
              (1, "36.02.40.140.06.01") [(2, "36.02.40.140.06.02")]
              Hq Hin Hpast) as (H1 & H2 & H3).
  split; [exact H1|]. split; [exact H2|].
  apply H3; [|reflexivity|reflexivity|done|reflexivity].
  intros l' Hl' Hz. simpl in Hl'.
  apply elem_of_cons in Hl' as [->|Hl']; [reflexivity|].
  apply elem_of_cons in Hl' as [->|Hl']; [discriminate Hz|].
  apply elem_of_cons in Hl' as [->|Hl']; [reflexivity|].
  by apply not_elem_of_nil in Hl'.
Defined.

(** ** Mutual exclusion *)

(** One request at a time keeps the zones exclusive: the check of
    [reserve_zone] and its insert, run without another request in between,
    never add a second live lease to a zone. *)
Lemma reserve_zone_keeps_exclusive now zn b hrs c :
  quiet c ->
  (forall t, now <= t -> exclusive_at t (committed c)) ->
  forall t, now <= t ->
    exclusive_at t (committed (conn_of (reserve_zone now zn b hrs c))).
Proof.
  intros Hq Hex t Ht.
  destruct (sql_find_active zn now (committed c)) as [holder|] eqn:Hfind.
  { rewrite (reserve_zone_taken now zn b hrs c holder) by done. by apply Hex. }
  destruct (fits_columns zn b) eqn:Hfit.
  - rewrite reserve_zone_free by done. simpl.
    pose proof (proj1 (sql_find_active_None zn now (committed c)) Hfind) as Hfree.
    assert (Hold : forall k l', committed c !! k = Some l' ->
                     zone_prefix l' = zn -> live t l' = true -> False).
    { intros k l' Hk Hz Hl. apply live_true in Hl as [Ha Hl].
      assert (E : live now l' = true) by (apply live_true; split; [done|lia]).
      rewrite (Hfree l') in E; [done|by apply list_elem_of_lookup_2 with k|done]. }
    intros i j l1 l2 Hi Hj Hz H1 H2.
    apply lookup_app_Some in Hi as [Hi|[Hil Hi]];
      apply lookup_app_Some in Hj as [Hj|[Hjl Hj]].
    + by apply (Hex t Ht i j l1 l2).
    + apply list_lookup_singleton_Some in Hj as [_ <-]. simpl in Hz.
      exfalso. by apply (Hold i l1).
    + apply list_lookup_singleton_Some in Hi as [_ <-]. simpl in Hz.
      exfalso. by apply (Hold j l2).
    + apply list_lookup_singleton_Some in Hi as [Hi _].
      apply list_lookup_singleton_Some in Hj as [Hj _]. lia.
  - rewrite reserve_zone_refused by done. by apply Hex.
Qed.

(** A request that runs its two statements without the other in between is
    [reserve_zone] on a quiet connection. *)
Lemma race_alone_is_reserve_zone now zn b c other :
  quiet c ->
  exists r rows next,
    Race.run [false; false] (Race.start zn b now) other (committed c, task_id_seq c)
    = (Race.at_pc (Race.start zn b now) (Race.Finished r), other, (rows, next)) /\
    reserve_zone now zn b 2 c = Ret r (conn_of_rows rows next).
Proof.
  intros Hq.
  destruct (sql_find_active zn now (committed c)) as [holder|] eqn:Hfind.
  - exists false, (committed c), (task_id_seq c). split.
    + simpl. unfold Race.step. simpl. by rewrite Hfind.
    + rewrite (reserve_zone_taken now zn b 2 c holder) by done.
      by rewrite <- (quiet_eta c Hq).
  - destruct (fits_columns zn b) eqn:Hfit.
    + eexists true, _, _. split.
      * simpl. unfold Race.step. simpl. rewrite Hfind. simpl. rewrite Hfit.
        reflexivity.
      * by rewrite reserve_zone_free.
    + exists false, (committed c), (task_id_seq c). split.
      * simpl. unfold Race.step. simpl. rewrite Hfind. simpl. by rewrite Hfit.
      * rewrite reserve_zone_refused by done. by rewrite <- (quiet_eta c Hq).
Qed.

(** C1 fails on the code: two requests for the same free zone whose SELECTs
    both run before either INSERT both reserve it, and the table then holds
    two live leases of that zone. *)
Theorem reserve_zone_race_two_leases :
  let a := Race.start "36.02.40." "A" 1000 in
  let b := Race.start "36.02.40." "B" 1000 in
  let rows := [mkLease 1 "36.02.40." "A" 1000 7200001000 active;
               mkLease 2 "36.02.40." "B" 1000 7200001000 active] in
  Race.run [false; true; false; true] a b ([], 1)
  = (Race.at_pc a (Race.Finished true), Race.at_pc b (Race.Finished true), (rows, 3))
  /\ ~ exclusive_at 1000 rows.
Proof.
  split; [reflexivity|].
  intros H. specialize (H 0%nat 1%nat _ _ eq_refl eq_refl eq_refl eq_refl eq_refl).
  discriminate H.
Qed.

(** ** The orders of the queries *)

Lemma string_compare_refl (s : string) : String.compare s s = Eq.
Proof.
  induction s as [|x s IH]; [done|]. simpl.
  unfold Ascii.compare. by rewrite N.compare_refl.
Qed.

Lemma string_compare_trans (a b c : string) :
  String.compare a b <> Gt -> String.compare b c <> Gt -> String.compare a c <> Gt.
Proof.
  revert b c. induction a as [|x a IH]; intros [|y b] [|z c]; simpl; try done.
  unfold Ascii.compare.
  destruct (N.compare_spec (N_of_ascii x) (N_of_ascii y)) as [Exy|Lxy|Gxy];
    destruct (N.compare_spec (N_of_ascii y) (N_of_ascii z)) as [Eyz|Lyz|Gyz];
    destruct (N.compare_spec (N_of_ascii x) (N_of_ascii z)) as [Exz|Lxz|Gxz];
    try done; try lia; intros; by eapply IH.
Qed.

#[global] Instance code_le_refl : Reflexive code_le.
Proof. intros s. unfold code_le, String.leb. by rewrite string_compare_refl. Qed.

#[global] Instance code_le_trans : Transitive code_le.
Proof.
  intros a b c. unfold code_le, String.leb. intros Hab Hbc.
  pose proof (string_compare_trans a b c) as H.
  destruct (String.compare a b), (String.compare b c), (String.compare a c);
    try done; exfalso; by apply H.
Qed.

#[global] Instance code_le_total : Total code_le.
Proof. intros a b. apply String.leb_total. Qed.

#[global] Instance code_le_antisym : AntiSymm (=) code_le.
Proof. intros a b. apply String.leb_antisym. Qed.

#[global] Instance nearer_trans : Transitive nearer.
Proof.
  intros a b c [Hab|[Hab Hab']] [Hbc|[Hbc Hbc']]; unfold nearer.
  - left. lia.
  - left. lia.
  - left. lia.
  - right. split; [lia|]. by transitivity b.1.
Qed.

#[global] Instance nearer_total : Total nearer.
Proof.
  intros a b. unfold nearer.
  destruct (Z.lt_trichotomy a.2 b.2) as [H|[H|H]]; [tauto| |tauto].
  destruct (total code_le a.1 b.1); [left|right]; right; by split.
Qed.

#[global] Instance desc_nulls_last_trans : Transitive desc_nulls_last.
Proof. intros [x|] [y|] [z|]; simpl; try done. lia. Qed.

#[global] Instance desc_nulls_last_total : Total desc_nulls_last.
Proof. intros [x|] [y|]; simpl; try tauto. lia. Qed.

#[global] Instance latest_group_trans : Transitive latest_group.
Proof. intros a b c. unfold latest_group. apply desc_nulls_last_trans. Qed.

#[global] Instance latest_group_total : Total latest_group.
Proof. intros a b. unfold latest_group. apply desc_nulls_last_total. Qed.

Lemma StronglySorted_sublist {A} (R : relation A) (l k : list A) :
  l `sublist_of` k -> StronglySorted R k -> StronglySorted R l.
Proof.
  induction 1 as [|x l k Hs IH|x l k Hs IH]; intros Hk.
  - constructor.
  - apply StronglySorted_inv in Hk as [Hk Hx].
    constructor; [by apply IH|].
    apply Forall_forall. intros y Hy.
    rewrite Forall_forall in Hx. apply Hx.
    by apply (elem_of_sublist l k).
  - apply StronglySorted_inv in Hk as [Hk _]. by apply IH.
Qed.


(** ** Stripping *)

Lemma lstrip_head sp l :
  match lstrip sp l with [] => True | x :: _ => sp x = false end.
Proof.
  induction l as [|x l IH]; [done|]. simpl.
  destruct (sp x) eqn:E; [done|]. exact E.
Qed.

Lemma lstrip_fixed sp x l : sp x = false -> lstrip sp (x :: l) = x :: l.
Proof. intros E. simpl. by rewrite E. Qed.

Lemma lstrip_stable sp l : lstrip sp (lstrip sp l) = lstrip sp l.
Proof.
  pose proof (lstrip_head sp l) as H.
  destruct (lstrip sp l) as [|x k]; [done|]. by apply lstrip_fixed.
Qed.

Lemma lstrip_snoc sp l x : sp x = false -> lstrip sp (l ++ [x]) = lstrip sp l ++ [x].
Proof.
  intros E. induction l as [|y l IH]; simpl; [by rewrite E|].
  by destruct (sp y).
Qed.

Lemma strip_with_idem sp s : strip_with sp (strip_with sp s) = strip_with sp s.
Proof.
  unfold strip_with. rewrite list_ascii_of_string_of_list_ascii. f_equal.
  pose proof (lstrip_head sp (list_ascii_of_string s)) as H.
  destruct (lstrip sp (list_ascii_of_string s)) as [|x k]; [done|].
  cbn [rev]. rewrite (lstrip_snoc sp (rev k) x H).
  rewrite rev_unit. rewrite (lstrip_fixed sp x _ H).
  cbn [rev]. rewrite rev_involutive.
  rewrite (lstrip_snoc sp _ x H), lstrip_stable. by rewrite rev_unit.
Qed.

Lemma py_strip_idem s : py_strip (py_strip s) = py_strip s.
Proof. apply strip_with_idem. Qed.


(** ** The keys of the priority dict *)


(** ** The priority list *)





(** ** The ranking by distance *)





(** ** The suggestions on a store that answers *)



(** ** White space and case, on the characters *)
















(** ** The loop of the suggestions *)




(** ** The ranking, by its rows *)




(** ** The priority list, by its rows *)






(** ** The suggestions on a store that answers, row by row *)






(** ** The handlers on the sample data *)

Example reference_sample :
  value_of (reference (Some "A") (Some "36.02.40.140.06.02") sample_catalog
              sample_results sample_conn)
  = Some (Some 2, Some 40, Some 140).
Proof. reflexivity. Qed.

Example suggestions_sample :
  value_of (get_task_suggestions (Some "A") (Some "36.02.40.140.06.02")
              sample_catalog sample_results sample_conn)
  = Some (Http200
            ([mkSuggestion "36.02.40.140.06.01" "36.02.40." false;
              mkSuggestion "36.02.40.140.06.02" "36.02.40." true;
              mkSuggestion "36.03.10.050.01.01" "36.03.10." true],
             Some "A")).
Proof. vm_compute. reflexivity. Qed.

Example second_worker_other_zone :
  let c1 := conn_of (get_new_task "A" 50 1000 sample_catalog (fun _ => 0%nat)
                       (conn_of_rows [] 1)) in
  committed c1 = [mkLease 1 "36.02.40." "A" 1000 7200001000 active] /\
  value_of (get_new_task "B" 50 2000 sample_catalog (fun n => n) c1)
  = Some (Http200 (mkNewTask (mkTask "36.03.10." 1 [(3, "36.03.10.050.01.01")] true)
                     2000 2)) /\
  value_of (get_new_task "B" 50 2000 sample_catalog (fun _ => 0%nat) c1)
  = Some all_busy.
Proof. vm_compute. repeat split. Qed.

Example like_sample :
  like "36.02.40.140.06.01" "36.02.40.%" = true /\
  like "36.03.10.050.01.01" "36.02.40.%" = false /\
  like "ab_c" "ab\_%" = true /\ like "abxc" "ab\_%" = false.
Proof. repeat split. Qed.

(** * Further properties of the lease handlers *)

(** ** Leases that block a zone *)

Lemma sql_find_active_Some zn now t l :
  l ∈ t -> zone_prefix l = zn -> live now l = true ->
  exists holder, sql_find_active zn now t = Some holder.
Proof.
  intros Hin Hz Hl.
  destruct (sql_find_active zn now t) as [h|] eqn:E; [by exists h|].
  rewrite (proj1 (sql_find_active_None zn now t) E l Hin Hz) in Hl. done.
Qed.

Lemma reserve_zone_blocked t zn b hrs c l :
  quiet c -> l ∈ committed c -> zone_prefix l = zn -> live t l = true ->
  reserve_zone t zn b hrs c = Ret false c.
Proof.
  intros Hq Hin Hz Hl.
  destruct (sql_find_active_Some zn t (committed c) l Hin Hz Hl) as [h Hh].
  by apply (reserve_zone_taken t zn b hrs c h).
Qed.

Lemma live_later now t l : now <= t -> live t l = true -> live now l = true.
Proof. intros Ht Hl. apply live_true in Hl. apply live_true. split; [tauto|lia]. Qed.

Lemma sql_find_active_later zn now t rows :
  now <= t -> sql_find_active zn now rows = None -> sql_find_active zn t rows = None.
Proof.
  intros Ht Hnone. apply sql_find_active_None. intros l Hin Hz.
  apply not_true_is_false. intros Hl. apply (live_later now t l Ht) in Hl.
  rewrite (proj1 (sql_find_active_None zn now rows) Hnone l Hin Hz) in Hl. done.
Qed.

Lemma sql_find_active_snoc zn t rows l :
  sql_find_active zn t rows = None -> live t l = false ->
  sql_find_active zn t (rows ++ [l]) = None.
Proof.
  intros Hnone Hl. apply sql_find_active_None. intros l' Hin Hz.
  apply elem_of_app in Hin as [Hin|Hin].
  - by apply (proj1 (sql_find_active_None zn t rows) Hnone).
  - by apply list_elem_of_singleton in Hin as ->.
Qed.

(** X1: a lease that [reserve_zone] has written keeps every other request
    for its zone out for exactly its hours: until its expiry the answer is
    [False] and nothing is written, from its expiry on the zone is given
    again, without any sweep in between. *)
Theorem reserve_zone_holds_for_its_hours now zn b hrs c :
  quiet c -> fits_columns zn b = true ->
  sql_find_active zn now (committed c) = None ->
  exists c1,
    reserve_zone now zn b hrs c = Ret true c1 /\ quiet c1 /\
    (forall t b' hrs', now <= t < now + hours hrs ->
       reserve_zone t zn b' hrs' c1 = Ret false c1) /\
    (forall t b' hrs', now <= t -> now + hours hrs <= t ->
       fits_columns zn b' = true ->
       reserve_zone t zn b' hrs' c1
       = Ret true
           (conn_of_rows
              (committed c1 ++ [mkLease (task_id_seq c1) zn b' t (t + hours hrs') active])
              (task_id_seq c1 + 1))).
Proof.
  intros Hq Hfit Hfree. eexists. split; [by apply reserve_zone_free|].
  split; [apply quiet_conn_of_rows|]. split.
  - intros t b' hrs' Ht.
    apply (reserve_zone_blocked t zn b' hrs' _
             (mkLease (task_id_seq c) zn b now (now + hours hrs) active)).
    + apply quiet_conn_of_rows.
    + simpl. apply elem_of_app. right. apply list_elem_of_here.
    + done.
    + apply live_true. simpl. split; [done|lia].
  - intros t b' hrs' Ht Hexp Hfit'.
    apply reserve_zone_free; [apply quiet_conn_of_rows|done|]. simpl.
    apply sql_find_active_snoc; [by apply (sql_find_active_later zn now t)|].
    apply past_not_live. simpl. lia.
Qed.

Lemma reserve_zone_holds_for_its_hours_witness :
  (quiet sample_conn /\ fits_columns "36.02.41." "D" = true /\
   sql_find_active "36.02.41." 200 (committed sample_conn) = None) /\
  exists c1,
    reserve_zone 200 "36.02.41." "D" 2 sample_conn = Ret true c1 /\ quiet c1 /\
    (forall t b' hrs', 200 <= t < 200 + hours 2 ->
       reserve_zone t "36.02.41." b' hrs' c1 = Ret false c1) /\
    (forall t b' hrs', 200 <= t -> 200 + hours 2 <= t ->
       fits_columns "36.02.41." b' = true ->
       reserve_zone t "36.02.41." b' hrs' c1
       = Ret true
           (conn_of_rows
              (committed c1
               ++ [mkLease (task_id_seq c1) "36.02.41." b' t (t + hours hrs') active])
              (task_id_seq c1 + 1))).
Proof.
  split; [by split_and!|].
  apply (reserve_zone_holds_for_its_hours 200 "36.02.41." "D" 2 sample_conn);
    [by split|reflexivity|reflexivity].
Defined.

(** ** The administrative assignment *)

Lemma admin_assign_task_quiet b zn hrs now c :
  quiet c -> b <> "" -> zn <> "" -> fits_columns zn b = true ->
  admin_assign_task (Some "ADMIN") (Some b) (Some zn) hrs now c
  = Ret (Http200 (mkAssigned (task_id_seq c) zn b now (now + hours hrs)))
      (conn_of_rows
         (committed c ++ [mkLease (task_id_seq c) zn b now (now + hours hrs) active])
         (task_id_seq c + 1)).
Proof.
  intros Hq Hb Hz Hfit. rewrite (quiet_eta c Hq). simpl.
  unfold admin_assign_task.
  assert (E : bool_decide (Some "ADMIN" = Some "ADMIN") = true) by done.
  rewrite E. simpl. rewrite (present_eqb b Hb), (present_eqb zn Hz). simpl.
  unfold try_except, bind, execute_insert, bind. simpl. by rewrite Hfit.
Qed.

(** X2: the administrative assignment never looks at the leases there are.
    For the admin, with badge and zone present and within their columns,
    it always writes a new active lease that expires the given hours after
    [now]; when the zone already has a live lease and the hours are
    positive, the table then holds two live leases of that zone. *)
Theorem admin_assign_task_bypasses_check b zn hrs now c :
  quiet c -> b <> "" -> zn <> "" -> fits_columns zn b = true ->
  exists c',
    admin_assign_task (Some "ADMIN") (Some b) (Some zn) hrs now c
    = Ret (Http200 (mkAssigned (task_id_seq c) zn b now (now + hours hrs))) c' /\
    committed c'
    = committed c ++ [mkLease (task_id_seq c) zn b now (now + hours hrs) active] /\
    (forall l, l ∈ committed c -> zone_prefix l = zn -> live now l = true ->
       0 < hrs -> ~ exclusive_at now (committed c')).
Proof.
  intros Hq Hb Hz Hfit. eexists.
  split; [by apply admin_assign_task_quiet|]. split; [done|].
  intros l Hin Hzn Hl Hh Hex. simpl in Hex.
  apply list_elem_of_lookup_1 in Hin as [i Hi].
  pose proof (lookup_lt_Some _ _ _ Hi) as Hlt.
  specialize (Hex i (length (committed c)) l
                (mkLease (task_id_seq c) zn b now (now + hours hrs) active)).
  rewrite lookup_app_l in Hex by done.
  rewrite lookup_app_r, Nat.sub_diag in Hex by lia.
  specialize (Hex Hi eq_refl Hzn Hl).
  assert (Hnew : live now (mkLease (task_id_seq c) zn b now (now + hours hrs) active)
                 = true).
  { apply live_true. simpl. unfold hours. split; [done|lia]. }
  specialize (Hex Hnew). lia.
Qed.

Lemma admin_assign_task_bypasses_check_witness :
  (quiet sample_conn /\ "D" <> "" /\ "36.03.10." <> "" /\
   fits_columns "36.03.10." "D" = true) /\
  exists c',
    admin_assign_task (Some "ADMIN") (Some "D") (Some "36.03.10.") 2 200 sample_conn
    = Ret (Http200 (mkAssigned (task_id_seq sample_conn) "36.03.10." "D" 200
                      (200 + hours 2))) c' /\
    committed c'
    = committed sample_conn
      ++ [mkLease (task_id_seq sample_conn) "36.03.10." "D" 200 (200 + hours 2) active] /\
    (forall l, l ∈ committed sample_conn -> zone_prefix l = "36.03.10." ->
       live 200 l = true -> 0 < 2 -> ~ exclusive_at 200 (committed c')).
Proof.
  split; [by split_and!|].
  apply (admin_assign_task_bypasses_check "D" "36.03.10." 2 200 sample_conn);
    [by split|done|done|reflexivity].
Defined.

Lemma sql_find_active_snoc_dead zn t rows l :
  live t l = false -> sql_find_active zn t (rows ++ [l]) = sql_find_active zn t rows.
Proof.
  intros Hl. unfold sql_find_active. rewrite filter_app.
  rewrite filter_cons_False, filter_nil, app_nil_r; [done|].
  intros [_ H]. congruence.
Qed.

(** X3: the hours of an administrative assignment are taken as they come.
    With positive hours the new lease keeps the workers out of the zone
    until it expires, like a lease of their own; with hours that are zero
    or negative the lease is written as active but is live at no time from
    [now] on: it changes no answer of the check of [reserve_zone]. *)
Theorem admin_assign_task_hours b zn hrs now c :
  quiet c -> b <> "" -> zn <> "" -> fits_columns zn b = true ->
  exists r c',
    admin_assign_task (Some "ADMIN") (Some b) (Some zn) hrs now c = Ret (Http200 r) c' /\
    quiet c' /\
    (0 < hrs -> forall t b' hrs', now <= t < now + hours hrs ->
       reserve_zone t zn b' hrs' c' = Ret false c') /\
    (hrs <= 0 -> forall t z, now <= t ->
       sql_find_active z t (committed c') = sql_find_active z t (committed c)).
Proof.
  intros Hq Hb Hz Hfit. eexists _, _.
  split; [by apply admin_assign_task_quiet|].
  split; [apply quiet_conn_of_rows|]. split.
  - intros Hh t b' hrs' Ht.
    apply (reserve_zone_blocked t zn b' hrs' _
             (mkLease (task_id_seq c) zn b now (now + hours hrs) active)).
    + apply quiet_conn_of_rows.
    + simpl. apply elem_of_app. right. apply list_elem_of_here.
    + done.
    + apply live_true. simpl. split; [done|lia].
  - intros Hh t z Ht. simpl. apply sql_find_active_snoc_dead.
    apply past_not_live. simpl. unfold hours. lia.
Qed.

Lemma admin_assign_task_hours_witness :
  (quiet sample_conn /\ "D" <> "" /\ "36.02.41." <> "" /\
   fits_columns "36.02.41." "D" = true) /\
  exists r c',
    admin_assign_task (Some "ADMIN") (Some "D") (Some "36.02.41.") (-1) 200 sample_conn
    = Ret (Http200 r) c' /\
    quiet c' /\
    (0 < -1 -> forall t b' hrs', 200 <= t < 200 + hours (-1) ->
       reserve_zone t "36.02.41." b' hrs' c' = Ret false c') /\
    (-1 <= 0 -> forall t z, 200 <= t ->
       sql_find_active z t (committed c') = sql_find_active z t (committed sample_conn)).
Proof.
  split; [by split_and!|].
  apply (admin_assign_task_hours "D" "36.02.41." (-1) 200 sample_conn);
    [by split|done|done|reflexivity].
Defined.

(** ** The administrative closing *)

Lemma admin_close_task_quiet id c :
  quiet c -> id <> 0 ->
  admin_close_task (Some "ADMIN") (Some id) c
  = Ret match head (filter (fun l => extends id l = true) (committed c)) with
        | Some _ => Http200 (closed_msg id)
        | None => HttpError 404 already_closed_msg
        end
        (conn_of_rows (closed_by_id id <$> committed c) (task_id_seq c)).
Proof.
  intros [Hw Hf] Hid. unfold admin_close_task.
  assert (E : bool_decide (Some "ADMIN" = Some "ADMIN") = true) by done.
  rewrite E. simpl.
  assert (Hrun :
    try_except
      (let* updated := execute_update (sql_close id) in
       commit >>
       match updated with
       | None => ret (HttpError 404 already_closed_msg)
       | Some _ => ret (Http200 (closed_msg id))
       end)
      (fun e => ret (HttpError 500 e)) c
    = Ret match head (filter (fun l => extends id l = true) (committed c)) with
          | Some _ => Http200 (closed_msg id)
          | None => HttpError 404 already_closed_msg
          end
          (conn_of_rows (closed_by_id id <$> committed c) (task_id_seq c))).
  { unfold try_except, bind. rewrite execute_update_quiet by done.
    rewrite commit_quiet by done. simpl. rewrite Hw.
    by destruct (filter _ (committed c)). }
  destruct id; [done|exact Hrun|exact Hrun].
Qed.

Lemma filter_head_elem {A} (P : A -> Prop) `{!forall x, Decision (P x)} l x xs :
  filter P l = x :: xs -> P x /\ x ∈ l.
Proof.
  intros E. assert (Hx : x ∈ filter P l) by (rewrite E; apply list_elem_of_here).
  by apply list_elem_of_filter in Hx.
Qed.

(** X4: the administrative closing goes by the id and the status alone.
    For the admin and a task id that is present, every row with that id
    whose status is active becomes completed, whoever holds it and whether
    or not it has expired, and the answer names the task; when no row with
    that id is active, the answer is the 404 and the table is unchanged.
    Once closed, the zone is free at once: with no other live lease on it,
    [reserve_zone] gives it to the next worker. *)
Theorem admin_close_task_by_status id c :
  quiet c -> id <> 0 ->
  exists r c',
    admin_close_task (Some "ADMIN") (Some id) c = Ret r c' /\ quiet c' /\
    (forall i l, committed c !! i = Some l ->
       committed c' !! i
       = Some (if decide (task_id l = id /\ status l = active)
               then set_status completed l else l)) /\
    ((exists l, l ∈ committed c /\ task_id l = id /\ status l = active) ->
     r = Http200 (closed_msg id)) /\
    ((forall l, l ∈ committed c -> task_id l = id -> status l <> active) ->
     r = HttpError 404 already_closed_msg /\ committed c' = committed c) /\
    (forall now zn b hrs,
       (forall l, l ∈ committed c -> zone_prefix l = zn -> live now l = true ->
          task_id l = id) ->
       fits_columns zn b = true ->
       reserve_zone now zn b hrs c'
       = Ret true
           (conn_of_rows
              (committed c' ++ [mkLease (task_id_seq c') zn b now (now + hours hrs) active])
              (task_id_seq c' + 1))).
Proof.
  intros Hq Hid. eexists _, _.
  split; [by apply admin_close_task_quiet|].
  split; [apply quiet_conn_of_rows|]. split_and!.
  - intros i l Hi. simpl. rewrite list_lookup_fmap, Hi. simpl. f_equal.
    unfold closed_by_id. destruct (extends id l) eqn:E.
    + apply extends_true in E. by rewrite decide_True.
    + rewrite decide_False; [done|]. intros H. apply extends_true in H. congruence.
  - intros (l & Hin & Hl & Ha).
    destruct (filter _ (committed c)) as [|x xs] eqn:E; [|done]. exfalso.
    apply (filter_nil_not_elem_of (fun l => extends id l = true) (committed c) l E);
      [by apply extends_true|done].
  - intros Hnone.
    assert (E : filter (fun l => extends id l = true) (committed c) = []).
    { destruct (filter _ (committed c)) as [|x xs] eqn:E; [done|]. exfalso.
      apply filter_head_elem in E as [Hx Hxin].
      apply extends_true in Hx as [Hx1 Hx2]. by apply (Hnone x). }
    rewrite E. simpl. split; [done|].
    rewrite <- (list_fmap_id (committed c)) at 2.
    apply list_fmap_ext. intros i l Hi. unfold closed_by_id.
    destruct (extends id l) eqn:Ex; [|done]. exfalso.
    apply extends_true in Ex as [? ?].
    apply (Hnone l); [by apply list_elem_of_lookup_2 with i|done|done].
  - intros now zn b hrs Honly Hfit.
    apply reserve_zone_free; [apply quiet_conn_of_rows|done|]. simpl.
    apply sql_find_active_None. intros l' Hin' Hz.
    apply list_elem_of_fmap in Hin' as (l & -> & Hin).
    unfold closed_by_id in *. destruct (extends id l) eqn:Ex.
    + apply not_true_is_false. intros H. apply live_true in H as [H _]. done.
    + apply not_true_is_false. intros Hl.
      pose proof (Honly l Hin Hz Hl) as Hid'.
      apply live_true in Hl as [Ha _].
      assert (Hext : extends id l = true) by (by apply extends_true). congruence.
Qed.

Lemma admin_close_task_by_status_witness :
  (quiet sample_conn /\ 2 <> 0) /\
  exists r c',
    admin_close_task (Some "ADMIN") (Some 2) sample_conn = Ret r c' /\ quiet c' /\
    (forall i l, committed sample_conn !! i = Some l ->
       committed c' !! i
       = Some (if decide (task_id l = 2 /\ status l = active)
               then set_status completed l else l)) /\
    ((exists l, l ∈ committed sample_conn /\ task_id l = 2 /\ status l = active) ->
     r = Http200 (closed_msg 2)) /\
    ((forall l, l ∈ committed sample_conn -> task_id l = 2 -> status l <> active) ->
     r = HttpError 404 already_closed_msg /\ committed c' = committed sample_conn) /\
    (forall now zn b hrs,
       (forall l, l ∈ committed sample_conn -> zone_prefix l = zn ->
          live now l = true -> task_id l = 2) ->
       fits_columns zn b = true ->
       reserve_zone now zn b hrs c'
       = Ret true
           (conn_of_rows
              (committed c' ++ [mkLease (task_id_seq c') zn b now (now + hours hrs) active])
              (task_id_seq c' + 1))).
Proof.
  split; [by split|].
  apply (admin_close_task_by_status 2 sample_conn); [by split|done].
Defined.

(** ** Completion and the next request *)

(** X5: a completed zone is free at once. When every live lease of the zone
    is held by the worker who completes it, and there is one, the completion
    answers success and the very next [reserve_zone] for that zone, by any
    worker and at the same time, gets it: nobody has to wait for the
    expiry. *)
Theorem complete_task_frees_zone now b zn c l b' hrs :
  quiet c -> b <> "" -> zn <> "" ->
  l ∈ committed c -> zone_prefix l = zn -> badge l = b -> live now l = true ->
  (forall l', l' ∈ committed c -> zone_prefix l' = zn -> live now l' = true ->
     badge l' = b) ->
  fits_columns zn b' = true ->
  exists c1,
    complete_task b zn c = Ret (Http200 (mkComplete true done_msg)) c1 /\
    reserve_zone now zn b' hrs c1
    = Ret true
        (conn_of_rows
           (committed c1 ++ [mkLease (task_id_seq c1) zn b' now (now + hours hrs) active])
           (task_id_seq c1 + 1)).
Proof.
  intros Hq Hb Hz Hin Hzn Hbd Hl Hall Hfit.
  assert (Hcl : closes zn b l = true).
  { apply closes_true. apply live_true in Hl. tauto. }
  eexists. split.
  - rewrite complete_task_quiet by done.
    destruct (filter _ (committed c)) as [|x xs] eqn:E; [|done]. exfalso.
    by apply (filter_nil_not_elem_of (fun l => closes zn b l = true) (committed c) l E Hcl).
  - apply reserve_zone_free; [apply quiet_conn_of_rows|done|]. simpl.
    apply sql_find_active_None. intros l'' Hin'' Hz''.
    apply list_elem_of_fmap in Hin'' as (l' & -> & Hin').
    unfold closed in *. destruct (closes zn b l') eqn:Ec.
    + apply not_true_is_false. intros H. apply live_true in H as [H _]. done.
    + apply not_true_is_false. intros Hl'.
      pose proof (Hall l' Hin' Hz'' Hl') as Hb'.
      apply live_true in Hl' as [Ha _].
      assert (Hc : closes zn b l' = true) by (by apply closes_true). congruence.
Qed.

Lemma complete_task_frees_zone_witness :
  (quiet sample_conn /\ "B" <> "" /\ "36.03.10." <> "" /\
   lease_B ∈ committed sample_conn /\ zone_prefix lease_B = "36.03.10." /\
   badge lease_B = "B" /\ live 200 lease_B = true /\
   (forall l', l' ∈ committed sample_conn -> zone_prefix l' = "36.03.10." ->
      live 200 l' = true -> badge l' = "B") /\
   fits_columns "36.03.10." "D" = true) /\
  exists c1,
    complete_task "B" "36.03.10." sample_conn
    = Ret (Http200 (mkComplete true done_msg)) c1 /\
    reserve_zone 200 "36.03.10." "D" 2 c1
    = Ret true
        (conn_of_rows
           (committed c1
            ++ [mkLease (task_id_seq c1) "36.03.10." "D" 200 (200 + hours 2) active])
           (task_id_seq c1 + 1)).
Proof.
  assert (Hin : lease_B ∈ committed sample_conn)
    by (apply list_elem_of_further, list_elem_of_here).
  assert (Hall : forall l', l' ∈ committed sample_conn -> zone_prefix l' = "36.03.10." ->
                   live 200 l' = true -> badge l' = "B").
  { intros l' Hl' Hz Hlive. simpl in Hl'.
    apply elem_of_cons in Hl' as [->|Hl']; [discriminate Hz|].
    apply elem_of_cons in Hl' as [->|Hl']; [reflexivity|].
    apply elem_of_cons in Hl' as [->|Hl']; [discriminate Hz|].
    by apply not_elem_of_nil in Hl'. }
  split; [split_and!; (done || exact Hin || exact Hall)|].
  apply (complete_task_frees_zone 200 "B" "36.03.10." sample_conn lease_B "D" 2);
    [by split|done|done|exact Hin|reflexivity|reflexivity|reflexivity|exact Hall
    |reflexivity].
Defined.

(** X6: the completion is all or nothing. From a connection without pending
    writes and whatever the store does, the handler answers (it never
    raises); when the answer is the 500 of a failure, the table is as it was
    and nothing is left pending; when it is a 200, the rows of the worker on
    the zone are completed and committed. *)
Theorem complete_task_all_or_nothing b zn c plan :
  working c = committed c -> b <> "" -> zn <> "" ->
  exists r c',
    complete_task b zn (with_faults c plan) = Ret r c' /\
    working c' = committed c' /\
    match r with
    | Http200 _ => committed c' = closed zn b <$> committed c
    | HttpError code _ => code = 500 /\ committed c' = committed c
    end.
Proof.
  intros Hw Hb Hz. destruct c as [cm wk sq fl]. simpl in Hw. subst wk.
  unfold complete_task, try_except, bind, with_faults.
  rewrite (present_eqb b Hb), (present_eqb zn Hz). simpl.
  unfold execute_update, commit, bind, store_call. simpl.
  destruct plan as [|[|] plan]; simpl.
  - destruct (0 <? _)%nat; by eexists _, _.
  - by eexists _, _.
  - destruct plan as [|[|] plan]; simpl.
    + destruct (0 <? _)%nat; by eexists _, _.
    + by eexists _, _.
    + destruct (0 <? _)%nat; by eexists _, _.
Qed.

Lemma complete_task_all_or_nothing_witness :
  (working sample_conn = committed sample_conn /\ "A" <> "" /\ "36.02.40." <> "") /\
  exists r c',
    complete_task "A" "36.02.40." (with_faults sample_conn [false; true]) = Ret r c' /\
    working c' = committed c' /\
    match r with
    | Http200 _ => committed c' = closed "36.02.40." "A" <$> committed sample_conn
    | HttpError code _ => code = 500 /\ committed c' = committed sample_conn
    end.
Proof.
  split; [by split_and!|].
  apply (complete_task_all_or_nothing "A" "36.02.40." sample_conn [false; true]); done.
Defined.

(** ** The sweep and the readers *)

Lemma filter_live_swept now (t : list lease) :
  filter (fun l => live now l = true) (swept now <$> t)
  = filter (fun l => live now l = true) t.
Proof.
  induction t as [|l t IH]; [done|]. rewrite fmap_cons.
  destruct (live now l) eqn:E.
  - rewrite (swept_live now l E).
    rewrite !filter_cons_True by done. by rewrite IH.
  - rewrite !filter_cons_False; [done|congruence|].
    rewrite live_swept. congruence.
Qed.

Lemma filter_zone_live_swept zn now (t : list lease) :
  filter (fun l => zone_prefix l = zn /\ live now l = true) (swept now <$> t)
  = filter (fun l => zone_prefix l = zn /\ live now l = true) t.
Proof.
  induction t as [|l t IH]; [done|]. rewrite fmap_cons.
  destruct (live now l) eqn:E.
  - rewrite (swept_live now l E). rewrite !filter_cons. by rewrite IH.
  - rewrite !filter_cons_False; [done| |].
    + intros [_ H]. congruence.
    + rewrite live_swept. intros [_ H]. congruence.
Qed.

(** X7: the sweep changes no answer. Right after [cleanup_expired_tasks],
    at the same time, the set of occupied zones, the listing of the active
    tasks and the check of [reserve_zone] are what they were before it: the
    rows it marks are the rows the readers skip already. *)
Theorem cleanup_expired_tasks_unobservable now c :
  quiet c ->
  exists c',
    cleanup_expired_tasks now c = Ret tt c' /\ quiet c' /\
    value_of (get_occupied_zones now c') = value_of (get_occupied_zones now c) /\
    value_of (get_active_tasks now c') = value_of (get_active_tasks now c) /\
    (forall zn, sql_find_active zn now (committed c')
                = sql_find_active zn now (committed c)).
Proof.
  intros Hq. eexists. split; [by apply cleanup_quiet|].
  split; [apply quiet_conn_of_rows|]. split_and!.
  - rewrite !get_occupied_zones_quiet by (apply Hq || done). simpl.
    destruct Hq as [-> _]. unfold sql_occupied. by rewrite filter_live_swept.
  - rewrite !get_active_tasks_quiet by (done || apply quiet_conn_of_rows). simpl.
    unfold sql_active_tasks. by rewrite filter_live_swept.
  - intros zn. simpl. unfold sql_find_active. by rewrite filter_zone_live_swept.
Qed.

Lemma cleanup_expired_tasks_unobservable_witness :
  quiet sample_conn /\
  exists c',
    cleanup_expired_tasks 200 sample_conn = Ret tt c' /\ quiet c' /\
    value_of (get_occupied_zones 200 c') = value_of (get_occupied_zones 200 sample_conn) /\
    value_of (get_active_tasks 200 c') = value_of (get_active_tasks 200 sample_conn) /\
    (forall zn, sql_find_active zn 200 (committed c')
                = sql_find_active zn 200 (committed sample_conn)).
Proof.
  split; [by split|].
  apply (cleanup_expired_tasks_unobservable 200 sample_conn). by split.
Defined.

(** ** The listing of the active tasks *)

#[global] Instance newer_first_trans : Transitive newer_first.
Proof. intros a b c. unfold newer_first. lia. Qed.

#[global] Instance newer_first_total : Total newer_first.
Proof. intros a b. unfold newer_first. lia. Qed.

(** X8: the listing holds the live leases, each once, the newest assignment
    first, with the count of its entries: a row has an entry exactly when
    it is active and not yet expired. Nothing is said of the hours left
    that the handler reports, a rounding of the exact time left. *)
Theorem get_active_tasks_listing now c :
  quiet c ->
  exists rows,
    get_active_tasks now c
    = Ret (Http200 (length rows, task_entry now <$> rows)) c /\
    rows ≡ₚ filter (fun l => live now l = true) (committed c) /\
    StronglySorted newer_first rows /\
    (forall l, l ∈ rows <-> l ∈ committed c /\ status l = active /\ now < expires_at l).
Proof.
  intros Hq. exists (sql_active_tasks now (committed c)). split_and!.
  - rewrite get_active_tasks_quiet by done. by rewrite length_fmap.
  - apply merge_sort_Permutation.
  - apply StronglySorted_merge_sort; apply _.
  - intros l. rewrite sql_active_tasks_spec, live_true. tauto.
Qed.

Lemma get_active_tasks_listing_witness :
  quiet sample_conn /\
  exists rows,
    get_active_tasks 60 sample_conn
    = Ret (Http200 (length rows, task_entry 60 <$> rows)) sample_conn /\
    rows ≡ₚ filter (fun l => live 60 l = true) (committed sample_conn) /\
    StronglySorted newer_first rows /\
    (forall l, l ∈ rows <->
       l ∈ committed sample_conn /\ status l = active /\ 60 < expires_at l).
Proof.
  split; [by split|].
  apply (get_active_tasks_listing 60 sample_conn). by split.
Defined.

(** ** Hours of the administrative extension *)

(** X9: the hours of an extension are not checked either. With negative
    hours the extension answers as a success and moves the expiry back; a
    lease that was live is then no longer live when its new expiry is not
    after [now], while its status stays active. *)
Theorem admin_extend_task_can_shorten now hrs id c i l :
  quiet c -> id <> 0 ->
  committed c !! i = Some l -> task_id l = id -> status l = active ->
  (forall l', l' ∈ committed c -> task_id l' = id -> l' = l) ->
  expires_at l + hours hrs <= now ->
  exists c',
    admin_extend_task (Some "ADMIN") (Some id) hrs c
    = Ret (Http200 (mkExtended id (zone_prefix l) (badge l) (expires_at l + hours hrs))) c' /\
    committed c' !! i = Some (set_expires_at (expires_at l + hours hrs) l) /\
    status (set_expires_at (expires_at l + hours hrs) l) = active /\
    live now (set_expires_at (expires_at l + hours hrs) l) = false.
Proof.
  intros Hq Hid Hi Hl Ha Huniq Hexp.
  assert (Hext : extends id l = true) by (by apply extends_true).
  eexists. split_and!.
  - rewrite admin_extend_task_quiet by done.
    destruct (filter _ (committed c)) as [|x xs] eqn:E.
    + exfalso.
      apply (filter_nil_not_elem_of (fun l => extends id l = true) (committed c) l E Hext).
      by apply list_elem_of_lookup_2 with i.
    + apply filter_head_elem in E as [Hx Hxin]. apply extends_true in Hx as [Hx _].
      rewrite (Huniq x Hxin Hx). simpl. by rewrite Hl.
  - simpl. rewrite list_lookup_fmap, Hi. simpl. unfold extended, later.
    by rewrite Hext.
  - done.
  - apply past_not_live. simpl. lia.
Qed.

Lemma admin_extend_task_can_shorten_witness :
  (quiet sample_conn /\ 2 <> 0 /\
   committed sample_conn !! 1%nat = Some lease_B /\ task_id lease_B = 2 /\
   status lease_B = active /\
   (forall l', l' ∈ committed sample_conn -> task_id l' = 2 -> l' = lease_B) /\
   expires_at lease_B + hours (-2) <= 200) /\
  exists c',
    admin_extend_task (Some "ADMIN") (Some 2) (-2) sample_conn
    = Ret (Http200 (mkExtended 2 (zone_prefix lease_B) (badge lease_B)
                      (expires_at lease_B + hours (-2)))) c' /\
    committed c' !! 1%nat = Some (set_expires_at (expires_at lease_B + hours (-2)) lease_B) /\
    status (set_expires_at (expires_at lease_B + hours (-2)) lease_B) = active /\
    live 200 (set_expires_at (expires_at lease_B + hours (-2)) lease_B) = false.
Proof.
  assert (Huniq : forall l', l' ∈ committed sample_conn -> task_id l' = 2 -> l' = lease_B).
  { intros l' Hl' Hid. simpl in Hl'.
    apply elem_of_cons in Hl' as [->|Hl']; [discriminate Hid|].
    apply elem_of_cons in Hl' as [->|Hl']; [reflexivity|].
    apply elem_of_cons in Hl' as [->|Hl']; [discriminate Hid|].
    by apply not_elem_of_nil in Hl'. }
  split; [split_and!; (done || exact Huniq)|].
  apply (admin_extend_task_can_shorten 200 (-2) 2 sample_conn 1%nat lease_B);
    [by split|done|reflexivity|reflexivity|reflexivity|exact Huniq|done].
Defined.

(** ** One request for a new task at a time *)

#[global] Instance by_code_trans : Transitive by_code.
Proof. intros a b c. unfold by_code. apply code_le_trans. Qed.

#[global] Instance by_code_total : Total by_code.
Proof. intros a b. unfold by_code. apply code_le_total. Qed.

Lemma zone_rows_spec catalog r row :
  row ∈ zone_rows catalog r <->
  exists w, w ∈ catalog /\ mx_id w = row.1 /\ mx_code w = Some row.2 /\
            like row.2 (String.append (py_prefix 9 r) "%") = true.
Proof.
  unfold zone_rows. rewrite merge_sort_Permutation, list_elem_of_omap. split.
  - intros (w & Hw & Hrow). exists w.
    destruct (mx_code w) as [s|]; [|done].
    destruct (like s _) eqn:E; [|done]. injection Hrow as <-. done.
  - intros (w & Hw & Hid & Hc & Hl). exists w. split; [done|].
    rewrite Hc, Hl. destruct row. simpl in *. by subst.
Qed.

Lemma sql_zone_spec catalog draw zone_size rows :
  sql_zone catalog draw zone_size = Some rows ->
  0 <= zone_size /\ (length rows <= Z.to_nat zone_size)%nat /\
  StronglySorted by_code rows /\
  (forall row, row ∈ rows ->
     exists w, w ∈ catalog /\ mx_id w = row.1 /\ mx_code w = Some row.2).
Proof.
  unfold sql_zone. destruct (zone_size <? 0) eqn:E; [done|].
  apply Z.ltb_ge in E. intros [= <-]. split; [done|].
  destruct (random_place catalog draw) as [r|].
  - split_and!.
    + rewrite length_take. lia.
    + apply (StronglySorted_sublist by_code _ (zone_rows catalog r));
        [apply sublist_take|]. apply StronglySorted_merge_sort; apply _.
    + intros row Hrow.
      assert (H : row ∈ zone_rows catalog r)
        by (apply (elem_of_sublist (take (Z.to_nat zone_size) (zone_rows catalog r)));
            [done|apply sublist_take]).
      apply zone_rows_spec in H as (w & ? & ? & ? & _). by exists w.
  - split_and!; [simpl; lia|constructor|].
    intros row Hrow. by apply not_elem_of_nil in Hrow.
Qed.

Lemma execute_catalog_refused {A} c :
  faults c = [] ->
  execute_catalog (A:=A) None c = Raise "LIMIT must not be negative" c.
Proof. intros H. unfold execute_catalog, bind. by rewrite store_call_quiet. Qed.

(** What the loop of the attempts comes to on a store that answers. *)
Lemma find_zone_quiet now b zone_size catalog rnd attempts occupied c :
  quiet c ->
  find_zone now b zone_size catalog rnd attempts occupied c = Ret all_busy c \/
  (zone_size < 0 /\
   find_zone now b zone_size catalog rnd attempts occupied c
   = Raise "LIMIT must not be negative" c) \/
  (exists first rows a,
     a ∈ attempts /\ sql_zone catalog (rnd a) zone_size = Some (first :: rows) /\
     py_prefix 9 first.2 <> "" /\ (py_prefix 9 first.2 ∉ occupied) /\
     sql_find_active (py_prefix 9 first.2) now (committed c) = None /\
     find_zone now b zone_size catalog rnd attempts occupied c
     = Ret (Http200 (mkNewTask
                       (mkTask (py_prefix 9 first.2) (length (first :: rows))
                          (first :: rows) true) now 2))
         (conn_of_rows
            (committed c
             ++ [mkLease (task_id_seq c) (py_prefix 9 first.2) b now (now + hours 2) active])
            (task_id_seq c + 1))).
Proof.
  intros Hq. revert occupied.
  induction attempts as [|a rest IH]; intros occupied; [by left|].
  assert (Hnext : forall occ',
    occupied ⊆ occ' ->
    find_zone now b zone_size catalog rnd (a :: rest) occupied c
    = find_zone now b zone_size catalog rnd rest occ' c ->
    find_zone now b zone_size catalog rnd (a :: rest) occupied c = Ret all_busy c \/
    (zone_size < 0 /\
     find_zone now b zone_size catalog rnd (a :: rest) occupied c
     = Raise "LIMIT must not be negative" c) \/
    (exists first rows a0,
       a0 ∈ a :: rest /\ sql_zone catalog (rnd a0) zone_size = Some (first :: rows) /\
       py_prefix 9 first.2 <> "" /\ (py_prefix 9 first.2 ∉ occupied) /\
       sql_find_active (py_prefix 9 first.2) now (committed c) = None /\
       find_zone now b zone_size catalog rnd (a :: rest) occupied c
       = Ret (Http200 (mkNewTask
                         (mkTask (py_prefix 9 first.2) (length (first :: rows))
                            (first :: rows) true) now 2))
           (conn_of_rows
              (committed c
               ++ [mkLease (task_id_seq c) (py_prefix 9 first.2) b now (now + hours 2)
                     active])
              (task_id_seq c + 1)))).
  { intros occ' Hsub ->.
    destruct (IH occ') as [H|[H|(first & rows & a0 & Ha & Hz & Hne & Hocc & Hfree & H)]].
    - by left.
    - right. by left.
    - right. right. exists first, rows, a0. split_and!; try done.
      + by apply list_elem_of_further.
      + set_solver. }
  assert (Hstep : forall rows,
    sql_zone catalog (rnd a) zone_size = Some rows ->
    find_zone now b zone_size catalog rnd (a :: rest) occupied c
    = match rows with
      | [] => find_zone now b zone_size catalog rnd rest occupied c
      | first :: _ =>
        if String.eqb (py_prefix 9 first.2) "" then
          find_zone now b zone_size catalog rnd rest occupied c
        else if bool_decide (py_prefix 9 first.2 ∈ occupied) then
          find_zone now b zone_size catalog rnd rest occupied c
        else
          match reserve_zone now (py_prefix 9 first.2) b 2 c with
          | Ret true c' =>
            Ret (Http200 (mkNewTask (mkTask (py_prefix 9 first.2) (length rows) rows true)
                            now 2)) c'
          | Ret false c' =>
            find_zone now b zone_size catalog rnd rest
              ({[py_prefix 9 first.2]} ∪ occupied) c'
          | Raise e c' => Raise e c'
          end
      end).
  { intros rows Hz. cbn [find_zone]. unfold bind at 1. rewrite Hz.
    rewrite execute_catalog_quiet by apply Hq.
    destruct rows as [|first rows]; [done|].
    destruct (String.eqb (py_prefix 9 first.2) ""); [done|].
    destruct (bool_decide (py_prefix 9 first.2 ∈ occupied)); [done|].
    unfold bind. by destruct (reserve_zone now (py_prefix 9 first.2) b 2 c) as [[|] ?|]. }
  destruct (sql_zone catalog (rnd a) zone_size) as [[|first rows]|] eqn:Hz.
  - apply (Hnext occupied); [done|]. by rewrite (Hstep []).
  - specialize (Hstep (first :: rows) eq_refl). cbv iota beta in Hstep.
    destruct (String.eqb_spec (py_prefix 9 first.2) "") as [Hempty|Hne].
    { by apply (Hnext occupied). }
    destruct (bool_decide (py_prefix 9 first.2 ∈ occupied)) eqn:Hocc.
    { by apply (Hnext occupied). }
    apply bool_decide_eq_false in Hocc.
    destruct (sql_find_active (py_prefix 9 first.2) now (committed c)) as [h|] eqn:Hfind.
    { rewrite (reserve_zone_taken now _ b 2 c h) in Hstep by done.
      apply (Hnext ({[py_prefix 9 first.2]} ∪ occupied)); [set_solver|done]. }
    destruct (fits_columns (py_prefix 9 first.2) b) eqn:Hfit.
    + rewrite reserve_zone_free in Hstep by done.
      right. right. exists first, rows, a. split_and!; try done.
      apply list_elem_of_here.
    + rewrite reserve_zone_refused in Hstep by done.
      apply (Hnext ({[py_prefix 9 first.2]} ∪ occupied)); [set_solver|done].
  - right. left.
    assert (Hneg : zone_size < 0).
    { unfold sql_zone in Hz. destruct (zone_size <? 0) eqn:E; [|done].
      by apply Z.ltb_lt. }
    split; [done|]. cbn [find_zone]. unfold bind at 1. rewrite Hz.
    by rewrite execute_catalog_refused by apply Hq.
Qed.

Lemma live_swept_back now t l : live t (swept now l) = true -> live t l = true.
Proof.
  unfold swept. destruct (overdue now l); [|done].
  intros H. apply live_true in H as [H _]. done.
Qed.

Lemma exclusive_swept now t rows :
  exclusive_at t rows -> exclusive_at t (swept now <$> rows).
Proof.
  intros Hex i j l1' l2' Hi Hj Hz H1 H2.
  apply list_lookup_fmap_Some in Hi as (l1 & -> & Hi).
  apply list_lookup_fmap_Some in Hj as (l2 & -> & Hj).
  rewrite !zone_swept in Hz.
  apply (Hex i j l1 l2 Hi Hj Hz); by apply (live_swept_back now).
Qed.

Lemma exclusive_snoc now rows id zn b e :
  (forall t, now <= t -> exclusive_at t rows) ->
  sql_find_active zn now rows = None ->
  forall t, now <= t -> exclusive_at t (rows ++ [mkLease id zn b now e active]).
Proof.
  intros Hex Hfree t Ht.
  assert (Hold : forall k l', rows !! k = Some l' ->
                   zone_prefix l' = zn -> live t l' = true -> False).
  { intros k l' Hk Hz Hl. apply (live_later now t l' Ht) in Hl.
    rewrite (proj1 (sql_find_active_None zn now rows) Hfree l') in Hl;
      [done|by apply list_elem_of_lookup_2 with k|done]. }
  intros i j l1 l2 Hi Hj Hz H1 H2.
  apply lookup_app_Some in Hi as [Hi|[Hil Hi]];
    apply lookup_app_Some in Hj as [Hj|[Hjl Hj]].
  - by apply (Hex t Ht i j l1 l2).
  - apply list_lookup_singleton_Some in Hj as [_ <-]. simpl in Hz.
    exfalso. by apply (Hold i l1).
  - apply list_lookup_singleton_Some in Hi as [_ <-]. simpl in Hz.
    exfalso. by apply (Hold j l2).
  - apply list_lookup_singleton_Some in Hi as [Hi _].
    apply list_lookup_singleton_Some in Hj as [Hj _]. lia.
Qed.

(** X10: requests for a new task, one at a time, never give a zone twice.
    On a store that answers and a table whose zones are exclusive, for a
    size that a LIMIT takes (not negative, within 64 bits) and whatever the
    catalog and the draws, the request answers with a task or with the 503
    and leaves the zones exclusive. When it answers with a task, the zone
    of the task is not empty and had no live lease, the table is the swept
    one with one new active lease of two hours for the worker on that zone,
    and the places of the task are places of the catalog in the order of
    their codes, at most as many as asked for, the zone being the first
    nine characters of the first. When it answers with the 503, the table
    is the swept one and no lease is written. *)
Theorem get_new_task_sequential b zone_size now catalog rnd c :
  quiet c ->
  (forall t, now <= t -> exclusive_at t (committed c)) ->
  0 <= zone_size <= 9223372036854775807 ->
  exists r c',
    get_new_task b zone_size now catalog rnd c = Ret r c' /\ quiet c' /\
    (forall t, now <= t -> exclusive_at t (committed c')) /\
    match r with
    | Http200 body =>
      let tk := nt_task body in
      zone tk <> "" /\
      (forall l, l ∈ committed c -> zone_prefix l = zone tk -> live now l = false) /\
      committed c'
      = (swept now <$> committed c)
        ++ [mkLease (task_id_seq c) (zone tk) b now (now + hours 2) active] /\
      (exists first rest, places tk = first :: rest /\ zone tk = py_prefix 9 first.2) /\
      total_places tk = length (places tk) /\
      (length (places tk) <= Z.to_nat zone_size)%nat /\
      StronglySorted by_code (places tk) /\
      (forall row, row ∈ places tk ->
         exists w, w ∈ catalog /\ mx_id w = row.1 /\ mx_code w = Some row.2) /\
      reserved tk = true /\ expires_in_hours body = 2
    | HttpError code _ => code = 503 /\ committed c' = swept now <$> committed c
    end.
Proof.
  intros Hq Hex Hsize0. rewrite get_new_task_quiet by done. unfold try_except.
  set (c0 := conn_of_rows (swept now <$> committed c) (task_id_seq c)).
  assert (Hq0 : quiet c0) by apply quiet_conn_of_rows.
  assert (Hex0 : forall t, now <= t -> exclusive_at t (committed c0)).
  { intros t Ht. simpl. apply exclusive_swept. by apply Hex. }
  destruct (find_zone_quiet now b zone_size catalog rnd (seq 0 max_attempts)
              (list_to_set (sql_occupied now (swept now <$> committed c))) c0 Hq0)
    as [H|[[Hneg H]|(first & rows & a & Ha & Hz & Hne & Hocc & Hfree & H)]];
    rewrite H.
  - eexists _, _. split; [done|]. split; [done|]. split; [done|].
    simpl. done.
  - lia.
  - eexists _, _. split; [done|]. split; [apply quiet_conn_of_rows|].
    split; [by apply exclusive_snoc|].
    destruct (sql_zone_spec _ _ _ _ Hz) as (Hsize & Hlen & Hsort & Hcat).
    cbn [nt_task zone places total_places reserved expires_in_hours].
    split_and!; try done.
    + intros l Hl Hzl. simpl in Hfree.
      unfold sql_find_active in Hfree. rewrite filter_zone_live_swept in Hfree.
      by apply (proj1 (sql_find_active_None _ now (committed c)) Hfree).
    + by exists first, rows.
Qed.

Lemma get_new_task_sequential_witness :
  (quiet (conn_of_rows [lease_B; lease_C] 4) /\
   (forall t, 200 <= t -> exclusive_at t (committed (conn_of_rows [lease_B; lease_C] 4))) /\
   0 <= 50 <= 9223372036854775807) /\
  exists r c',
    get_new_task "D" 50 200 sample_catalog (fun n => n) (conn_of_rows [lease_B; lease_C] 4)
    = Ret r c' /\ quiet c' /\
    (forall t, 200 <= t -> exclusive_at t (committed c')) /\
    match r with
    | Http200 body =>
      let tk := nt_task body in
      zone tk <> "" /\
      (forall l, l ∈ committed (conn_of_rows [lease_B; lease_C] 4) ->
         zone_prefix l = zone tk -> live 200 l = false) /\
      committed c'
      = (swept 200 <$> committed (conn_of_rows [lease_B; lease_C] 4))
        ++ [mkLease (task_id_seq (conn_of_rows [lease_B; lease_C] 4)) (zone tk) "D" 200
              (200 + hours 2) active] /\
      (exists first rest, places tk = first :: rest /\ zone tk = py_prefix 9 first.2) /\
      total_places tk = length (places tk) /\
      (length (places tk) <= Z.to_nat 50)%nat /\
      StronglySorted by_code (places tk) /\
      (forall row, row ∈ places tk ->
         exists w, w ∈ sample_catalog /\ mx_id w = row.1 /\ mx_code w = Some row.2) /\
      reserved tk = true /\ expires_in_hours body = 2
    | HttpError code _ =>
      code = 503 /\
      committed c' = swept 200 <$> committed (conn_of_rows [lease_B; lease_C] 4)
    end.
Proof.
  assert (Hex : forall t, 200 <= t ->
            exclusive_at t (committed (conn_of_rows [lease_B; lease_C] 4))).
  { intros t Ht i j l1 l2 Hi Hj Hz H1 H2. simpl in Hi, Hj.
    destruct i as [|[|i]], j as [|[|j]]; simpl in Hi, Hj; try done;
      injection Hi as <-; injection Hj as <-; discriminate. }
  split; [split_and!; [by split|exact Hex|lia|lia]|].
  apply (get_new_task_sequential "D" 50 200 sample_catalog (fun n => n)
           (conn_of_rows [lease_B; lease_C] 4)); [by split|exact Hex|lia].
Defined.

(** X11: a size that is not positive never gives a task. With
    [zone_size = 0] every attempt finds no row and the answer is the 503 of
    the exhausted attempts, whatever the catalog holds, the connection
    being left without pending writes; with a negative size the store
    refuses the LIMIT and the answer is a 500. In both cases the committed
    leases are the swept ones and none is written. Nothing is said of the
    connection after the 500, which the handler leaves without a
    rollback. *)
Theorem get_new_task_nonpositive_size b zone_size now catalog rnd c :
  quiet c -> zone_size <= 0 ->
  exists r c',
    get_new_task b zone_size now catalog rnd c = Ret r c' /\
    committed c' = swept now <$> committed c /\
    (zone_size = 0 -> r = all_busy /\ quiet c') /\
    (zone_size < 0 -> exists e, r = HttpError 500 e).
Proof.
  intros Hq Hz. rewrite get_new_task_quiet by done. unfold try_except.
  set (c0 := conn_of_rows (swept now <$> committed c) (task_id_seq c)).
  destruct (zone_size <? 0) eqn:E.
  - apply Z.ltb_lt in E. exists (HttpError 500 "LIMIT must not be negative"), c0.
    split_and!.
    + change (seq 0 max_attempts) with (0%nat :: seq 1 9).
      cbn [find_zone]. unfold bind at 1. unfold sql_zone.
      rewrite (proj2 (Z.ltb_lt zone_size 0) E).
      by rewrite execute_catalog_refused.
    + done.
    + intros ->. lia.
    + intros _. by eexists.
  - apply Z.ltb_ge in E. assert (zone_size = 0) as -> by lia.
    assert (H : forall attempts occ,
              find_zone now b 0 catalog rnd attempts occ c0 = Ret all_busy c0).
    { induction attempts as [|a rest IH]; intros occ; [done|].
      cbn [find_zone]. unfold bind at 1. unfold sql_zone.
      change (0 <? 0) with false. cbv iota.
      rewrite execute_catalog_quiet by done.
      change (Z.to_nat 0) with 0%nat.
      destruct (random_place catalog (rnd a)); [rewrite take_0|]; apply IH. }
    exists all_busy, c0. rewrite H. split_and!.
    + done.
    + done.
    + intros _. split; [done|apply quiet_conn_of_rows].
    + lia.
Qed.

Lemma get_new_task_nonpositive_size_witness :
  (quiet sample_conn /\ -1 <= 0) /\
  exists r c',
    get_new_task "D" (-1) 200 sample_catalog (fun n => n) sample_conn = Ret r c' /\
    committed c' = swept 200 <$> committed sample_conn /\
    (-1 = 0 -> r = all_busy /\ quiet c') /\
    (-1 < 0 -> exists e, r = HttpError 500 e).
Proof.
  split; [by split|].
  apply (get_new_task_nonpositive_size "D" (-1) 200 sample_catalog (fun n => n)
           sample_conn); [by split|done].
Defined.

(** ** The zone query and the prefix *)

Lemma sql_like_percent s : sql_like ["%"%char] s = true.
Proof.
  induction s as [|x s IH]; [done|].
  change (sql_like ["%"%char] (x :: s)) with (sql_like [] (x :: s) || sql_like ["%"%char] s).
  rewrite IH. apply orb_true_r.
Qed.

Lemma sql_like_plain_cons c p s :
  plain c = true ->
  sql_like (c :: p) s
  = match s with [] => false | x :: s' => Ascii.eqb x c && sql_like p s' end.
Proof.
  unfold plain. rewrite !andb_true_iff, !negb_true_iff. intros [[H1 H2] H3].
  cbn [sql_like]. rewrite H1, H2, H3. by destruct s.
Qed.

Lemma sql_like_plain_prefix p s :
  Forall (fun c => plain c = true) p ->
  sql_like (p ++ ["%"%char]) s = true <-> exists t, s = p ++ t.
Proof.
  intros Hp. revert s. induction Hp as [|c p Hc Hp IH]; intros s.
  - simpl. rewrite sql_like_percent. split; [by exists s|done].
  - rewrite <- app_comm_cons, (sql_like_plain_cons c _ s Hc).
    destruct s as [|x s]; [split; [done|by intros [t Ht]]|].
    rewrite andb_true_iff, Ascii.eqb_eq, IH. split.
    + intros [-> [t ->]]. by exists t.
    + intros [t Ht]. injection Ht as -> ->. split; [done|by exists t].
Qed.

Lemma list_ascii_of_append a b :
  list_ascii_of_string (String.append a b)
  = list_ascii_of_string a ++ list_ascii_of_string b.
Proof. induction a as [|c a IH]; [done|]. simpl. by rewrite IH. Qed.

Lemma list_ascii_of_prefix n s :
  list_ascii_of_string (py_prefix n s) = take n (list_ascii_of_string s).
Proof.
  unfold py_prefix. revert s. induction n as [|n IH]; intros [|c s]; simpl; try done.
  by rewrite IH.
Qed.

Lemma list_ascii_of_string_inj a b :
  list_ascii_of_string a = list_ascii_of_string b -> a = b.
Proof.
  intros H. rewrite <- (string_of_list_ascii_of_string a),
    <- (string_of_list_ascii_of_string b). by rewrite H.
Qed.

Lemma length_list_ascii s : length (list_ascii_of_string s) = String.length s.
Proof. induction s as [|c s IH]; [done|]. simpl. by rewrite IH. Qed.

Lemma like_plain_prefix r s :
  (9 <= String.length r)%nat ->
  Forall (fun c => plain c = true) (list_ascii_of_string (py_prefix 9 r)) ->
  like s (String.append (py_prefix 9 r) "%") = true <-> py_prefix 9 s = py_prefix 9 r.
Proof.
  intros Hlen Hplain. unfold like.
  rewrite list_ascii_of_append. change (list_ascii_of_string "%") with ["%"%char].
  rewrite (sql_like_plain_prefix _ _ Hplain), list_ascii_of_prefix.
  assert (Hl : length (take 9 (list_ascii_of_string r)) = 9%nat).
  { rewrite length_take, length_list_ascii. lia. }
  split.
  - intros [t Ht]. apply list_ascii_of_string_inj.
    rewrite !list_ascii_of_prefix, Ht.
    by rewrite take_app_length' by done.
  - intros H. exists (drop 9 (list_ascii_of_string s)).
    rewrite <- list_ascii_of_prefix, <- H, list_ascii_of_prefix.
    by rewrite take_drop.
Qed.

(** X12: a task holds places of one zone. When the code of the sampled
    place has at least nine characters and none of the first nine is [%],
    [_] or a backslash, the rows of the zone query, before its LIMIT, are
    exactly the places of the catalog whose code starts with these nine
    characters; the rows the statement gives back all start with them, and
    so does the zone of the task, which is read off the first row. *)
Theorem zone_rows_are_the_zone catalog r :
  (9 <= String.length r)%nat ->
  Forall (fun c => plain c = true) (list_ascii_of_string (py_prefix 9 r)) ->
  (forall row, row ∈ zone_rows catalog r <->
     exists w, w ∈ catalog /\ mx_id w = row.1 /\ mx_code w = Some row.2 /\
               py_prefix 9 row.2 = py_prefix 9 r) /\
  (forall draw zone_size rows,
     random_place catalog draw = Some r ->
     sql_zone catalog draw zone_size = Some rows ->
     forall row, row ∈ rows -> py_prefix 9 row.2 = py_prefix 9 r).
Proof.
  intros Hlen Hplain.
  assert (Hrows : forall row, row ∈ zone_rows catalog r <->
            exists w, w ∈ catalog /\ mx_id w = row.1 /\ mx_code w = Some row.2 /\
                      py_prefix 9 row.2 = py_prefix 9 r).
  { intros row. rewrite zone_rows_spec. split.
    - intros (w & ? & ? & ? & Hl). exists w. split_and!; try done.
      by apply like_plain_prefix.
    - intros (w & ? & ? & ? & Hl). exists w. split_and!; try done.
      by apply like_plain_prefix. }
  split; [exact Hrows|].
  intros draw zone_size rows Hr Hz row Hrow.
  unfold sql_zone in Hz. destruct (zone_size <? 0); [done|].
  rewrite Hr in Hz. injection Hz as <-.
  assert (H : row ∈ zone_rows catalog r)
    by (apply (elem_of_sublist (take (Z.to_nat zone_size) (zone_rows catalog r)));
        [done|apply sublist_take]).
  apply Hrows in H as (w & _ & _ & _ & H). exact H.
Qed.

Lemma zone_rows_are_the_zone_witness :
  ((9 <= String.length "36.02.40.140.06.01")%nat /\
   Forall (fun c => plain c = true)
     (list_ascii_of_string (py_prefix 9 "36.02.40.140.06.01"))) /\
  (forall row, row ∈ zone_rows sample_catalog "36.02.40.140.06.01" <->
     exists w, w ∈ sample_catalog /\ mx_id w = row.1 /\ mx_code w = Some row.2 /\
               py_prefix 9 row.2 = py_prefix 9 "36.02.40.140.06.01") /\
  (forall draw zone_size rows,
     random_place sample_catalog draw = Some "36.02.40.140.06.01" ->
     sql_zone sample_catalog draw zone_size = Some rows ->
     forall row, row ∈ rows -> py_prefix 9 row.2 = py_prefix 9 "36.02.40.140.06.01").
Proof.
  assert (Hp : Forall (fun c => plain c = true)
                 (list_ascii_of_string (py_prefix 9 "36.02.40.140.06.01"))).
  { repeat constructor. }
  split; [split; [simpl; lia|exact Hp]|].
  apply (zone_rows_are_the_zone sample_catalog "36.02.40.140.06.01");
    [simpl; lia|exact Hp].
Defined.

(** * Logins and the admin cookie *)

Lemma admin_handlers_forbidden cookie :
  cookie <> Some "ADMIN" ->
  (forall b zn hrs now c,
     admin_assign_task cookie b zn hrs now c = Ret (HttpError 403 forbidden_msg) c) /\
  (forall tid hrs c,
     admin_extend_task cookie tid hrs c = Ret (HttpError 403 forbidden_msg) c) /\
  (forall tid c, admin_close_task cookie tid c = Ret (HttpError 403 forbidden_msg) c).
Proof.
  intros H.
  assert (E : bool_decide (cookie = Some "ADMIN") = false)
    by (by apply bool_decide_eq_false).
  unfold admin_assign_task, admin_extend_task, admin_close_task. rewrite E.
  by split_and!.
Qed.

(** X13: the admin cookie is given for the password only. The login of
    [auth] and the login of [admin_auth] set a cookie [admin_badge] with a
    value that is not empty exactly when the stripped badge is the admin
    badge and the stripped password is the admin password, and the value is
    then the admin badge; the two logins accept the same pairs. *)
Theorem admin_cookie_needs_password badge_in password_in now :
  let granted (cks : list set_cookie) :=
    exists ck, ck ∈ cks /\ ck_name ck = "admin_badge" /\ ck_value ck <> "" in
  let right :=
    py_strip badge_in = ADMIN_BADGE /\ py_strip password_in = ADMIN_PASSWORD in
  (granted (lg_cookies (auth badge_in password_in now)) <-> right) /\
  (granted (lg_cookies (admin_auth badge_in password_in)) <-> right) /\
  (forall ck, ck ∈ lg_cookies (auth badge_in password_in now)
              \/ ck ∈ lg_cookies (admin_auth badge_in password_in) ->
     ck_name ck = "admin_badge" -> ck_value ck <> "" ->
     ck_value ck = "ADMIN" /\ 0 < ck_max_age ck).
Proof.
  cbv zeta. unfold auth, admin_auth.
  set (b := py_strip badge_in). set (p := py_strip password_in).
  destruct (String.eqb_spec b "") as [Hb0|Hb0];
    destruct (String.eqb_spec b ADMIN_BADGE) as [Hb|Hb];
    destruct (String.eqb_spec p "") as [Hp0|Hp0];
    destruct (String.eqb_spec p ADMIN_PASSWORD) as [Hp|Hp];
    destruct (String.length b <? 3)%nat; simpl;
    try (rewrite Hb in Hb0; done); try (rewrite Hp in Hp0; done);
    (split_and!;
     [ split; [intros (ck & Hck & Hn & Hv); set_solver | intros [? ?]; try done;
               try (eexists; split; [apply list_elem_of_here|done]) ]
     | split; [intros (ck & Hck & Hn & Hv); set_solver | intros [? ?]; try done;
               try (eexists; split; [apply list_elem_of_here|rewrite Hb; done]) ]
     | intros ck [Hck|Hck] Hn Hv; set_solver ]).
Qed.

(** X14: one rule guards the admin side. The dashboard is rendered, the
    login page of the admin redirects to it, and the three administrative
    lease handlers go past their check, all exactly when the cookie
    [admin_badge] is the admin badge; in every other case the dashboard
    redirects to the login page, which is rendered (the two never redirect
    to each other), and the handlers answer 403 without a call to the
    store. *)
Theorem admin_access_one_rule (cookie : option string) :
  (cookie = Some "ADMIN" ->
   admin_dashboard cookie = Render "admin.html" /\
   admin cookie = Redirect "/admin/dashboard" /\
   (forall c, admin_close_task cookie None c = Ret (HttpError 400 no_task_id_msg) c) /\
   (forall hrs c, admin_extend_task cookie None hrs c
                  = Ret (HttpError 400 no_task_id_msg) c) /\
   (forall hrs now c, admin_assign_task cookie None None hrs now c
                      = Ret (HttpError 400 assign_missing_msg) c)) /\
  (cookie <> Some "ADMIN" ->
   admin_dashboard cookie = Redirect "/admin" /\
   admin cookie = Render "admin_login.html" /\
   (forall b zn hrs now c,
      admin_assign_task cookie b zn hrs now c = Ret (HttpError 403 forbidden_msg) c) /\
   (forall tid hrs c,
      admin_extend_task cookie tid hrs c = Ret (HttpError 403 forbidden_msg) c) /\
   (forall tid c, admin_close_task cookie tid c = Ret (HttpError 403 forbidden_msg) c)).
Proof.
  split.
  - intros ->. by split_and!.
  - intros H.
    assert (E : bool_decide (cookie = Some "ADMIN") = false)
      by (by apply bool_decide_eq_false).
    destruct (admin_handlers_forbidden cookie H) as (H1 & H2 & H3).
    unfold admin_dashboard, admin. rewrite E, andb_false_r, orb_true_r.
    by split_and!.
Qed.

Lemma admin_access_one_rule_witness :
  (Some "ADMIN" = Some "ADMIN" ->
   admin_dashboard (Some "ADMIN") = Render "admin.html" /\
   admin (Some "ADMIN") = Redirect "/admin/dashboard" /\
   (forall c, admin_close_task (Some "ADMIN") None c
              = Ret (HttpError 400 no_task_id_msg) c) /\
   (forall hrs c, admin_extend_task (Some "ADMIN") None hrs c
                  = Ret (HttpError 400 no_task_id_msg) c) /\
   (forall hrs now c, admin_assign_task (Some "ADMIN") None None hrs now c
                      = Ret (HttpError 400 assign_missing_msg) c)) /\
  (Some "ADMIN" <> Some "ADMIN" ->
   admin_dashboard (Some "ADMIN") = Redirect "/admin" /\
   admin (Some "ADMIN") = Render "admin_login.html" /\
   (forall b zn hrs now c,
      admin_assign_task (Some "ADMIN") b zn hrs now c
      = Ret (HttpError 403 forbidden_msg) c) /\
   (forall tid hrs c,
      admin_extend_task (Some "ADMIN") tid hrs c = Ret (HttpError 403 forbidden_msg) c) /\
   (forall tid c,
      admin_close_task (Some "ADMIN") tid c = Ret (HttpError 403 forbidden_msg) c)).
Proof. apply (admin_access_one_rule (Some "ADMIN")). Defined.

(** X15: a login decides the admin rights of the requests that follow.
    Whatever cookies the client held, after a login with the admin badge
    and password (by [auth] or by [admin_auth]) its cookie [admin_badge] is
    the admin badge and the dashboard is rendered; after a login of [auth]
    as an employee, and after [admin_logout], it holds no cookie
    [admin_badge], the dashboard redirects to the login page and the
    administrative handlers answer 403. *)
Theorem login_decides_admin_access (jar : gmap string string)
    badge_in password_in now :
  (py_strip badge_in = ADMIN_BADGE -> py_strip password_in = ADMIN_PASSWORD ->
   after_response jar (auth badge_in password_in now) !! "admin_badge" = Some "ADMIN" /\
   after_response jar (admin_auth badge_in password_in) !! "admin_badge" = Some "ADMIN" /\
   after_response jar (admin_auth badge_in password_in) !! "employee_badge" = None /\
   admin_dashboard (after_response jar (auth badge_in password_in now) !! "admin_badge")
   = Render "admin.html") /\
  (py_strip badge_in <> ADMIN_BADGE -> (3 <= String.length (py_strip badge_in))%nat ->
   let jar' := after_response jar (auth badge_in password_in now) in
   jar' !! "employee_badge" = Some (py_strip badge_in) /\
   work (jar' !! "employee_badge") = Render "work.html" /\
   jar' !! "admin_badge" = None /\
   admin_dashboard (jar' !! "admin_badge") = Redirect "/admin" /\
   (forall b zn hrs t c,
      admin_assign_task (jar' !! "admin_badge") b zn hrs t c
      = Ret (HttpError 403 forbidden_msg) c)) /\
  (let jar' := after_response jar admin_logout in
   jar' !! "admin_badge" = None /\
   admin_dashboard (jar' !! "admin_badge") = Redirect "/admin" /\
   (forall b zn hrs t c,
      admin_assign_task (jar' !! "admin_badge") b zn hrs t c
      = Ret (HttpError 403 forbidden_msg) c)).
Proof.
  split_and!.
  - intros Hb Hp. unfold after_response, auth, admin_auth. rewrite Hb, Hp. simpl.
    unfold keep_cookie. simpl.
    rewrite lookup_delete_ne by done. rewrite !lookup_insert_eq.
    by rewrite lookup_delete_eq.
  - intros Hb Hlen. cbv zeta. unfold after_response, auth.
    destruct (String.eqb_spec (py_strip badge_in) "") as [E|_].
    { rewrite E in Hlen. simpl in Hlen. lia. }
    destruct (String.eqb_spec (py_strip badge_in) ADMIN_BADGE) as [E|_]; [done|].
    rewrite (proj2 (Nat.ltb_ge _ _) Hlen). simpl. unfold keep_cookie. simpl.
    rewrite lookup_delete_ne by done. rewrite lookup_insert_eq, lookup_delete_eq.
    split_and!; try done.
    unfold work, truthy.
    destruct (String.eqb_spec (py_strip badge_in) "") as [E|_]; [|done].
    rewrite E in Hlen. simpl in Hlen. lia.
  - cbv zeta. unfold after_response, admin_logout. simpl. unfold keep_cookie. simpl.
    rewrite lookup_delete_eq. by split_and!.
Qed.

Lemma login_decides_admin_access_witness :
  let jar : gmap string string := {["admin_badge" := "ADMIN"]} in
  (py_strip " ADMIN " = ADMIN_BADGE -> py_strip "admin123" = ADMIN_PASSWORD ->
   after_response jar (auth " ADMIN " "admin123" 5) !! "admin_badge" = Some "ADMIN" /\
   after_response jar (admin_auth " ADMIN " "admin123") !! "admin_badge" = Some "ADMIN" /\
   after_response jar (admin_auth " ADMIN " "admin123") !! "employee_badge" = None /\
   admin_dashboard (after_response jar (auth " ADMIN " "admin123" 5) !! "admin_badge")
   = Render "admin.html") /\
  (py_strip " ADMIN " <> ADMIN_BADGE -> (3 <= String.length (py_strip " ADMIN "))%nat ->
   let jar' := after_response jar (auth " ADMIN " "admin123" 5) in
   jar' !! "employee_badge" = Some (py_strip " ADMIN ") /\
   work (jar' !! "employee_badge") = Render "work.html" /\
   jar' !! "admin_badge" = None /\
   admin_dashboard (jar' !! "admin_badge") = Redirect "/admin" /\
   (forall b zn hrs t c,
      admin_assign_task (jar' !! "admin_badge") b zn hrs t c
      = Ret (HttpError 403 forbidden_msg) c)) /\
  (let jar' := after_response jar admin_logout in
   jar' !! "admin_badge" = None /\
   admin_dashboard (jar' !! "admin_badge") = Redirect "/admin" /\
   (forall b zn hrs t c,
      admin_assign_task (jar' !! "admin_badge") b zn hrs t c
      = Ret (HttpError 403 forbidden_msg) c)).
Proof.
  apply (login_decides_admin_access {["admin_badge" := "ADMIN"]} " ADMIN " "admin123" 5).
Defined.

(** X16: an employee needs no password and no exact typing. For a badge
    that, stripped, is not the admin badge, the answer of [auth] depends
    neither on the password nor on the white space around the badge; it is
    a login as that stripped badge when it has three characters or more,
    and a 400 that sets no cookie when it has fewer. *)
Theorem auth_employee badge_in password_in now :
  py_strip badge_in <> ADMIN_BADGE ->
  (forall password', auth badge_in password' now = auth badge_in password_in now) /\
  auth (py_strip badge_in) password_in now = auth badge_in password_in now /\
  ((3 <= String.length (py_strip badge_in))%nat ->
   lg_status (auth badge_in password_in now) = 200 /\
   lg_body (auth badge_in password_in now)
   = LoggedIn false (py_strip badge_in) "/work" now) /\
  ((String.length (py_strip badge_in) < 3)%nat ->
   lg_status (auth badge_in password_in now) = 400 /\
   lg_cookies (auth badge_in password_in now) = []).
Proof.
  intros Hb. unfold auth. rewrite py_strip_idem.
  destruct (String.eqb_spec (py_strip badge_in) "") as [E0|E0];
    destruct (String.eqb_spec (py_strip badge_in) ADMIN_BADGE) as [E|_]; try done.
  - split_and!; try done. rewrite E0. simpl. lia.
  - destruct (String.length (py_strip badge_in) <? 3)%nat eqn:El.
    + apply Nat.ltb_lt in El. split_and!; try done. lia.
    + apply Nat.ltb_ge in El. split_and!; try done. lia.
Qed.

Lemma auth_employee_witness :
  py_strip "  1234 " <> ADMIN_BADGE /\
  (forall password', auth "  1234 " password' 5 = auth "  1234 " "x" 5) /\
  auth (py_strip "  1234 ") "x" 5 = auth "  1234 " "x" 5 /\
  ((3 <= String.length (py_strip "  1234 "))%nat ->
   lg_status (auth "  1234 " "x" 5) = 200 /\
   lg_body (auth "  1234 " "x" 5) = LoggedIn false (py_strip "  1234 ") "/work" 5) /\
  ((String.length (py_strip "  1234 ") < 3)%nat ->
   lg_status (auth "  1234 " "x" 5) = 400 /\
   lg_cookies (auth "  1234 " "x" 5) = []).
Proof.
  split; [done|]. apply (auth_employee "  1234 " "x" 5). done.
Defined.

(** * The helpers of the import and of the scraper *)

(** ** Splitting *)

Lemma split_once_spec sep s :
  contains sep s = true ->
  s = String.append (split_once sep s).1 (String sep (split_once sep s).2) /\
  contains sep (split_once sep s).1 = false.
Proof.
  induction s as [|c s IH]; [done|]. simpl.
  destruct (Ascii.eqb_spec c sep) as [->|Hne]; simpl.
  - done.
  - intros H. destruct (IH H) as [IH1 IH2].
    destruct (split_once sep s) as [k v]. simpl in *.
    split; [change (String c s = String c (String.append k (String sep v)));
            by rewrite <- IH1|].
    rewrite (proj2 (Ascii.eqb_neq c sep) Hne). done.
Qed.

Lemma parse_header_entries_snoc es e acc :
  parse_header_entries (es ++ [e]) acc
  = match parse_header_entries es acc with
    | inl msg => inl msg
    | inr h => parse_header_entries [e] h
    end.
Proof.
  revert acc. induction es as [|x es IH]; intros acc; [done|].
  rewrite <- app_comm_cons. cbn [parse_header_entries].
  destruct (negb (contains ":" x)); [done|].
  destruct (split_once ":" x) as [k v]. apply IH.
Qed.

Lemma parse_header_entries_ok es acc :
  Forall (fun e => contains ":" e = true) es ->
  exists h, parse_header_entries es acc = inr h.
Proof.
  intros H. revert acc. induction H as [|x es Hx Hes IH]; intros acc.
  - by exists acc.
  - cbn [parse_header_entries]. rewrite Hx. simpl.
    destruct (split_once ":" x) as [k v]. apply IH.
Qed.

(** X17: the headers of the command line. The entries give a dict exactly
    when each of them holds a colon; the first entry without one is the one
    the exit message names; an entry is cut at its first colon, so that the
    name holds no colon and the value keeps those that follow; and an entry
    appended to good ones sets its stripped name to its stripped value,
    replacing what an earlier entry of that name had set. *)
Theorem parse_headers_spec (es : list string) :
  ((exists h, _parse_headers (Some es) = inr h)
   <-> Forall (fun e => contains ":" e = true) es) /\
  (forall good bad rest,
     es = good ++ bad :: rest ->
     Forall (fun e => contains ":" e = true) good -> contains ":" bad = false ->
     _parse_headers (Some es)
     = inl (String.append "Некорректный формат заголовка '"
              (String.append bad "'. Используйте 'Имя: Значение'."))) /\
  (forall e h,
     _parse_headers (Some es) = inr h -> contains ":" e = true ->
     e = String.append (split_once ":" e).1 (String ":" (split_once ":" e).2) /\
     contains ":" (split_once ":" e).1 = false /\
     _parse_headers (Some (es ++ [e]))
     = inr (<[py_strip (split_once ":" e).1 := py_strip (split_once ":" e).2]> h)).
Proof.
  unfold _parse_headers. split_and!.
  - split; [|apply parse_header_entries_ok].
    generalize (∅ : gmap string string).
    induction es as [|x es IH]; intros acc [h Hh]; [constructor|].
    cbn [parse_header_entries] in Hh.
    destruct (contains ":" x) eqn:Ex; [|done]. simpl in Hh.
    destruct (split_once ":" x) as [k v]. constructor; [done|].
    apply (IH _ (ex_intro _ h Hh)).
  - intros good bad rest -> Hgood Hbad.
    generalize (∅ : gmap string string).
    induction Hgood as [|x good Hx Hgood IH]; intros acc.
    + simpl. by rewrite Hbad.
    + rewrite <- app_comm_cons. cbn [parse_header_entries]. rewrite Hx. simpl.
      destruct (split_once ":" x) as [k v]. apply IH.
  - intros e h Hh He. destruct (split_once_spec ":" e He) as [H1 H2].
    split; [done|]. split; [done|].
    rewrite parse_header_entries_snoc, Hh. cbn [parse_header_entries].
    rewrite He. simpl. by destruct (split_once ":" e).
Qed.

Lemma contains_elem sep s :
  contains sep s = true <-> sep ∈ list_ascii_of_string s.
Proof.
  induction s as [|c s IH]; simpl.
  - split; [done|]. intros H. by apply not_elem_of_nil in H.
  - rewrite orb_true_iff, Ascii.eqb_eq, IH, elem_of_cons. naive_solver.
Qed.

Lemma split_on_head sep s :
  exists h rest, split_on sep s = h :: rest /\ contains sep h = false.
Proof.
  induction s as [|c s (h & rest & IH & Hh)]; [by exists "", []|]. simpl.
  destruct (Ascii.eqb c sep) eqn:E; [by eexists _, _|].
  rewrite IH. exists (String c h), rest. simpl. by rewrite E, Hh.
Qed.

Lemma split_on_whole sep s : contains sep s = false -> split_on sep s = [s].
Proof.
  induction s as [|c s IH]; [done|]. simpl. rewrite orb_false_iff.
  intros [-> H]. by rewrite (IH H).
Qed.

Lemma lstrip_elem sp l x : x ∈ lstrip sp l -> x ∈ l.
Proof.
  induction l as [|c l IH]; [done|]. simpl. destruct (sp c); [|done].
  intros H. apply list_elem_of_further. by apply IH.
Qed.

Lemma strip_with_elem sp s x :
  x ∈ list_ascii_of_string (strip_with sp s) -> x ∈ list_ascii_of_string s.
Proof.
  unfold strip_with. rewrite list_ascii_of_string_of_list_ascii.
  rewrite !list_elem_of_In, <- in_rev, <- !list_elem_of_In. intros H.
  apply lstrip_elem in H. rewrite list_elem_of_In, <- in_rev, <- list_elem_of_In in H.
  by apply lstrip_elem in H.
Qed.

Lemma strip_keeps_free sep s :
  contains sep s = false -> contains sep (py_strip s) = false.
Proof.
  intros H. apply not_true_is_false. intros E. apply contains_elem in E.
  apply strip_with_elem in E. apply contains_elem in E. congruence.
Qed.

(** X18: what [extract_plt_id] gives back is an id that it accepts again.
    A result is never empty, starts with a digit, holds no comma and no
    white space at its ends, is the stripped text before the first comma of
    the input, and is a fixed point: extracting from it gives it back. *)
Theorem extract_plt_id_result data_mx plt_id :
  extract_plt_id data_mx = Some plt_id ->
  plt_id <> "" /\ starts_with_digit plt_id = true /\
  contains "," plt_id = false /\ py_strip plt_id = plt_id /\
  (exists s part rest, data_mx = Some s /\ split_on "," s = part :: rest /\
                       plt_id = py_strip part) /\
  extract_plt_id (Some plt_id) = Some plt_id.
Proof.
  unfold extract_plt_id at 1.
  destruct (negb (truthy data_mx) || _) eqn:E; [done|].
  apply orb_false_iff in E as [Ht _]. apply negb_false_iff in Ht.
  destruct data_mx as [s|]; [|done]. simpl.
  destruct (split_on_head "," s) as (h & rest & Hs & Hh). rewrite Hs.
  destruct (negb (String.eqb (py_strip h) "") && starts_with_digit (py_strip h)) eqn:Ep;
    [|done].
  intros [= <-]. apply andb_true_iff in Ep as [Hne Hd].
  apply negb_true_iff in Hne.
  assert (Hfree : contains "," (py_strip h) = false) by (by apply strip_keeps_free).
  split_and!.
  - by apply String.eqb_neq.
  - done.
  - done.
  - apply py_strip_idem.
  - by exists s, h, rest.
  - unfold extract_plt_id. simpl. rewrite py_strip_idem, Hne. simpl.
    rewrite (split_on_whole "," _ Hfree). rewrite py_strip_idem, Hne, Hd. done.
Qed.

Lemma extract_plt_id_result_witness :
  extract_plt_id (Some " 3****8002 ,17,Ivanov,2024-01-01") = Some "3****8002" /\
  "3****8002" <> "" /\ starts_with_digit "3****8002" = true /\
  contains "," "3****8002" = false /\ py_strip "3****8002" = "3****8002" /\
  (exists s part rest,
     Some " 3****8002 ,17,Ivanov,2024-01-01" = Some s /\
     split_on "," s = part :: rest /\ "3****8002" = py_strip part) /\
  extract_plt_id (Some "3****8002") = Some "3****8002".
Proof.
  split; [reflexivity|].
  apply (extract_plt_id_result (Some " 3****8002 ,17,Ivanov,2024-01-01") "3****8002").
  reflexivity.
Defined.

(** ** Integers of digit strings *)

Lemma is_digit_not_space c : is_digit c = true -> py_isspace c = false.
Proof.
  unfold is_digit, py_isspace. generalize (nat_of_ascii c). intros n.
  rewrite andb_true_iff, !Nat.leb_le. intros [? ?].
  apply orb_false_iff. split; apply andb_false_iff.
  - right. apply Nat.leb_gt. lia.
  - right. apply Nat.leb_gt. lia.
Qed.

Lemma lstrip_none sp l : Forall (fun c => sp c = false) l -> lstrip sp l = l.
Proof. intros [|c k Hc _]; [done|]. by apply lstrip_fixed. Qed.

Lemma strip_with_none sp s :
  Forall (fun c => sp c = false) (list_ascii_of_string s) -> strip_with sp s = s.
Proof.
  intros H. unfold strip_with. rewrite (lstrip_none sp _ H).
  rewrite lstrip_none.
  - by rewrite rev_involutive, string_of_list_ascii_of_string.
  - rewrite Forall_forall in *. intros c Hc. apply H.
    by rewrite list_elem_of_In, in_rev, <- list_elem_of_In.
Qed.

Lemma only_digits_all s :
  Forall (fun c => is_digit c = true) (list_ascii_of_string (only_digits s)).
Proof.
  induction s as [|c s IH]; [constructor|]. simpl.
  destruct (is_digit c) eqn:E; [|done]. by constructor.
Qed.

Lemma int_digits_all l acc b :
  Forall (fun c => is_digit c = true) l -> l <> [] \/ b = true ->
  exists v, int_digits acc b l = Some v.
Proof.
  intros H. revert acc b. induction H as [|c l Hc Hl IH]; intros acc b Hb.
  - destruct Hb as [?| ->]; [done|]. by exists acc.
  - simpl. rewrite Hc. apply IH. by right.
Qed.

Lemma py_int_digits s :
  Forall (fun c => is_digit c = true) (list_ascii_of_string s) -> s <> "" ->
  exists v, py_int s = Some v.
Proof.
  intros H Hne. unfold py_int, py_strip. rewrite (strip_with_none py_isspace s).
  - destruct s as [|c s]; [done|]. simpl in *.
    apply Forall_cons in H as [Hc Hs].
    destruct (Ascii.eqb_spec c "-") as [->|_]; [done|].
    destruct (Ascii.eqb_spec c "+") as [->|_]; [done|].
    apply (int_digits_all (c :: list_ascii_of_string s) 0 false);
      [by constructor|by left].
  - eapply Forall_impl; [exact H|]. intros c Hc. by apply is_digit_not_space.
Qed.

(** ** The fields of a code *)

Lemma int_part_cases parts k set r :
  int_part parts k set r
  = match parts !! k with
    | Some s => match py_int s with Some v => Some (set v r) | None => None end
    | None => Some r
    end.
Proof. unfold int_part. destruct (parts !! k) as [s|]; [|done]. by destruct (py_int s). Qed.

Ltac fields_reduce :=
  cbn [lookup list_lookup fmap option_fmap option_map
       f_code f_floor f_row_num f_section f_shelf f_cell].

Ltac fields_done :=
  split_and!; [naive_solver | intros ?; naive_solver ..].

(** X19: what [parse_mx_code] makes of a dotted code of ASCII characters,
    no longer than the digits [int] takes. The warehouse prefix gives its
    digits, and none only when it holds no digit; it never stops the rest.
    Each of floor, row, section, shelf and cell is set exactly when its
    part and every part before it (from the second on) is there and reads
    as an integer, and is then that integer: the first part that does not
    read as one leaves itself and all fields after it unset, also those
    whose parts would read well. *)
Theorem parse_mx_code_fields code :
  ascii_text code = true -> (String.length code <= 4300)%nat ->
  let parts := split_on "." code in
  let p := parse_mx_code code in
  let parsed k v := exists s, parts !! k = Some s /\ py_int s = Some v in
  let ok k := exists v, parsed k v in
  (f_code p = None <-> exists h rest, parts = h :: rest /\ only_digits h = "") /\
  (forall v, f_floor p = Some v <-> parsed 1%nat v) /\
  (forall v, f_row_num p = Some v <-> ok 1%nat /\ parsed 2%nat v) /\
  (forall v, f_section p = Some v <-> ok 1%nat /\ ok 2%nat /\ parsed 3%nat v) /\
  (forall v, f_shelf p = Some v <->
     ok 1%nat /\ ok 2%nat /\ ok 3%nat /\ parsed 4%nat v) /\
  (forall v, f_cell p = Some v <->
     ok 1%nat /\ ok 2%nat /\ ok 3%nat /\ ok 4%nat /\ parsed 5%nat v).
Proof.
  intros _ _. cbv zeta. unfold parse_mx_code.
  destruct (split_on_head "." code) as (h & rest & -> & _).
  cbn [try_steps lookup list_lookup].
  assert (Hcode : exists c0,
    (if String.eqb (only_digits h) "" then Some no_fields
     else (fun v => mkFields (Some v) (f_floor no_fields) (f_row_num no_fields)
                      (f_section no_fields) (f_shelf no_fields) (f_cell no_fields))
          <$> py_int (only_digits h))
    = Some (mkFields c0 None None None None None) /\
    (c0 = None <-> only_digits h = "")).
  { destruct (String.eqb_spec (only_digits h) "") as [E|E].
    - by exists None.
    - destruct (py_int_digits (only_digits h) (only_digits_all h) E) as [v ->].
      exists (Some v). simpl. split; [done|]. split; [done|]. intros ?. done. }
  destruct Hcode as (c0 & -> & Hc0).
  unfold int_part.
  destruct rest as [|s1 rest]; fields_reduce; [fields_done|].
  destruct (py_int s1) as [v1|] eqn:E1; fields_reduce; [|fields_done].
  destruct rest as [|s2 rest]; fields_reduce; [fields_done|].
  destruct (py_int s2) as [v2|] eqn:E2; fields_reduce; [|fields_done].
  destruct rest as [|s3 rest]; fields_reduce; [fields_done|].
  destruct (py_int s3) as [v3|] eqn:E3; fields_reduce; [|fields_done].
  destruct rest as [|s4 rest]; fields_reduce; [fields_done|].
  destruct (py_int s4) as [v4|] eqn:E4; fields_reduce; [|fields_done].
  destruct rest as [|s5 rest]; fields_reduce; [fields_done|].
  destruct (py_int s5) as [v5|] eqn:E5; fields_reduce; fields_done.
Qed.

Lemma parse_mx_code_fields_witness :
  (ascii_text "36.02.x.140.06.03" = true /\
   (String.length "36.02.x.140.06.03" <= 4300)%nat) /\
  let parts := split_on "." "36.02.x.140.06.03" in
  let p := parse_mx_code "36.02.x.140.06.03" in
  let parsed k v := exists s, parts !! k = Some s /\ py_int s = Some v in
  let ok k := exists v, parsed k v in
  (f_code p = None <-> exists h rest, parts = h :: rest /\ only_digits h = "") /\
  (forall v, f_floor p = Some v <-> parsed 1%nat v) /\
  (forall v, f_row_num p = Some v <-> ok 1%nat /\ parsed 2%nat v) /\
  (forall v, f_section p = Some v <-> ok 1%nat /\ ok 2%nat /\ parsed 3%nat v) /\
  (forall v, f_shelf p = Some v <->
     ok 1%nat /\ ok 2%nat /\ ok 3%nat /\ parsed 4%nat v) /\
  (forall v, f_cell p = Some v <->
     ok 1%nat /\ ok 2%nat /\ ok 3%nat /\ ok 4%nat /\ parsed 5%nat v).
Proof.
  split; [split; [reflexivity|simpl; lia]|].
  apply (parse_mx_code_fields "36.02.x.140.06.03"); [reflexivity|simpl; lia].
Defined.


(** X20: the two readers of a code agree where both read, on a code of
    ASCII characters no longer than the digits [int] takes. The reader of
    the history export gives either nothing at all or exactly the floor,
    the row and the section that the reader of the import gives (the import
    reading the stripped code); it gives them whenever it gives anything,
    and whenever the import gets as far as the section. They differ only
    when one of these parts does not read as an integer: the export then
    gives nothing, the import keeps the fields before that part. *)
Theorem parse_mx_code_agree code :
  ascii_text code = true -> (String.length code <= 4300)%nat ->
  let p := parse_mx_code (py_strip code) in
  let a := _parse_mx_code (Some code) in
  (a <> no_address -> a = (f_floor p, f_row_num p, f_section p)) /\
  (f_section p <> None -> a = (f_floor p, f_row_num p, f_section p)) /\
  (a = no_address \/ a = (f_floor p, f_row_num p, f_section p)).
Proof.
  intros _ _. cbv zeta. unfold _parse_mx_code, parse_mx_code, truthy. simpl default.
  destruct (String.eqb_spec code "") as [->|Hne]; cbn [negb].
  { vm_compute. split_and!; [done|done|by left]. }
  destruct (split_on_head "." (py_strip code)) as (h & rest & -> & _).
  cbn [try_steps lookup list_lookup].
  assert (Hcode : exists c0,
    (if String.eqb (only_digits h) "" then Some no_fields
     else (fun v => mkFields (Some v) (f_floor no_fields) (f_row_num no_fields)
                      (f_section no_fields) (f_shelf no_fields) (f_cell no_fields))
          <$> py_int (only_digits h))
    = Some (mkFields c0 None None None None None)).
  { destruct (String.eqb_spec (only_digits h) "") as [E|E].
    - by exists None.
    - destruct (py_int_digits (only_digits h) (only_digits_all h) E) as [v ->].
      by exists (Some v). }
  destruct Hcode as (c0 & ->).
  unfold int_part, int_part_or_none, no_address.
  destruct rest as [|s1 rest]; fields_reduce; [naive_solver|].
  destruct (py_int s1) as [v1|] eqn:E1; fields_reduce; [|naive_solver].
  destruct rest as [|s2 rest]; fields_reduce; [naive_solver|].
  destruct (py_int s2) as [v2|] eqn:E2; fields_reduce; [|naive_solver].
  destruct rest as [|s3 rest]; fields_reduce; [naive_solver|].
  destruct (py_int s3) as [v3|] eqn:E3; fields_reduce; [|naive_solver].
  destruct rest as [|s4 rest]; fields_reduce; [naive_solver|].
  destruct (py_int s4) as [v4|] eqn:E4; fields_reduce; [|naive_solver].
  destruct rest as [|s5 rest]; fields_reduce; [naive_solver|].
  destruct (py_int s5) as [v5|] eqn:E5; fields_reduce; naive_solver.
Qed.

Lemma parse_mx_code_agree_witness :
  (ascii_text " 36.02.40.140.06.03 " = true /\
   (String.length " 36.02.40.140.06.03 " <= 4300)%nat) /\
  let p := parse_mx_code (py_strip " 36.02.40.140.06.03 ") in
  let a := _parse_mx_code (Some " 36.02.40.140.06.03 ") in
  (a <> no_address -> a = (f_floor p, f_row_num p, f_section p)) /\
  (f_section p <> None -> a = (f_floor p, f_row_num p, f_section p)) /\
  (a = no_address \/ a = (f_floor p, f_row_num p, f_section p)).
Proof.
  split; [split; [reflexivity|simpl; lia]|].
  apply (parse_mx_code_agree " 36.02.40.140.06.03 "); [reflexivity|simpl; lia].
Defined.

(** ** Zones and parsed addresses *)

Lemma split_on_sep sep a t :
  contains sep a = false ->
  split_on sep (String.append a (String sep t)) = a :: split_on sep t.
Proof.
  induction a as [|c a IH].
  - intros _. change (String.append "" (String sep t)) with (String sep t).
    simpl. by rewrite Ascii.eqb_refl.
  - simpl contains. rewrite orb_false_iff. intros [Hc Ha].
    change (String.append (String c a) (String sep t))
      with (String c (String.append a (String sep t))).
    cbn [split_on]. rewrite Hc, (IH Ha). done.
Qed.

Lemma append_assoc (a b c : string) :
  String.append (String.append a b) c = String.append a (String.append b c).
Proof.
  induction a as [|x a IH]; [done|].
  change (String x (String.append (String.append a b) c)
          = String x (String.append a (String.append b c))).
  by rewrite IH.
Qed.

Lemma py_prefix_append n s : exists t, s = String.append (py_prefix n s) t.
Proof.
  unfold py_prefix. revert s. induction n as [|n IH]; intros s.
  - exists s. by destruct s.
  - destruct s as [|c s]; [by exists ""|]. destruct (IH s) as [t Ht].
    exists t. simpl String.substring.
    change (String c s = String c (String.append (String.substring 0 n s) t)).
    by rewrite <- Ht.
Qed.

Lemma parse_first_fields code a b c r :
  split_on "." code = a :: b :: c :: r ->
  f_code (parse_mx_code code)
  = (if String.eqb (only_digits a) "" then None else py_int (only_digits a)) /\
  f_floor (parse_mx_code code) = py_int b /\
  f_row_num (parse_mx_code code)
  = match py_int b with Some _ => py_int c | None => None end.
Proof.
  intros Hparts. unfold parse_mx_code. rewrite Hparts.
  cbn [try_steps lookup list_lookup].
  assert (Hcode : exists c0,
    (if String.eqb (only_digits a) "" then Some no_fields
     else (fun v => mkFields (Some v) (f_floor no_fields) (f_row_num no_fields)
                      (f_section no_fields) (f_shelf no_fields) (f_cell no_fields))
          <$> py_int (only_digits a))
    = Some (mkFields c0 None None None None None) /\
    c0 = (if String.eqb (only_digits a) "" then None else py_int (only_digits a))).
  { destruct (String.eqb_spec (only_digits a) "") as [E|E].
    - by exists None.
    - destruct (py_int_digits (only_digits a) (only_digits_all a) E) as [v ->].
      by exists (Some v). }
  destruct Hcode as (c0 & -> & <-).
  unfold int_part. fields_reduce.
  destruct (py_int b) as [v1|]; fields_reduce; [|done].
  destruct (py_int c) as [v2|]; fields_reduce; [|done].
  destruct r as [|s3 r]; fields_reduce; [done|].
  destruct (py_int s3) as [v3|]; fields_reduce; [|done].
  destruct r as [|s4 r]; fields_reduce; [done|].
  destruct (py_int s4) as [v4|]; fields_reduce; [|done].
  destruct r as [|s5 r]; fields_reduce; [done|].
  by destruct (py_int s5) as [v5|]; fields_reduce.
Qed.

(** X21: the places of a zone lie on one floor and in one row. For two
    codes of ASCII characters, no longer than the digits [int] takes, whose
    first nine characters are the same three parts, each closed by its dot
    (as in [36.02.40.]), [parse_mx_code] gives both codes the same
    warehouse number, the same floor and the same row, which are those of
    the three parts. *)
Theorem zone_fixes_floor_and_row code1 code2 a b c :
  ascii_text code1 = true -> ascii_text code2 = true ->
  (String.length code1 <= 4300)%nat -> (String.length code2 <= 4300)%nat ->
  contains "." a = false -> contains "." b = false -> contains "." c = false ->
  py_prefix 9 code1
  = String.append a (String "." (String.append b (String "." (String.append c ".")))) ->
  py_prefix 9 code2 = py_prefix 9 code1 ->
  f_code (parse_mx_code code1) = f_code (parse_mx_code code2) /\
  f_floor (parse_mx_code code1) = f_floor (parse_mx_code code2) /\
  f_row_num (parse_mx_code code1) = f_row_num (parse_mx_code code2) /\
  f_floor (parse_mx_code code1) = py_int b /\
  (f_floor (parse_mx_code code1) <> None -> f_row_num (parse_mx_code code1) = py_int c).
Proof.
  intros _ _ _ _ Ha Hb Hc Hp1 Hp2.
  assert (Hparts : forall code,
    py_prefix 9 code
    = String.append a (String "." (String.append b (String "." (String.append c "."))))
    -> exists r, split_on "." code = a :: b :: c :: r).
  { intros code Hp. destruct (py_prefix_append 9 code) as [t Ht].
    rewrite Hp in Ht. exists (split_on "." t). rewrite Ht.
    rewrite append_assoc.
    change (String.append (String "." (String.append b (String "."
              (String.append c ".")))) t)
      with (String "." (String.append (String.append b (String "."
              (String.append c "."))) t)).
    rewrite (split_on_sep "." a _ Ha). f_equal.
    rewrite append_assoc.
    change (String.append (String "." (String.append c ".")) t)
      with (String "." (String.append (String.append c ".") t)).
    rewrite (split_on_sep "." b _ Hb). f_equal.
    rewrite append_assoc.
    change (String.append "." t) with (String "." t).
    by rewrite (split_on_sep "." c _ Hc). }
  destruct (Hparts code1 Hp1) as [r1 H1].
  destruct (Hparts code2 (eq_trans Hp2 Hp1)) as [r2 H2].
  destruct (parse_first_fields code1 a b c r1 H1) as (-> & -> & ->).
  destruct (parse_first_fields code2 a b c r2 H2) as (-> & -> & ->).
  split_and!; try done. by destruct (py_int b).
Qed.

Lemma zone_fixes_floor_and_row_witness :
  (ascii_text "36.02.40.140.06.01" = true /\ ascii_text "36.02.40.150.01.07" = true /\
   (String.length "36.02.40.140.06.01" <= 4300)%nat /\
   (String.length "36.02.40.150.01.07" <= 4300)%nat /\
   contains "." "36" = false /\ contains "." "02" = false /\ contains "." "40" = false /\
   py_prefix 9 "36.02.40.140.06.01"
   = String.append "36" (String "." (String.append "02" (String "."
       (String.append "40" ".")))) /\
   py_prefix 9 "36.02.40.150.01.07" = py_prefix 9 "36.02.40.140.06.01") /\
  f_code (parse_mx_code "36.02.40.140.06.01") = f_code (parse_mx_code "36.02.40.150.01.07") /\
  f_floor (parse_mx_code "36.02.40.140.06.01")
  = f_floor (parse_mx_code "36.02.40.150.01.07") /\
  f_row_num (parse_mx_code "36.02.40.140.06.01")
  = f_row_num (parse_mx_code "36.02.40.150.01.07") /\
  f_floor (parse_mx_code "36.02.40.140.06.01") = py_int "02" /\
  (f_floor (parse_mx_code "36.02.40.140.06.01") <> None ->
   f_row_num (parse_mx_code "36.02.40.140.06.01") = py_int "40").
Proof.
  split; [split_and!; (reflexivity || (simpl; lia))|].
  apply (zone_fixes_floor_and_row "36.02.40.140.06.01" "36.02.40.150.01.07"
           "36" "02" "40"); (reflexivity || (simpl; lia)).
Defined.

(** * The sessions of the users *)

Lemma sessions_quiet_eta c :
  Sessions.quiet c ->
  c = Sessions.mkConn (Sessions.committed c) (Sessions.committed c)
        (Sessions.session_id_seq c) [].
Proof. destruct c as [cm wk sq fl]. intros [Hw Hf]. simpl in *. by subst. Qed.

Lemma deactivated_inactive b s :
  Sessions.badge s = b -> Sessions.is_active (Sessions.deactivated b s) = false.
Proof.
  intros <-. unfold Sessions.deactivated. rewrite String.eqb_refl. simpl.
  by destruct (Sessions.is_active s) eqn:E.
Qed.

Lemma deactivated_other b s :
  Sessions.badge s <> b -> Sessions.deactivated b s = s.
Proof.
  intros H. unfold Sessions.deactivated.
  by rewrite (proj2 (String.eqb_neq _ _) H).
Qed.

Lemma deactivated_badge b s :
  Sessions.badge (Sessions.deactivated b s) = Sessions.badge s.
Proof. unfold Sessions.deactivated. by destruct (_ && _). Qed.

(** X22: a session start leaves the badge with one active session. On a
    store that answers, for a badge that is present and fits its column
    and a login time that is given, the start answers with a fresh session
    id; afterwards the only active session of the badge is the new one,
    with that login time and counters at 0, whatever sessions of the badge
    were active before; these are kept as history, now inactive, and the
    sessions of other badges are untouched. *)
Theorem start_user_session_one_active b t c :
  Sessions.quiet c -> b <> "" -> (String.length b <= 100)%nat ->
  let fresh := Sessions.mkSession (Sessions.session_id_seq c) b t None 0 0 0 None true in
  exists c',
    Sessions.start_user_session (Some b) (Some t) c
    = (Http200 (Sessions.session_id_seq c), c') /\
    Sessions.quiet c' /\
    Sessions.committed c' = (Sessions.deactivated b <$> Sessions.committed c) ++ [fresh] /\
    (forall s, s ∈ Sessions.committed c' -> Sessions.active_of b s <-> s = fresh) /\
    (forall i s, Sessions.committed c !! i = Some s -> Sessions.badge s <> b ->
       Sessions.committed c' !! i = Some s) /\
    (forall i s, Sessions.committed c !! i = Some s -> Sessions.badge s = b ->
       exists s', Sessions.committed c' !! i = Some s' /\
                  Sessions.is_active s' = false /\
                  Sessions.session_id s' = Sessions.session_id s /\
                  Sessions.login_time s' = Sessions.login_time s /\
                  Sessions.total_scanned s' = Sessions.total_scanned s).
Proof.
  intros Hq Hb Hlen fresh. rewrite (sessions_quiet_eta c Hq). simpl.
  eexists. split.
  { unfold Sessions.start_user_session. simpl. rewrite (present_eqb b Hb). simpl.
    unfold mbind, Sessions.M_bind, Sessions.execute_deactivate, Sessions.execute_insert,
      Sessions.commit, mbind, Sessions.M_bind, Sessions.store_call, Sessions.get,
      Sessions.put. simpl.
    rewrite (proj2 (Nat.leb_le _ _) Hlen). simpl. reflexivity. }
  split; [by split|]. split; [done|]. simpl. split_and!.
  - intros s Hs. apply elem_of_app in Hs as [Hs|Hs].
    + apply list_elem_of_fmap in Hs as (s0 & -> & Hs0). split.
      * intros [Hbd Hact]. rewrite deactivated_badge in Hbd.
        rewrite (deactivated_inactive b s0 Hbd) in Hact. done.
      * intros Heq. exfalso.
        assert (Hact : Sessions.is_active (Sessions.deactivated b s0) = true)
          by (by rewrite Heq).
        assert (Hbd : Sessions.badge s0 = b)
          by (by rewrite <- deactivated_badge with (b := b), Heq).
        rewrite (deactivated_inactive b s0 Hbd) in Hact. done.
    + apply list_elem_of_singleton in Hs as ->. by split.
  - intros i s Hi Hne. apply lookup_app_l_Some.
    rewrite list_lookup_fmap, Hi. simpl. by rewrite deactivated_other.
  - intros i s Hi Hbd. exists (Sessions.deactivated b s). split_and!.
    + apply lookup_app_l_Some. by rewrite list_lookup_fmap, Hi.
    + by apply deactivated_inactive.
    + unfold Sessions.deactivated. by destruct (_ && _).
    + unfold Sessions.deactivated. by destruct (_ && _).
    + unfold Sessions.deactivated. by destruct (_ && _).
Qed.

Lemma start_user_session_one_active_witness :
  (Sessions.quiet sample_sessions /\ "1234" <> "" /\ (String.length "1234" <= 100)%nat) /\
  let fresh :=
    Sessions.mkSession (Sessions.session_id_seq sample_sessions) "1234" 40 None 0 0 0
      None true in
  exists c',
    Sessions.start_user_session (Some "1234") (Some 40) sample_sessions
    = (Http200 (Sessions.session_id_seq sample_sessions), c') /\
    Sessions.quiet c' /\
    Sessions.committed c'
    = (Sessions.deactivated "1234" <$> Sessions.committed sample_sessions) ++ [fresh] /\
    (forall s, s ∈ Sessions.committed c' -> Sessions.active_of "1234" s <-> s = fresh) /\
    (forall i s, Sessions.committed sample_sessions !! i = Some s ->
       Sessions.badge s <> "1234" -> Sessions.committed c' !! i = Some s) /\
    (forall i s, Sessions.committed sample_sessions !! i = Some s ->
       Sessions.badge s = "1234" ->
       exists s', Sessions.committed c' !! i = Some s' /\
                  Sessions.is_active s' = false /\
                  Sessions.session_id s' = Sessions.session_id s /\
                  Sessions.login_time s' = Sessions.login_time s /\
                  Sessions.total_scanned s' = Sessions.total_scanned s).
Proof.
  split; [split_and!; (done || (simpl; lia))|].
  apply (start_user_session_one_active "1234" 40 sample_sessions);
    [by split|done|simpl; lia].
Defined.

(** X23: a session start is all or nothing. From a connection without
    pending writes and whatever the store does, a start with badge and
    login time present answers 200 or 500, never 400; with the 500 the
    table is as it was, so that the sessions that were active still are,
    and nothing is pending; with the 200 the earlier sessions of the badge
    are inactive and the new one is committed. A badge too long for its
    column always ends in the 500. *)
Theorem start_user_session_all_or_nothing b t c plan :
  Sessions.working c = Sessions.committed c -> b <> "" ->
  let c0 := Sessions.mkConn (Sessions.committed c) (Sessions.working c)
              (Sessions.session_id_seq c) plan in
  exists r c',
    Sessions.start_user_session (Some b) (Some t) c0 = (r, c') /\
    Sessions.working c' = Sessions.committed c' /\
    match r with
    | Http200 id =>
      id = Sessions.session_id_seq c /\ (String.length b <= 100)%nat /\
      Sessions.committed c'
      = (Sessions.deactivated b <$> Sessions.committed c)
        ++ [Sessions.mkSession id b t None 0 0 0 None true]
    | HttpError code _ => code = 500 /\ Sessions.committed c' = Sessions.committed c
    end.
Proof.
  intros Hw Hb. destruct c as [cm wk sq fl]. simpl in Hw. subst wk. simpl.
  unfold Sessions.start_user_session. simpl. rewrite (present_eqb b Hb). simpl.
  unfold mbind, Sessions.M_bind, Sessions.execute_deactivate, Sessions.execute_insert,
    Sessions.commit, mbind, Sessions.M_bind, Sessions.store_call, Sessions.get,
    Sessions.put, Sessions.raise, Sessions.rollback. simpl.
  destruct plan as [|[|] plan]; simpl; [|by eexists _, _|].
  - destruct (String.length b <=? 100)%nat eqn:E; simpl; eexists _, _;
      (split; [done|]); (split; [done|]); [|done].
    apply Nat.leb_le in E. done.
  - destruct plan as [|[|] plan]; simpl; [|by eexists _, _|].
    + destruct (String.length b <=? 100)%nat eqn:E; simpl; eexists _, _;
        (split; [done|]); (split; [done|]); [|done].
      apply Nat.leb_le in E. done.
    + destruct (String.length b <=? 100)%nat eqn:E; simpl; [|by eexists _, _].
      apply Nat.leb_le in E.
      destruct plan as [|[|] plan]; simpl; by eexists _, _.
Qed.

Lemma start_user_session_all_or_nothing_witness :
  (Sessions.working sample_sessions = Sessions.committed sample_sessions /\ "1234" <> "") /\
  let c0 := Sessions.mkConn (Sessions.committed sample_sessions)
              (Sessions.working sample_sessions)
              (Sessions.session_id_seq sample_sessions) [false; false; true] in
  exists r c',
    Sessions.start_user_session (Some "1234") (Some 40) c0 = (r, c') /\
    Sessions.working c' = Sessions.committed c' /\
    match r with
    | Http200 id =>
      id = Sessions.session_id_seq sample_sessions /\ (String.length "1234" <= 100)%nat /\
      Sessions.committed c'
      = (Sessions.deactivated "1234" <$> Sessions.committed sample_sessions)
        ++ [Sessions.mkSession id "1234" 40 None 0 0 0 None true]
    | HttpError code _ =>
      code = 500 /\ Sessions.committed c' = Sessions.committed sample_sessions
    end.
Proof.
  split; [by split|].
  apply (start_user_session_all_or_nothing "1234" 40 sample_sessions [false; false; true]);
    done.
Defined.

Lemma counted_spec b total wd nd s :
  Sessions.counted b total wd nd s
  = if decide (Sessions.active_of b s)
    then Sessions.mkSession (Sessions.session_id s) (Sessions.badge s)
           (Sessions.login_time s) (Sessions.logout_time s) total wd nd
           (Sessions.session_duration s) true
    else s.
Proof.
  unfold Sessions.counted, Sessions.active_of.
  destruct (String.eqb_spec (Sessions.badge s) b) as [E|E]; simpl.
  - destruct (Sessions.is_active s) eqn:Ea.
    + by rewrite decide_True.
    + rewrite decide_False; [done|]. intros [_ H]. done.
  - rewrite decide_False; [done|]. intros [H _]. done.
Qed.

(** X24: an update of the counters reaches the active sessions of the
    badge and nothing else. On a store that answers, for a badge that is
    present and counters within 32 bits, it sets the three counters of every
    active session of the badge and leaves every other row as it is; and it
    answers success also when the badge has no active session, in which
    case nothing changes. After a session start it is the new session that
    counts. *)
Theorem update_user_session_targets_active b total wd nd c :
  Sessions.quiet c -> b <> "" ->
  Sessions.int4 total = true -> Sessions.int4 wd = true -> Sessions.int4 nd = true ->
  exists c',
    Sessions.update_user_session (Some b) total wd nd c = (Http200 true, c') /\
    Sessions.quiet c' /\
    (forall i s, Sessions.committed c !! i = Some s ->
       Sessions.committed c' !! i
       = Some (if decide (Sessions.active_of b s)
               then Sessions.mkSession (Sessions.session_id s) (Sessions.badge s)
                      (Sessions.login_time s) (Sessions.logout_time s) total wd nd
                      (Sessions.session_duration s) true
               else s)) /\
    ((forall s, s ∈ Sessions.committed c -> ~ Sessions.active_of b s) ->
     Sessions.committed c' = Sessions.committed c).
Proof.
  intros Hq Hb H1 H2 H3. rewrite (sessions_quiet_eta c Hq). simpl.
  eexists. split.
  { unfold Sessions.update_user_session. simpl. rewrite (present_eqb b Hb). simpl.
    unfold mbind, Sessions.M_bind, Sessions.execute_count, Sessions.commit, mbind,
      Sessions.M_bind, Sessions.store_call, Sessions.get, Sessions.put. simpl.
    rewrite H1, H2, H3. simpl. reflexivity. }
  split; [by split|]. simpl. split.
  - intros i s Hi. rewrite list_lookup_fmap, Hi. simpl. by rewrite counted_spec.
  - intros Hnone. rewrite <- (list_fmap_id (Sessions.committed c)) at 2.
    apply list_fmap_ext. intros i s Hi. rewrite counted_spec.
    rewrite decide_False; [done|]. apply Hnone. by apply list_elem_of_lookup_2 with i.
Qed.

Lemma update_user_session_targets_active_witness :
  (Sessions.quiet sample_sessions /\ "7777" <> "" /\
   Sessions.int4 9 = true /\ Sessions.int4 2 = true /\ Sessions.int4 7 = true) /\
  exists c',
    Sessions.update_user_session (Some "7777") 9 2 7 sample_sessions
    = (Http200 true, c') /\
    Sessions.quiet c' /\
    (forall i s, Sessions.committed sample_sessions !! i = Some s ->
       Sessions.committed c' !! i
       = Some (if decide (Sessions.active_of "7777" s)
               then Sessions.mkSession (Sessions.session_id s) (Sessions.badge s)
                      (Sessions.login_time s) (Sessions.logout_time s) 9 2 7
                      (Sessions.session_duration s) true
               else s)) /\
    ((forall s, s ∈ Sessions.committed sample_sessions ->
        ~ Sessions.active_of "7777" s) ->
     Sessions.committed c' = Sessions.committed sample_sessions).
Proof.
  split; [by split_and!|].
  apply (update_user_session_targets_active "7777" 9 2 7 sample_sessions);
    [by split|done|done|done|done].
Defined.
